(** * PyABSA: aspect-polarity inference data pipeline, trainer and classifier

    A shallow embedding of

    - [pyabsa/apc/dataset_utils/data_utils_for_inferring.py] ([ABSADataset]),
    - [pyabsa/tasks/apc/training/apc_trainer.py] ([Instructor]),
    - [pyabsa/apc/prediction/prediction.py] ([SentimentClassifier]),

    and the properties proved about them.

    Conventions of the embedding.

    - A Python [str] is a [string]: a sequence of code points below 256.
    - A Python exception is a value of [exn]; a function that may raise
      returns a [result].  A [try ... except] is a [match] on the result.
    - [print] appends to an explicit list of printed items.
    - numpy float arrays are lists of rationals ([Q]): the arithmetic of the
      source is followed exactly, the rounding of float32 storage is not
      modelled.  Integer arrays are lists of [Z].
    - The tokenizer, the dependency parser, the neural model and the random
      generator are collaborators outside these files: they are section
      variables (or fields of a record) and every theorem holds for all of
      them. *)

From Stdlib Require Import String Ascii List ZArith QArith Qround Lia Lqa Bool.
From Stdlib Require Import Permutation Sorted.
Import ListNotations.

Local Open Scope string_scope.
Local Open Scope list_scope.
Local Open Scope Z_scope.

(* ===================================================================== *)
(** * Exceptions *)
(* ===================================================================== *)

(** A dictionary key: a string or an integer. *)
Inductive key : Type :=
| KStr (s : string)
| KInt (z : Z).

Inductive exn : Type :=
| IndexError
| ValueError
| TypeError
| AttributeError
| FileNotFoundError (msg : string)
| KeyError (k : key)
| NameError (name : string)
| ZeroDivisionError
| AssertionError (msg : string)
| NotImplementedError (msg : string)
| RuntimeError (args : list string).

Inductive result (A : Type) : Type :=
| Ok (a : A)
| Raise (e : exn).

Arguments Ok {A} a.
Arguments Raise {A} e.

Definition bind {A B : Type} (r : result A) (k : A -> result B) : result B :=
  match r with
  | Ok a => k a
  | Raise e => Raise e
  end.

Declare Scope result_scope.
Delimit Scope result_scope with result.
Notation "x <- c ;; k" := (bind c (fun x => k))
  (at level 61, c at next level, right associativity) : result_scope.
Notation "' p <- c ;; k" := (bind c (fun x => let p := x in k))
  (at level 61, p pattern, c at next level, right associativity) : result_scope.
Local Open Scope result_scope.

(** [l[i]] for a non-negative index. *)
Definition index {A : Type} (l : list A) (i : nat) : result A :=
  match nth_error l i with
  | Some a => Ok a
  | None => Raise IndexError
  end.

(** [for i in range(start, start + count): s = body(i, s)], stopping at the
    first exception. *)
Fixpoint for_range {S : Type} (body : nat -> S -> result S)
         (start count : nat) (s : S) : result S :=
  match count with
  | O => Ok s
  | Datatypes.S k => s' <- body start s ;; for_range body (Datatypes.S start) k s'
  end.

(** [range(0, stop, 2)]. *)
Definition range2 (stop : nat) : list nat :=
  map (fun k => (2 * k)%nat) (seq 0 (Nat.div2 (stop + 1))).

(* ===================================================================== *)
(** * Python strings *)
(* ===================================================================== *)

Module PyStr.

(** [s.startswith(p)] *)
Fixpoint startswith (p s : string) : bool :=
  match p, s with
  | EmptyString, _ => true
  | String _ _, EmptyString => false
  | String a p', String b s' => if Ascii.eqb a b then startswith p' s' else false
  end.

(** [sub in s] *)
Fixpoint contains (sub s : string) : bool :=
  startswith sub s ||
  match s with
  | EmptyString => false
  | String _ s' => contains sub s'
  end.

(** [s.split(sep)] for a non-empty [sep] (every separator of the source is a
    non-empty literal).  [skip] counts the characters of a matched separator
    still to be dropped. *)
Fixpoint split_from (sep : string) (skip : nat) (s : string) : list string :=
  match s with
  | EmptyString => [EmptyString]
  | String c s' =>
      match skip with
      | S k => split_from sep k s'
      | O =>
          if startswith sep s
          then EmptyString :: split_from sep (String.length sep - 1) s'
          else match split_from sep O s' with
               | p :: ps => String c p :: ps
               | [] => [String c EmptyString]
               end
      end
  end.

Definition split (sep s : string) : list string := split_from sep 0 s.

(** [s.replace(old, new)] for a non-empty [old]. *)
Fixpoint replace_from (old new : string) (skip : nat) (s : string) : string :=
  match s with
  | EmptyString => EmptyString
  | String c s' =>
      match skip with
      | S k => replace_from old new k s'
      | O =>
          if startswith old s
          then new ++ replace_from old new (String.length old - 1) s'
          else String c (replace_from old new O s')
      end
  end.

(** [s.replace('', new)]: [new] before every character and at the end. *)
Fixpoint replace_empty (new s : string) : string :=
  match s with
  | EmptyString => new
  | String c s' => new ++ String c (replace_empty new s')
  end.

Definition replace (old new s : string) : string :=
  match old with
  | EmptyString => replace_empty new s
  | String _ _ => replace_from old new 0 s
  end.

(** [c.isspace()] on code points below 256. *)
Definition isspace (c : ascii) : bool :=
  let n := N_of_ascii c in
  ((9 <=? n) && (n <=? 13) || (28 <=? n) && (n <=? 32)
   || (n =? 133) || (n =? 160))%N.

Fixpoint lstrip (s : string) : string :=
  match s with
  | EmptyString => EmptyString
  | String c s' => if isspace c then lstrip s' else s
  end.

Fixpoint rstrip (s : string) : string :=
  match s with
  | EmptyString => EmptyString
  | String c s' =>
      match rstrip s' with
      | EmptyString => if isspace c then EmptyString else String c EmptyString
      | r => String c r
      end
  end.

(** [s.strip()] *)
Definition strip (s : string) : string := rstrip (lstrip s).

(** The word being read and the words after it. *)
Fixpoint split_ws_from (s : string) : string * list string :=
  match s with
  | EmptyString => (EmptyString, [])
  | String c s' =>
      let '(w, ws) := split_ws_from s' in
      if isspace c
      then (EmptyString, match w with EmptyString => ws | _ => w :: ws end)
      else (String c w, ws)
  end.

(** [s.split()]: the maximal runs of non-whitespace characters. *)
Definition split_ws (s : string) : list string :=
  let '(w, ws) := split_ws_from s in
  match w with EmptyString => ws | _ => w :: ws end.

(** [sep.join(l)] *)
Definition join (sep : string) (l : list string) : string := String.concat sep l.

Definition digit_of (c : ascii) : option Z :=
  let n := N_of_ascii c in
  if ((48 <=? n) && (n <=? 57))%N then Some (Z.of_N n - 48) else None.

(** The digits of a decimal literal, with single underscores between
    digits. *)
Fixpoint int_digits (acc : Z) (after_digit : bool) (s : string) : option Z :=
  match s with
  | EmptyString => if after_digit then Some acc else None
  | String c s' =>
      if Ascii.eqb c "_"
      then if after_digit then int_digits acc false s' else None
      else match digit_of c with
           | Some d => int_digits (10 * acc + d) true s'
           | None => None
           end
  end.

(** [int(s)] on ASCII decimal literals. *)
Definition int (s : string) : result Z :=
  let body :=
    match strip s with
    | String "-" r => option_map Z.opp (int_digits 0 false r)
    | String "+" r => int_digits 0 false r
    | r => int_digits 0 false r
    end in
  match body with
  | Some z => Ok z
  | None => Raise ValueError
  end.

(** [l[a:]] and [l[:b]] for integers [a] and [b] of either sign. *)
Definition clamp_index (n : nat) (a : Z) : nat :=
  if a <? 0 then Z.to_nat (Z.max 0 (Z.of_nat n + a))
  else Nat.min (Z.to_nat a) n.

Definition slice_from {A : Type} (a : Z) (l : list A) : list A :=
  skipn (clamp_index (List.length l) a) l.

Definition slice_to {A : Type} (b : Z) (l : list A) : list A :=
  firstn (clamp_index (List.length l) b) l.

End PyStr.


(* ===================================================================== *)
(** * numpy helpers *)
(* ===================================================================== *)

Definition Qlt_bool (x y : Q) : bool := negb (Qle_bool y x).

(** [max(0, x)]: Python's [max] keeps its first argument unless a later one
    is greater. *)
Definition py_max0 (x : Q) : Q := if Qlt_bool 0 x then x else 0%Q.

(** [np.count_nonzero(a)] *)
Definition count_nonzero (a : list Z) : Z :=
  Z.of_nat (List.length (filter (fun x => negb (x =? 0)) a)).

Fixpoint find_index (p : Z -> bool) (a : list Z) : option nat :=
  match a with
  | [] => None
  | x :: a' => if p x then Some O else option_map S (find_index p a')
  end.

Fixpoint find_last_index (p : Z -> bool) (a : list Z) : option nat :=
  match a with
  | [] => None
  | x :: a' =>
      match find_last_index p a' with
      | Some i => Some (S i)
      | None => if p x then Some O else None
      end
  end.

(** [np.argwhere(a == x)[0]] *)
Definition argwhere_first (a : list Z) (x : Z) : result nat :=
  match find_index (Z.eqb x) a with
  | Some i => Ok i
  | None => Raise IndexError
  end.

(** [np.flatnonzero(a)[-1]] *)
Definition flatnonzero_last (a : list Z) : result nat :=
  match find_last_index (fun x => negb (x =? 0)) a with
  | Some i => Ok i
  | None => Raise IndexError
  end.

(** [np.ones((n,))], [np.ones((r, c))], [np.zeros((r, c))] *)
Definition ones (n : nat) : list Q := repeat 1%Q n.
Definition ones2 (r c : nat) : list (list Q) := repeat (ones c) r.
Definition zeros2 (r c : nat) : list (list Q) := repeat (repeat 0%Q c) r.

(** [w * np.ones((n,))] *)
Definition scaled_ones (w : Q) (n : nat) : list Q := map (Qmult w) (ones n).

(** [a[i] = v] for a non-negative [i]. *)
Definition set_item {A : Type} (a : list A) (i : nat) (v : A) : result (list A) :=
  if (i <? List.length a)%nat
  then Ok (firstn i a ++ v :: skipn (S i) a)
  else Raise IndexError.

(** [torch.from_numpy(a).long()]: truncation toward zero. *)
Definition long (a : list Q) : list Z :=
  map (fun q => Z.quot (Qnum q) (Z.pos (Qden q))) a.

(* ===================================================================== *)
(** * Configuration and collaborators *)
(* ===================================================================== *)

(** The fields of [opt] these files read. *)
Record Opt : Type := mkOpt {
  model_name : string;
  lcf : string;
  SRD : Z;
  max_seq_len : nat;
  embed_dim : nat;
  cross_validate_fold : Z;
  batch_size : Z;
  num_epoch : nat;
  log_step : Z;
  evaluate_begin : Z;
  model_path_to_save : string;
  dataset_file_has_test : bool;
  inputs_cols : list string
}.

(** [Tokenizer4Bert], defined in [apc_utils]. *)
Record Tokenizer : Type := mkTokenizer {
  tok_max_seq_len : Z;
  cls_token : string;
  sep_token : string;
  text_to_sequence : string -> list Z;
  tokenize : list string -> list Z -> list string * list Z
}.

Inductive printed : Type :=
| Print (args : list string)
| PrintExn (e : exn).

(** [ABSADataset.input_colses] *)
Definition input_colses : list (string * list string) :=
  [ ("bert_base", ["text_raw_bert_indices"]);
    ("bert_spc", ["text_raw_bert_indices"]);
    ("lca_bert", ["text_bert_indices"; "text_raw_bert_indices"; "lca_ids"; "lcf_vec"]);
    ("lcf_bert", ["text_bert_indices"; "text_raw_bert_indices"; "lcf_vec"]);
    ("slide_lcf_bert",
      ["text_bert_indices"; "spc_mask_vec"; "lcf_vec"; "left_lcf_vec"; "right_lcf_vec"]);
    ("slide_lcfs_bert",
      ["text_bert_indices"; "spc_mask_vec"; "lcf_vec"; "left_lcf_vec"; "right_lcf_vec"]);
    ("lcfs_bert", ["text_bert_indices"; "text_raw_bert_indices"; "lcf_vec"]) ].

Fixpoint dict_get {V : Type} (d : list (string * V)) (k : string) : result V :=
  match d with
  | [] => Raise (KeyError (KStr k))
  | (k', v) :: d' => if String.eqb k k' then Ok v else dict_get d' k
  end.

(** [x in l] for a list of strings. *)
Definition mem (x : string) (l : list string) : bool :=
  existsb (String.eqb x) l.

(** One record of [all_data].  A column the model does not read holds the
    scalar placeholder [0]: [None] here.  [left_lcf_vec] and [right_lcf_vec]
    are the keys [copy_side_aspect] adds; they are absent ([None]) until
    then and hold the value of a record's [lcf_vec] afterwards. *)
Record Feature : Type := mkFeature {
  text_raw : string;
  aspect : string;
  asp_index : Q;
  lca_ids : option (list Z);
  lcf_vec : option (list (list Q));
  spc_mask_vec : option (list (list Q));
  text_bert_indices : option (list Z);
  aspect_bert_indices : option (list Z);
  text_raw_bert_indices : option (list Z);
  polarity : Z;
  left_lcf_vec : option (option (list (list Q)));
  right_lcf_vec : option (option (list (list Q)))
}.

Inductive side : Type := left_side | right_side.

(** Modelled from the spec: [copy_side_aspect] of [apc_utils], which is not
    among the source files.  It copies the source record's local-context
    vector into the target's [left_lcf_vec] or [right_lcf_vec]. *)
Definition copy_side_aspect (direct : side) (target source : Feature) : Feature :=
  match direct with
  | left_side =>
      mkFeature (text_raw target) (aspect target) (asp_index target) (lca_ids target)
        (lcf_vec target) (spc_mask_vec target) (text_bert_indices target)
        (aspect_bert_indices target) (text_raw_bert_indices target) (polarity target)
        (Some (lcf_vec source)) (right_lcf_vec target)
  | right_side =>
      mkFeature (text_raw target) (aspect target) (asp_index target) (lca_ids target)
        (lcf_vec target) (spc_mask_vec target) (text_bert_indices target)
        (aspect_bert_indices target) (text_raw_bert_indices target) (polarity target)
        (left_lcf_vec target) (Some (lcf_vec source))
  end.

(* ===================================================================== *)
(** * [ABSADataset] (data_utils_for_inferring.py) *)
(* ===================================================================== *)

Section Dataset.

Variable tokenizer : Tokenizer.
Variable opt : Opt.

(** [calculate_dep_dist] and [is_similar] of [apc_utils]. *)
Variable calculate_dep_dist : string -> string -> list string * list Z.
Variable is_similar : option (list Z) -> option (list Z) -> bool.

(** The state of the [try] block of [parse_sample] when it ends: the value
    of the variable [text], the samples appended so far, what was printed,
    and the exception that ended it, if any. *)
Record parse_state : Type := mkParseState {
  ps_text : string;
  ps_samples : list string;
  ps_out : list printed;
  ps_raised : option exn
}.

(** [for i in idxs: samples.append(mk(i))], keeping the samples appended
    before an exception. *)
Fixpoint build_samples (mk : nat -> result string) (idxs : list nat)
         (samples : list string) : list string * option exn :=
  match idxs with
  | [] => (samples, None)
  | i :: rest =>
      match mk i with
      | Ok sample => build_samples mk rest (samples ++ [sample])
      | Raise e => (samples, Some e)
      end
  end.

Definition parse_sample_try (text : string) : parse_state :=
  if negb (PyStr.contains "!sent!" text) then
    let splits := PyStr.split "[ASP]" text in
    let mk i :=
      a <- index splits (i + 1) ;;
      Ok (PyStr.replace a ("[ASP]" ++ a ++ "[ASP]")%string (PyStr.replace "[ASP]" "" text)) in
    let '(samples, raised) := build_samples mk (range2 (List.length splits - 1)) [] in
    mkParseState text samples [] raised
  else
    match PyStr.split "!sent!" text with
    | [text1; ref_sent] =>
        let ref_sent := PyStr.split_ws ref_sent in
        let text := ("[PADDING] " ++ text1 ++ " [PADDING]")%string in
        let splits := PyStr.split "[ASP]" text in
        let mark i :=
          a <- index splits (i + 1) ;;
          Ok (PyStr.replace "[ASP]" ""
                (PyStr.replace ("[ASP]" ++ a ++ "[ASP]")%string
                   ("[TEMP]" ++ a ++ "[TEMP]")%string text)) in
        if (Nat.div2 (List.length splits - 1) =? List.length ref_sent)%nat then
          let mk i :=
            sample <- mark i ;;
            r <- index ref_sent (Nat.div2 i) ;;
            Ok (PyStr.replace "[TEMP]" "[ASP]" (sample ++ " !sent! " ++ r)%string) in
          let '(samples, raised) := build_samples mk (range2 (List.length splits - 1)) [] in
          mkParseState text samples [] raised
        else
          let out :=
            [Print [text; " -> Unequal length of reference sentiment and aspects, ingore the refernece sentiment."]] in
          let mk i :=
            sample <- mark i ;;
            Ok (PyStr.replace "[TEMP]" "[ASP]" sample) in
          let '(samples, raised) := build_samples mk (range2 (List.length splits - 1)) [] in
          mkParseState text samples out raised
    | _ => mkParseState text [] [] (Some ValueError)
    end.

(** The samples returned and the lines printed. *)
Definition parse_sample (text : string) : list string * list printed :=
  let st := parse_sample_try text in
  match ps_raised st with
  | None => (ps_samples st, ps_out st)
  | Some _ => (ps_samples st, ps_out st ++ [Print ["Error while processing:"; ps_text st]])
  end.

Definition get_asp_index (text_ids aspect_indices : list Z) : result Q :=
  let aspect_len := count_nonzero aspect_indices - 2 in
  first_token <- index aspect_indices 1 ;;
  aspect_begin <- argwhere_first text_ids first_token ;;
  let asp_avg_index :=
    (inject_Z (Z.of_nat aspect_begin * 2 + aspect_len) / inject_Z 2)%Q in
  Ok asp_avg_index.

(** [syntactical_dist] as both weighting functions compute it. *)
Definition syntactical_dist_of (text_raw aspect : string) : list Z :=
  let '(raw_tokens, dist) := calculate_dep_dist text_raw aspect in
  let raw_tokens := cls_token tokenizer :: raw_tokens ++ [sep_token tokenizer] in
  let dist := 0 :: dist ++ [0] in
  snd (tokenize tokenizer raw_tokens dist).

(** The body shared by the two loops of [get_lca_ids_and_cdm_vec]. *)
Definition mark_local (i : nat) (arrs : list Q * list (list Q))
  : result (list Q * list (list Q)) :=
  let '(lca_ids, cdm_vec) := arrs in
  lca_ids <- set_item lca_ids i 1%Q ;;
  cdm_vec <- set_item cdm_vec i (ones (embed_dim opt)) ;;
  Ok (lca_ids, cdm_vec).

Definition get_lca_ids_and_cdm_vec (text_ids aspect_indices : list Z)
           (text_raw aspect : string) : result (list Q * list (list Q)) :=
  let SRD := SRD opt in
  let lca_ids := ones (max_seq_len opt) in
  let cdm_vec := ones2 (max_seq_len opt) (embed_dim opt) in
  let aspect_len := count_nonzero aspect_indices - 2 in
  if PyStr.contains "lcfs" (model_name opt) then
    let syntactical_dist := syntactical_dist_of text_raw aspect in
    for_range
      (fun i arrs =>
         d <- index syntactical_dist i ;;
         if d <=? SRD then mark_local i arrs else Ok arrs)
      0 (max_seq_len opt) (lca_ids, cdm_vec)
  else
    aspect_begin <- get_asp_index text_ids aspect_indices ;;
    if Qlt_bool aspect_begin 0 then Ok (lca_ids, cdm_vec)
    else
      let local_context_begin := py_max0 (aspect_begin - inject_Z SRD) in
      let local_context_end :=
        (aspect_begin + inject_Z aspect_len + inject_Z SRD - 1)%Q in
      for_range
        (fun i arrs =>
           let iq := inject_Z (Z.of_nat i) in
           if Qle_bool local_context_begin iq && Qle_bool iq local_context_end
           then mark_local i arrs else Ok arrs)
        0 (max_seq_len opt) (lca_ids, cdm_vec).

(** The weight the absolute-position loop of [get_cdw_vec] gives position
    [i]; [None] when no branch of the [if] chain is taken. *)
Definition cdw_weight (local_context_begin local_context_end : Q) (text_len : nat)
           (i : nat) : option Q :=
  let iq := inject_Z (Z.of_nat i) in
  let tl := inject_Z (Z.of_nat text_len) in
  if Qlt_bool iq local_context_begin
  then Some (1 - (local_context_begin - iq) / tl)%Q
  else if Qle_bool local_context_begin iq && Qle_bool iq local_context_end
  then Some 1%Q
  else if Qlt_bool local_context_end iq
  then Some (1 - (iq - local_context_end) / tl)%Q
  else None.

Definition get_cdw_vec (text_ids aspect_indices : list Z)
           (text_raw aspect : string) : result (list (list Q)) :=
  let SRD := SRD opt in
  let cdw_vec := zeros2 (max_seq_len opt) (embed_dim opt) in
  let aspect_len := count_nonzero aspect_indices - 2 in
  first_token <- index aspect_indices 1 ;;
  _ <- argwhere_first text_ids first_token ;;
  last_nonzero <- flatnonzero_last text_ids ;;
  let text_len := (last_nonzero + 1)%nat in
  if PyStr.contains "lcfs" (model_name opt) then
    let syntactical_dist := syntactical_dist_of text_raw aspect in
    for_range
      (fun i cdw_vec =>
         d <- index syntactical_dist i ;;
         if SRD <? d then
           let w := (1 - inject_Z d / inject_Z (Z.of_nat text_len))%Q in
           set_item cdw_vec i (scaled_ones w (embed_dim opt))
         else set_item cdw_vec i (ones (embed_dim opt)))
      0 text_len cdw_vec
  else
    aspect_begin <- get_asp_index text_ids aspect_indices ;;
    if Qlt_bool aspect_begin 0 then Ok (zeros2 (max_seq_len opt) (embed_dim opt))
    else
      let local_context_begin := py_max0 (aspect_begin - inject_Z SRD) in
      let local_context_end :=
        (aspect_begin + inject_Z aspect_len + inject_Z SRD - 1)%Q in
      for_range
        (fun i cdw_vec =>
           match cdw_weight local_context_begin local_context_end text_len i with
           | Some w => set_item cdw_vec i (scaled_ones w (embed_dim opt))
           | None => Ok cdw_vec
           end)
        0 text_len cdw_vec.

Definition build_spc_mask_vec (text_ids : list Z) : result (list (list Q)) :=
  let spc_mask_vec := zeros2 (max_seq_len opt) (embed_dim opt) in
  for_range
    (fun i spc_mask_vec =>
       t <- index text_ids i ;;
       if negb (t =? 0) then set_item spc_mask_vec i (ones (embed_dim opt))
       else Ok spc_mask_vec)
    0 (List.length text_ids) spc_mask_vec.

(** Lines 83-91 of [process_data]: the value of [text] afterwards and the
    polarity, or the exception raised. *)
Definition check_polarity (text : string) : string * result Z :=
  if String.eqb "" (PyStr.strip text) then (text, Raise (RuntimeError ["Invalid Input!"]))
  else if PyStr.contains "!sent!" text then
    let parts := PyStr.split "!sent!" text in
    match index parts 0, index parts 1 with
    | Ok p0, Ok p1 =>
        let text := PyStr.strip p0 in
        let polarity := PyStr.strip p1 in
        (text,
         match polarity with
         | EmptyString => Ok (-999)
         | _ => v <- PyStr.int polarity ;; Ok (v + 1)
         end)
    | Raise e, _ => (text, Raise e)
    | _, Raise e => (text, Raise e)
    end
  else (text, Ok (-999)).

(** A local variable that is assigned on some branches only. *)
Definition read_var {A : Type} (name : string) (v : option A) : result A :=
  match v with
  | Some a => Ok a
  | None => Raise (NameError name)
  end.

(** [v if col in input_colses[model_name] else 0] *)
Definition column {A : Type} (col : string) (v : result A) : result (option A) :=
  cols <- dict_get input_colses (model_name opt) ;;
  if mem col cols then a <- v ;; Ok (Some a) else Ok None.

(** Lines 92-148 of [process_data]: the record built from a sample whose
    polarity is known. *)
Definition build_feature (text : string) (polarity : Z) : result Feature :=
  match PyStr.split "[ASP]" text with
  | [text_left; aspect; text_right] =>
      let text_left := PyStr.replace "[PADDING] " "" text_left in
      let text_right := PyStr.replace " [PADDING]" "" text_right in
      let room := tok_max_seq_len tokenizer - Z.of_nat (List.length (PyStr.split_ws aspect)) in
      let text_left :=
        PyStr.join " " (PyStr.slice_from (Z.quot (- room) 2 - 1) (PyStr.split " " text_left)) in
      let text_right :=
        PyStr.join " " (PyStr.slice_to (Z.quot room 2 + 1) (PyStr.split " " text_right)) in
      let text_left := PyStr.join " " (PyStr.split " " text_left) in
      let text_right := PyStr.join " " (PyStr.split " " text_right) in
      let text_raw := (text_left ++ " " ++ aspect ++ " " ++ text_right)%string in
      let text_bert_indices :=
        text_to_sequence tokenizer
          ("[CLS] " ++ text_raw ++ " [SEP] " ++ aspect ++ " [SEP]")%string in
      let text_raw_bert_indices :=
        text_to_sequence tokenizer ("[CLS] " ++ text_raw ++ " [SEP]")%string in
      let aspect_bert_indices :=
        text_to_sequence tokenizer ("[CLS] " ++ aspect ++ " [SEP]")%string in
      '(lca_ids, lcf_vec) <-
        (if PyStr.contains "lca" (model_name opt) then
           '(lca_ids, lcf_vec) <-
             get_lca_ids_and_cdm_vec text_bert_indices aspect_bert_indices text_raw aspect ;;
           Ok (Some (long lca_ids), Some lcf_vec)
         else if PyStr.contains "lcf" (model_name opt) then
           if PyStr.contains "cdm" (lcf opt) then
             '(_, lcf_vec) <-
               get_lca_ids_and_cdm_vec text_bert_indices aspect_bert_indices text_raw aspect ;;
             Ok (None, Some lcf_vec)
           else if PyStr.contains "cdw" (lcf opt) then
             lcf_vec <- get_cdw_vec text_bert_indices aspect_bert_indices text_raw aspect ;;
             Ok (None, Some lcf_vec)
           else if PyStr.contains "fusion" (lcf opt) then
             Raise (NotImplementedError "LCF-Fusion is not recommended due to its low efficiency!")
           else Raise (KeyError (KStr "Invalid LCF Mode!"))
         else Ok (None, None)) ;;
      _ <- dict_get input_colses (model_name opt) ;;
      asp_index <- get_asp_index text_bert_indices aspect_bert_indices ;;
      lca_ids <- column "lca_ids" (read_var "lca_ids" lca_ids) ;;
      lcf_vec <- column "lcf_vec" (read_var "lcf_vec" lcf_vec) ;;
      spc_mask_vec <- column "spc_mask_vec" (build_spc_mask_vec text_raw_bert_indices) ;;
      text_bert_indices <- column "text_bert_indices" (Ok text_bert_indices) ;;
      aspect_bert_indices <- column "aspect_bert_indices" (Ok aspect_bert_indices) ;;
      text_raw_bert_indices <- column "text_raw_bert_indices" (Ok text_raw_bert_indices) ;;
      Ok (mkFeature text_raw aspect asp_index lca_ids lcf_vec spc_mask_vec
            text_bert_indices aspect_bert_indices text_raw_bert_indices polarity
            None None)
  | _ => Raise ValueError
  end.

(** The [try] block of [process_data] for one sample: the value of [text]
    when it ends, and the record or the exception. *)
Definition process_sample (text : string) : string * result Feature :=
  let '(text, polarity) := check_polarity text in
  (text, p <- polarity ;; build_feature text p).

(** The loop of [process_data]: what was printed, and the records or the
    [RuntimeError] that ended it. *)
Fixpoint process_samples (ignore_error : bool) (samples : list string)
         (all_data : list Feature) (out : list printed)
  : list printed * result (list Feature) :=
  match samples with
  | [] => (out, Ok all_data)
  | text :: rest =>
      match process_sample text with
      | (_, Ok data) => process_samples ignore_error rest (all_data ++ [data]) out
      | (text, Raise e) =>
          let out := out ++ [PrintExn e] in
          if ignore_error
          then process_samples ignore_error rest all_data
                 (out ++ [Print ["Ignore error while processing:"; text]])
          else (out, Raise (RuntimeError ["Error while processing:"; text]))
      end
  end.

(** [target[i] = f(target[i], source[j])] on the records of [all_data]. *)
Definition update_record (all_data : list Feature) (direct : side) (i j : nat)
  : result (list Feature) :=
  target <- index all_data i ;;
  source <- index all_data j ;;
  set_item all_data i (copy_side_aspect direct target source).

(** Lines 161-171: the linkage of neighbouring records. *)
Definition link_neighbours (all_data : list Feature) : result (list Feature) :=
  match all_data with
  | [] => Ok all_data
  | _ :: _ =>
      if PyStr.contains "slide" (model_name opt) then
        all_data <- update_record all_data left_side 0 0 ;;
        all_data <-
          for_range
            (fun idx all_data =>
               prev <- index all_data (idx - 1) ;;
               cur <- index all_data idx ;;
               if is_similar (text_bert_indices prev) (text_bert_indices cur) then
                 all_data <- update_record all_data right_side (idx - 1) idx ;;
                 update_record all_data left_side idx (idx - 1)
               else
                 all_data <- update_record all_data right_side (idx - 1) (idx - 1) ;;
                 update_record all_data left_side idx idx)
            1 (List.length all_data - 1) all_data ;;
        update_record all_data right_side (List.length all_data - 1) (List.length all_data - 1)
      else Ok all_data
  end.

Definition process_data (samples : list string) (ignore_error : bool)
  : list printed * result (list Feature) :=
  let '(out, r) := process_samples ignore_error samples [] [] in
  (out, all_data <- r ;; link_neighbours all_data).

(** [prepare_infer_sample]: [process_data] on the samples of one line, with
    the default [ignore_error=True]. *)
Definition prepare_infer_sample (text : string) : list printed * result (list Feature) :=
  let '(samples, out) := parse_sample text in
  let '(out', r) := process_data samples true in
  (out ++ out', r).

(** [prepare_infer_dataset].  [readlines infer_data_path] is what
    [open(infer_data_path, 'r', ...)] and [fin.readlines()] give: the lines
    of the file, or the exception raised ([FileNotFoundError] of the
    interpreter when there is no such file). *)
Definition prepare_infer_dataset (readlines : string -> result (list string))
           (infer_data_path : string) (ignore_error : bool)
  : list printed * result (list Feature) :=
  let out0 := [Print ["buliding word indices..."]] in
  match readlines infer_data_path with
  | Raise e => (out0, Raise e)
  | Ok lines =>
      let '(samples, out) :=
        fold_left
          (fun acc sample =>
             match sample with
             | EmptyString => acc
             | _ => let '(parsed, out) := parse_sample sample in
                    (fst acc ++ parsed, snd acc ++ out)
             end)
          lines ([], []) in
      let '(out', r) := process_data samples ignore_error in
      ((out0 ++ out) ++ out', r)
  end.

End Dataset.

(* ===================================================================== *)
(** * [Instructor] (apc_trainer.py) *)
(* ===================================================================== *)

(** [DataLoader(dataset=..., batch_size=..., shuffle=..., pin_memory=...)] *)
Record DataLoader (A : Type) : Type := mkDataLoader {
  dataset : list A;
  dl_batch_size : Z;
  shuffle : bool;
  pin_memory : bool
}.

Arguments mkDataLoader {A}.
Arguments dataset {A}.
Arguments dl_batch_size {A}.
Arguments shuffle {A}.
Arguments pin_memory {A}.

(** [if test_set:] on a dataset that may be [None]: a dataset is true when
    it is not empty. *)
Definition truthy {A : Type} (test_set : option (list A)) : bool :=
  match test_set with
  | Some (_ :: _) => true
  | _ => false
  end.

(** [torch.utils.data.ConcatDataset(datasets)], which asserts that
    [datasets] is not empty. *)
Definition ConcatDataset {A : Type} (datasets : list (list A)) : result (list A) :=
  match datasets with
  | [] => Raise (AssertionError "datasets should not be an empty iterable")
  | _ :: _ => Ok (concat datasets)
  end.

(** [Subset(dataset, indices)] read as a list. *)
Definition Subset {A : Type} (ds : list A) (indices : list nat) : list A :=
  flat_map (fun i => match nth_error ds i with Some a => [a] | None => [] end) indices.

(** Consecutive pieces of [l] of the given lengths. *)
Fixpoint chunks {A : Type} (lengths : list nat) (l : list A) : list (list A) :=
  match lengths with
  | [] => []
  | n :: lengths' => firstn n l :: chunks lengths' (skipn n l)
  end.

(** [[x for i, x in enumerate(folds) if i != f_idx]] *)
Definition all_but {A : Type} (f_idx : nat) (folds : list A) : list A :=
  map snd (filter (fun ix => negb (fst ix =? f_idx)%nat)
                  (combine (seq 0 (List.length folds)) folds)).

(** A checkpoint directory: the name [save_path] is formatted from. *)
Inductive save_dir : Type :=
| Checkpoint (root model lcf_mode : string) (acc f1 : Q)
| FinalModel (root model lcf_mode : string).

(** [round(x)]: to the nearest integer, ties to the even one. *)
Definition round_half_even (x : Q) : Z :=
  let f := Qfloor x in
  let r := (x - inject_Z f)%Q in
  if Qlt_bool r (1 # 2) then f
  else if Qlt_bool (1 # 2) r then f + 1
  else if Z.even f then f else f + 1.

(** [round(x, 2)] *)
Definition round2 (x : Q) : Q := Qmake (round_half_even (x * 100)) 100.

Definition save_dir_eqb (p q : save_dir) : bool :=
  match p, q with
  | Checkpoint r m l a f, Checkpoint r' m' l' a' f' =>
      String.eqb r r' && String.eqb m m' && String.eqb l l'
      && Qeq_bool a a' && Qeq_bool f f'
  | FinalModel r m l, FinalModel r' m' l' =>
      String.eqb r r' && String.eqb m m' && String.eqb l l'
  | _, _ => false
  end.

Inductive fs_op : Type :=
| OpMkdir (root : string)
| OpRmtree (p : save_dir) (removed : bool)
| OpSaveModel (p : save_dir).

(** The directories the run has written, and whether the root exists. *)
Record FileSystem : Type := mkFS {
  root_exists : bool;
  dirs : list save_dir
}.

(** What [_train_and_evaluate] keeps between evaluations. *)
Record TrainState : Type := mkTrainState {
  global_step : Z;
  max_fold_acc : Q;
  max_fold_f1 : Q;
  save_path : option save_dir;
  sum_acc : Q;
  sum_f1 : Q;
  metrics_of_this_checkpoint : Q * Q;
  max_apc_test_acc : Q;
  max_apc_test_f1 : Q;
  fs : FileSystem;
  trace : list fs_op
}.

Inductive train_return : Type :=
| ReturnPath (p : save_dir)
| ReturnModel (saved : option save_dir) (acc f1 : Q).

Section Trainer.

Variable opt : Opt.

(** [torch.randperm(n)] as [random_split] draws it. *)
Variable randperm : nat -> list nat.

(** [shutil.rmtree(p)] may fail; the source ignores the failure. *)
Variable rmtree_fails : save_dir -> bool.

(** [_evaluate_acc_f1] on the model as trained after [global_step] steps of
    fold [f]. *)
Variable evaluate : nat -> Z -> Q * Q.

Definition random_split {A : Type} (ds : list A) (lengths : list nat)
  : result (list (list A)) :=
  if (list_sum lengths =? List.length ds)%nat
  then Ok (chunks lengths (Subset ds (randperm (list_sum lengths))))
  else Raise ValueError.

(** [self.train_data_loaders] and [self.test_data_loaders]. *)
Definition loaders (A : Type) : Type := (list (DataLoader A) * list (DataLoader A))%type.

Definition prepare_dataloader {A : Type} (self : loaders A)
           (train_set : list A) (test_set : option (list A)) : result (loaders A) :=
  let '(train_data_loaders, test_data_loaders) := self in
  if cross_validate_fold opt <? 1 then
    let train_data_loaders :=
      train_data_loaders ++ [mkDataLoader train_set (batch_size opt) true true] in
    if truthy test_set then
      match test_set with
      | Some test_set =>
          Ok (train_data_loaders,
              test_data_loaders ++ [mkDataLoader test_set (batch_size opt) false true])
      | None => Ok (train_data_loaders, test_data_loaders)
      end
    else Ok (train_data_loaders, test_data_loaders)
  else
    sum_dataset <-
      (if truthy test_set then
         match test_set with
         | Some test_set => ConcatDataset [train_set; test_set]
         | None => Ok train_set
         end
       else Ok train_set) ;;
    let n := Z.to_nat (cross_validate_fold opt) in
    let len_per_fold := (List.length sum_dataset / n)%nat in
    folds <- random_split sum_dataset
               (repeat len_per_fold (n - 1)
                ++ [(List.length sum_dataset - len_per_fold * (n - 1))%nat]) ;;
    for_range
      (fun f_idx (self : loaders A) =>
         train_set <- ConcatDataset (all_but f_idx folds) ;;
         test_set <- index folds f_idx ;;
         Ok (fst self ++ [mkDataLoader train_set (batch_size opt) true false],
             snd self ++ [mkDataLoader test_set (batch_size opt) false false]))
      0 n (train_data_loaders, test_data_loaders).

Definition rmtree (p : save_dir) (disk : FileSystem) : option FileSystem :=
  if rmtree_fails p || negb (existsb (save_dir_eqb p) (dirs disk)) then None
  else Some (mkFS (root_exists disk)
                  (filter (fun q => negb (save_dir_eqb p q)) (dirs disk))).

(** [save_model(opt, model, tokenizer, save_path, mode=0)] of
    [pyabsa_utils]: the directory [save_path] holds the model afterwards. *)
Definition save_model (p : save_dir) (disk : FileSystem) : FileSystem :=
  mkFS (root_exists disk)
       (if existsb (save_dir_eqb p) (dirs disk) then dirs disk else dirs disk ++ [p]).

(** Lines 160-168: the root directory is created when it is missing and
    the checkpoint saved before in the fold is removed, a failure of the
    removal being ignored. *)
Definition make_room (st : TrainState) : FileSystem * list fs_op :=
  let '(disk, ops) :=
    if root_exists (fs st) then (fs st, trace st)
    else (mkFS true (dirs (fs st)), trace st ++ [OpMkdir (model_path_to_save opt)]) in
  match save_path st with
  | Some old =>
      match rmtree old disk with
      | Some disk' => (disk', ops ++ [OpRmtree old true])
      | None => (disk, ops ++ [OpRmtree old false])
      end
  | None => (disk, ops)
  end.

(** Lines 149-181: the evaluation and the checkpoint. *)
Definition on_test_acc (st : TrainState) (test_acc f1 : Q) : TrainState :=
  let acc_total := (sum_acc st + test_acc)%Q in
  let f1_total := (sum_f1 st + f1)%Q in
  if Qlt_bool (max_fold_acc st) test_acc then
    if negb (String.eqb (model_path_to_save opt) "") then
      let '(disk, ops) := make_room st in
      let new :=
        Checkpoint (model_path_to_save opt) (model_name opt) (lcf opt)
                   (round2 (test_acc * 100)) (round2 (f1 * 100)) in
      mkTrainState (global_step st) test_acc (max_fold_f1 st) (Some new)
        acc_total f1_total (test_acc, f1)
        (if Qlt_bool (max_apc_test_acc st) test_acc then test_acc else max_apc_test_acc st)
        (if Qlt_bool (max_apc_test_f1 st) f1 then f1 else max_apc_test_f1 st)
        (save_model new disk) (ops ++ [OpSaveModel new])
    else
      mkTrainState (global_step st) test_acc (max_fold_f1 st) (save_path st)
        acc_total f1_total (test_acc, f1) (max_apc_test_acc st) (max_apc_test_f1 st)
        (fs st) (trace st)
  else
    mkTrainState (global_step st) (max_fold_acc st) (max_fold_f1 st) (save_path st)
      acc_total f1_total (test_acc, f1) (max_apc_test_acc st) (max_apc_test_f1 st)
      (fs st) (trace st).

(** Lines 182-183 *)
Definition on_f1 (st : TrainState) (f1 : Q) : TrainState :=
  if Qlt_bool (max_fold_f1 st) f1 then
    mkTrainState (global_step st) (max_fold_acc st) f1 (save_path st)
      (sum_acc st) (sum_f1 st) (metrics_of_this_checkpoint st)
      (max_apc_test_acc st) (max_apc_test_f1 st) (fs st) (trace st)
  else st.

(** Lines 149-183: one evaluation. *)
Definition on_evaluate (f : nat) (st : TrainState) : TrainState :=
  let '(test_acc, f1) := evaluate f (global_step st) in
  on_f1 (on_test_acc st test_acc f1) f1.

(** Lines 125-195: one batch of epoch [epoch] in fold [f]. *)
Definition train_step (f epoch : nat) (st : TrainState) : result TrainState :=
  let st :=
    mkTrainState (global_step st + 1) (max_fold_acc st) (max_fold_f1 st) (save_path st)
      (sum_acc st) (sum_f1 st) (metrics_of_this_checkpoint st)
      (max_apc_test_acc st) (max_apc_test_f1 st) (fs st) (trace st) in
  if dataset_file_has_test opt then
    if log_step opt =? 0 then Raise ZeroDivisionError
    else if global_step st mod log_step opt =? 0 then
      if evaluate_begin opt <=? Z.of_nat epoch then Ok (on_evaluate f st) else Ok st
    else Ok st
  else Ok st.

(** [len(train_dataloader)]: the number of batches of an epoch. *)
Definition len_dataloader {A : Type} (dl : DataLoader A) : nat :=
  Z.to_nat ((Z.of_nat (List.length (dataset dl)) + dl_batch_size dl - 1) / dl_batch_size dl).

(** Lines 118-124: the state a fold starts from. *)
Definition start_fold (st : TrainState) : TrainState :=
  mkTrainState 0 0 0 None (sum_acc st) (sum_f1 st) (metrics_of_this_checkpoint st)
    (max_apc_test_acc st) (max_apc_test_f1 st) (fs st) (trace st).

(** Lines 118-195: the epochs of fold [f] over [batches] batches each. *)
Definition train_fold (f batches : nat) (st : TrainState) : result TrainState :=
  for_range
    (fun epoch st => for_range (fun _ st => train_step f epoch st) 0 batches st)
    0 (num_epoch opt) (start_fold st).

(** Lines 101-109: the state before the first fold. *)
Definition initial_state (disk : FileSystem) : TrainState :=
  mkTrainState 0 0 0 None 0 0 (0%Q, 0%Q) 0 0 disk [].

(** The folds of [_train_and_evaluate]: one per pair of loaders, each
    ending with its best accuracy and F1 appended to [fold_test_acc] and
    [fold_test_f1].  [len(self.test_set)] raises on [None]. *)
Fixpoint run_folds {A : Type} (test_set : option (list A))
         (pairs : list (DataLoader A * DataLoader A)) (f : nat)
         (st : TrainState) (fold_test : list (Q * Q))
  : result (TrainState * list (Q * Q)) :=
  match pairs with
  | [] => Ok (st, fold_test)
  | (train_dataloader, _) :: rest =>
      match test_set with
      | None => Raise TypeError
      | Some _ =>
          st <- train_fold f (len_dataloader train_dataloader) st ;;
          run_folds test_set rest (S f) st
            (fold_test ++ [(max_fold_acc st, max_fold_f1 st)])
      end
  end.

Definition _train_and_evaluate {A : Type} (self : loaders A) (disk : FileSystem)
           (train_set : list A) (test_set : option (list A))
  : result (train_return * TrainState * list (Q * Q)) :=
  '(train_data_loaders, test_data_loaders) <- prepare_dataloader self train_set test_set ;;
  '(st, fold_test) <-
    run_folds test_set (combine train_data_loaders test_data_loaders) 0
              (initial_state disk) [] ;;
  match save_path st with
  | Some p => Ok (ReturnPath p, st, fold_test)
  | None =>
      if negb (String.eqb (model_path_to_save opt) "") then
        let p := FinalModel (model_path_to_save opt) (model_name opt) (lcf opt) in
        let st :=
          mkTrainState (global_step st) (max_fold_acc st) (max_fold_f1 st) (Some p)
            (sum_acc st) (sum_f1 st) (metrics_of_this_checkpoint st)
            (max_apc_test_acc st) (max_apc_test_f1 st)
            (save_model p (fs st)) (trace st ++ [OpSaveModel p]) in
        Ok (ReturnModel (Some p) (sum_acc st) (sum_f1 st), st, fold_test)
      else Ok (ReturnModel None (sum_acc st) (sum_f1 st), st, fold_test)
  end.

End Trainer.

(** The counters of [_evaluate_acc_f1]; [None] is Python's [None]. *)
Record EvalState : Type := mkEvalState {
  n_test_correct : Z;
  n_test_total : Z;
  t_targets_all : option (list Z);
  t_outputs_all : option (list Z)
}.

Section Evaluation.

Variable A : Type.

(** The polarity of a test example and the class the model gives it: the
    [argmax] of its row of [sen_outputs].  The rows are kept as classes,
    [argmax] being taken row by row. *)
Variable target : A -> Z.
Variable predict : A -> Z.

(** [sklearn.metrics.f1_score(targets, outputs, labels=..., average='macro')] *)
Variable f1_score : list Z -> list Z -> Q.

(** Lines 241-259: one batch of the test loader. *)
Definition evaluate_batch (st : EvalState) (t_sample_batched : list A) : EvalState :=
  let t_targets := map target t_sample_batched in
  let sen_outputs := map predict t_sample_batched in
  let correct :=
    List.length (filter (fun x => predict x =? target x) t_sample_batched) in
  mkEvalState
    (n_test_correct st + Z.of_nat correct)
    (n_test_total st + Z.of_nat (List.length sen_outputs))
    (match t_targets_all st with
     | None => Some t_targets
     | Some all => Some (all ++ t_targets)
     end)
    (match t_targets_all st with
     | None => Some sen_outputs
     | Some _ => option_map (fun all => all ++ sen_outputs) (t_outputs_all st)
     end).

Definition _evaluate_acc_f1 (test_dataloader : list (list A)) : result (Q * Q) :=
  let st := fold_left evaluate_batch test_dataloader (mkEvalState 0 0 None None) in
  if n_test_total st =? 0 then Raise ZeroDivisionError
  else
    let test_acc := (inject_Z (n_test_correct st) / inject_Z (n_test_total st))%Q in
    match t_targets_all st, t_outputs_all st with
    | Some targets, Some outputs => Ok (test_acc, f1_score targets outputs)
    | _, _ => Raise AttributeError
    end.

End Evaluation.

(* ===================================================================== *)
(** * [SentimentClassifier] (prediction.py) *)
(* ===================================================================== *)

Inductive pyval : Type :=
| VStr (s : string)
| VInt (z : Z).

(** A dictionary with string keys, in insertion order. *)
Definition dict : Type := list (string * pyval).

(** [d[k] = v] *)
Fixpoint dict_set (d : dict) (k : string) (v : pyval) : dict :=
  match d with
  | [] => [(k, v)]
  | (k', v') :: d' => if String.eqb k k' then (k, v) :: d' else (k', v') :: dict_set d' k v
  end.

(** [d.get(k)] *)
Fixpoint dict_lookup (d : dict) (k : string) : option pyval :=
  match d with
  | [] => None
  | (k', v) :: d' => if String.eqb k k' then Some v else dict_lookup d' k
  end.

(** [sentiments = {0: 'Negative', 1: "Neutral", 2: 'Positive', -999: ''}] *)
Definition sentiments : list (Z * string) :=
  [(0, "Negative"); (1, "Neutral"); (2, "Positive"); (-999, "")].

Fixpoint int_dict_get (d : list (Z * string)) (k : Z) : result string :=
  match d with
  | [] => Raise (KeyError (KInt k))
  | (k', v) :: d' => if k =? k' then Ok v else int_dict_get d' k
  end.

(** [Correct = {True: 'Correct', False: 'Wrong'}] *)
Definition Correct (b : bool) : string := if b then "Correct" else "Wrong".

(** What [_infer] prints or writes besides the two lines of a sample. *)
Inductive report : Type :=
| Line (s : string)
| TotalSamples (n : Z)
| LabeledSamples (n : Z)
| PredictionAccuracy (percent : option Q).

Record InferState : Type := mkInferState {
  results : list dict;
  n_correct : Z;
  n_labeled : Z;
  n_total : Z;
  fout : list report;
  stdout : list report
}.

Section Classifier.

(** The class the model gives a sample: [int(t_probs.argmax(axis=-1))]. *)
Variable predict : Feature -> Z.

(** Lines 148-188: one sample of the loader. *)
Definition infer_sample (save_result print_result : bool) (sample : Feature)
           (st : InferState) : result InferState :=
  let result : dict := [] in
  let sent := predict sample in
  let real_sent := polarity sample in
  let aspect := aspect sample in
  let result := dict_set result "text" (VStr (text_raw sample)) in
  let result := dict_set result "aspect" (VStr aspect) in
  let result := dict_set result "sentiment" (VInt sent) in
  ref <- int_dict_get sentiments real_sent ;;
  let result := dict_set result "ref_sentiment" (VStr ref) in
  let result := dict_set result "infer result" (VStr (Correct (sent =? real_sent))) in
  let results := results st ++ [result] in
  let line1 := text_raw sample in
  '(line2, n_labeled, n_correct) <-
    (if real_sent =? -999 then
       label <- int_dict_get sentiments sent ;;
       Ok ((aspect ++ " --> " ++ label)%string, n_labeled st, n_correct st)
     else
       let n_labeled := n_labeled st + 1 in
       let n_correct := if sent =? real_sent then n_correct st + 1 else n_correct st in
       label <- int_dict_get sentiments sent ;;
       real <- int_dict_get sentiments real_sent ;;
       Ok ((aspect ++ " --> " ++ label ++ "  Real Polarity: " ++ real
            ++ " (" ++ Correct (sent =? real_sent)%Z ++ ")")%string,
           n_labeled, n_correct)) ;;
  let n_total := n_total st + 1 in
  let fout := if save_result then fout st ++ [Line line1; Line line2] else fout st in
  let stdout := if print_result then stdout st ++ [Line line1; Line line2] else stdout st in
  Ok (mkInferState results n_correct n_labeled n_total fout stdout).

Fixpoint infer_loop (save_result print_result : bool) (samples : list Feature)
         (st : InferState) : result InferState :=
  match samples with
  | [] => Ok st
  | sample :: rest =>
      st <- infer_sample save_result print_result sample st ;;
      infer_loop save_result print_result rest st
  end.

(** [_infer] over the records of the dataset, which the loader yields one
    by one in order.  The file receives the accuracy line only when a
    sample was labeled: the division raises otherwise and the exception is
    ignored. *)
Definition _infer (all_data : list Feature) (save_result print_result : bool)
  : result InferState :=
  st <- infer_loop save_result print_result all_data (mkInferState [] 0 0 0 [] []) ;;
  let accuracy :=
    if n_labeled st =? 0 then None
    else Some (inject_Z (100 * n_correct st) / inject_Z (n_labeled st))%Q in
  let stdout :=
    stdout st ++ [TotalSamples (n_total st); LabeledSamples (n_labeled st);
                  PredictionAccuracy accuracy] in
  let fout :=
    if save_result then
      fout st ++ [TotalSamples (n_total st); LabeledSamples (n_labeled st)]
      ++ (if n_labeled st =? 0 then [] else [PredictionAccuracy accuracy])
    else fout st in
  Ok (mkInferState (results st) (n_correct st) (n_labeled st) (n_total st) fout stdout).

(** [infer]: the records of one line, then [_infer] with
    [print_result=True].  The tokenizer, [opt] and the dataset helpers are
    those of the classifier.  [clear_input_samples] empties a list that
    [process_data] replaces in any case. *)
Definition infer (tokenizer : Tokenizer) (opt : Opt)
           (calculate_dep_dist : string -> string -> list string * list Z)
           (is_similar : option (list Z) -> option (list Z) -> bool)
           (text : string) (clear_input_samples : bool)
  : list printed * result InferState :=
  match text with
  | EmptyString => ([], Raise (RuntimeError ["Please specify your dataset path!"]))
  | _ =>
      let '(out, r) :=
        prepare_infer_sample tokenizer opt calculate_dep_dist is_similar text in
      (out, all_data <- r ;; _infer all_data false true)
  end.

(** [batch_infer].  [test_dataset_path] is [None] by default, on which
    [os.path.isdir] raises [TypeError].  The file system is given by
    [isdir], by [find_target_file] (the path of the inference file of a
    directory, or the exception raised, whichever it is), by [readlines]
    (see [prepare_infer_dataset]) and by [open_results], the outcome of
    [open(save_path + '.results', 'w')], which [_infer] calls before its
    loop when [save_path] is not empty.  A directory is prepared twice. *)
Definition batch_infer (tokenizer : Tokenizer) (opt : Opt)
           (calculate_dep_dist : string -> string -> list string * list Z)
           (is_similar : option (list Z) -> option (list Z) -> bool)
           (isdir : string -> bool)
           (find_target_file : string -> result string)
           (readlines : string -> result (list string))
           (open_results : string -> result unit)
           (test_dataset_path : option string) (save_result ignore_error : bool)
  : list printed * result InferState :=
  let prepare path :=
    prepare_infer_dataset tokenizer opt calculate_dep_dist is_similar readlines
      path ignore_error in
  match test_dataset_path with
  | None => ([], Raise TypeError)
  | Some path =>
      let first :=
        if isdir path then
          match find_target_file path with
          | Raise _ => ([], Raise (FileNotFoundError "Can not find inference dataset!"))
          | Ok file => let '(out, r) := prepare file in (out, _ <- r ;; Ok file)
          end
        else ([], Ok path) in
      match first with
      | (out, Raise e) => (out, Raise e)
      | (out, Ok file) =>
          let '(out', r) := prepare file in
          let save := save_result && negb (String.eqb file "") in
          (out ++ out',
           all_data <- r ;;
           _ <- (if save then open_results (file ++ ".results")%string else Ok tt) ;;
           _infer all_data save true)
      end
  end.

End Classifier.

(* ===================================================================== *)
(** * A small instance of the collaborators, to run the code on examples *)
(* ===================================================================== *)

Module Toy.

(** One id per whitespace-separated word. *)
Definition word_id (w : string) : Z :=
  if String.eqb w "[CLS]" then 101
  else if String.eqb w "[SEP]" then 102
  else 1000 + Z.of_nat (list_sum (map nat_of_ascii (list_ascii_of_string w))).

Definition pad_and_truncate (sequence : list Z) (maxlen : nat) : list Z :=
  firstn maxlen sequence ++ repeat 0 (maxlen - List.length sequence).

Definition tokenizer (maxlen : nat) : Tokenizer :=
  mkTokenizer (Z.of_nat maxlen) "[CLS]" "[SEP]"
    (fun text => pad_and_truncate (map word_id (PyStr.split_ws text)) maxlen)
    (fun tokens dist => (tokens, dist)).

Definition calculate_dep_dist (text aspect : string) : list string * list Z :=
  (PyStr.split_ws text, map (fun _ => 0) (PyStr.split_ws text)).

Definition is_similar (a b : option (list Z)) : bool := false.

Definition opt (model lcf_mode : string) (srd : Z) (maxlen dim : nat) : Opt :=
  mkOpt model lcf_mode srd maxlen dim 0 16 1 1 0 "checkpoints" true [].

End Toy.

(* ===================================================================== *)
(** * Notions used in the statements *)
(* ===================================================================== *)

(** [i] is the first position of [a] that holds [x]. *)
Definition first_occurrence (a : list Z) (x : Z) (i : nat) : Prop :=
  nth_error a i = Some x /\ forall j, (j < i)%nat -> nth_error a j <> Some x.

(** Every entry of the row is the weight [w], over [n] columns. *)
Definition row_is (n : nat) (w : Q) (row : list Q) : Prop :=
  List.length row = n /\ Forall (fun x => x == w) row.

(** The reference polarity a sample carries: what stands between the first
    and the second ['!sent!'], stripped; [None] without ['!sent!']. *)
Definition reference_polarity (text : string) : option string :=
  if PyStr.contains "!sent!" text
  then option_map PyStr.strip (nth_error (PyStr.split "!sent!" text) 1)
  else None.

(** The accuracy a checkpoint directory carries in its name. *)
Definition encoded_acc (p : save_dir) : Q :=
  match p with
  | Checkpoint _ _ _ acc _ => acc
  | FinalModel _ _ _ => 0
  end.

(** The directories a sequence of operations saves, in order. *)
Definition saved (ops : list fs_op) : list save_dir :=
  flat_map (fun op => match op with OpSaveModel p => [p] | _ => [] end) ops.

(** The directories left by a sequence of operations, from those of
    [before]. *)
Definition replay (before : list save_dir) (ops : list fs_op) : list save_dir :=
  fold_left
    (fun ds op =>
       match op with
       | OpMkdir _ => ds
       | OpRmtree p true => filter (fun q => negb (save_dir_eqb p q)) ds
       | OpRmtree _ false => ds
       | OpSaveModel p => if existsb (save_dir_eqb p) ds then ds else ds ++ [p]
       end)
    ops before.

(** The operations of a fold whose last saved directory is [last]: a first
    save, then saves each of which comes right after the removal of the
    directory saved before it and encodes an accuracy that is not smaller;
    the root directory may be created before any of them. *)
Inductive fold_ops : list fs_op -> option save_dir -> Prop :=
| fold_ops_nil : fold_ops [] None
| fold_ops_mkdir ops last root :
    fold_ops ops last -> fold_ops (ops ++ [OpMkdir root]) last
| fold_ops_first ops p :
    fold_ops ops None -> fold_ops (ops ++ [OpSaveModel p]) (Some p)
| fold_ops_next ops q removed p :
    fold_ops ops (Some q) ->
    (encoded_acc q <= encoded_acc p)%Q ->
    fold_ops (ops ++ [OpRmtree q removed; OpSaveModel p]) (Some p).

(** The states of fold [f] after any number of batches, from the state
    [st0] the fold is entered with. *)
Inductive reachable (opt : Opt) (rmtree_fails : save_dir -> bool)
          (evaluate : nat -> Z -> Q * Q) (f : nat) (st0 : TrainState)
  : TrainState -> Prop :=
| reachable_start : reachable opt rmtree_fails evaluate f st0 (start_fold st0)
| reachable_step st epoch st' :
    reachable opt rmtree_fails evaluate f st0 st ->
    train_step opt rmtree_fails evaluate f epoch st = Ok st' ->
    reachable opt rmtree_fails evaluate f st0 st'.

(** Every removal of the sequence was done. *)
Definition removals_done (ops : list fs_op) : Prop :=
  Forall (fun op => match op with OpRmtree _ removed => removed = true | _ => True end) ops.

(** What holds of the state between two batches of a fold entered with the
    state [st0]. *)
Definition fold_invariant (rmtree_fails : save_dir -> bool) (st0 st : TrainState) : Prop :=
  exists ops,
    trace st = trace st0 ++ ops
    /\ fold_ops ops (save_path st)
    /\ (forall p, save_path st = Some p ->
                  encoded_acc p = round2 (max_fold_acc st * 100)
                  /\ existsb (save_dir_eqb p) (dirs (fs st)) = true)
    /\ ((forall p, rmtree_fails p = false) -> removals_done ops).

(** The record [_infer] appends for a sample whose reference label is
    [label]. *)
Definition record_of (predict : Feature -> Z) (sample : Feature) (label : string) : dict :=
  [("text", VStr (text_raw sample));
   ("aspect", VStr (aspect sample));
   ("sentiment", VInt (predict sample));
   ("ref_sentiment", VStr label);
   ("infer result", VStr (Correct (predict sample =? polarity sample)))].

(** A matrix of [r] rows and [c] columns. *)
Definition shape (r c : nat) (m : list (list Q)) : Prop :=
  List.length m = r /\ Forall (fun row => List.length row = c) m.

(** A column of a record holds a tensor, not the placeholder. *)
Definition populated {A : Type} (v : option A) : bool :=
  match v with Some _ => true | None => false end.

(** Two records that differ at most in their side vectors. *)
Definition same_base (d d' : Feature) : Prop :=
  text_raw d = text_raw d' /\ aspect d = aspect d' /\ asp_index d = asp_index d'
  /\ lca_ids d = lca_ids d' /\ lcf_vec d = lcf_vec d'
  /\ spc_mask_vec d = spc_mask_vec d'
  /\ text_bert_indices d = text_bert_indices d'
  /\ aspect_bert_indices d = aspect_bert_indices d'
  /\ text_raw_bert_indices d = text_raw_bert_indices d'
  /\ polarity d = polarity d'.

(** The samples that carry a reference polarity, and those among them the
    model classifies as the reference says. *)
Definition labeled (all_data : list Feature) : list Feature :=
  filter (fun sample => negb (polarity sample =? -999)) all_data.

Definition correct (predict : Feature -> Z) (all_data : list Feature) : list Feature :=
  filter (fun sample => predict sample =? polarity sample) (labeled all_data).

(** The integer is a key of [sentiments]. *)
Definition known (k : Z) : Prop := In k [0; 1; 2; -999].

(* ===================================================================== *)
(** * Loops and arrays *)
(* ===================================================================== *)

Lemma Qlt_bool_iff (x y : Q) : Qlt_bool x y = true <-> (x < y)%Q.
Proof.
  unfold Qlt_bool. rewrite negb_true_iff.
  split; intro H.
  - apply Qnot_le_lt. intro Hle. apply Qle_bool_iff in Hle. congruence.
  - destruct (Qle_bool y x) eqn:E; [|reflexivity].
    apply Qle_bool_iff in E. exfalso. apply (Qlt_not_le _ _ H E).
Qed.

Lemma Qlt_bool_false_iff (x y : Q) : Qlt_bool x y = false <-> (y <= x)%Q.
Proof.
  unfold Qlt_bool. rewrite negb_false_iff. apply Qle_bool_iff.
Qed.

Lemma Qle_bool_false_iff (x y : Q) : Qle_bool x y = false <-> (y < x)%Q.
Proof.
  split; intro H.
  - apply Qnot_le_lt. intro Hle. apply Qle_bool_iff in Hle. congruence.
  - destruct (Qle_bool x y) eqn:E; [|reflexivity].
    apply Qle_bool_iff in E. exfalso. apply (Qlt_not_le _ _ H E).
Qed.

Lemma set_item_ok {A : Type} (a : list A) (i : nat) (v : A) :
  (i < List.length a)%nat -> set_item a i v = Ok (firstn i a ++ v :: skipn (S i) a).
Proof.
  intro H. unfold set_item. apply Nat.ltb_lt in H. now rewrite H.
Qed.

Lemma set_item_inv {A : Type} (a a' : list A) (i : nat) (v : A) :
  set_item a i v = Ok a' ->
  (i < List.length a)%nat /\ a' = firstn i a ++ v :: skipn (S i) a.
Proof.
  unfold set_item. destruct (i <? List.length a)%nat eqn:E; [|discriminate].
  intro H. split; [now apply Nat.ltb_lt|congruence].
Qed.

Lemma set_item_length {A : Type} (a a' : list A) (i : nat) (v : A) :
  set_item a i v = Ok a' -> List.length a' = List.length a.
Proof.
  intro H. destruct (set_item_inv _ _ _ _ H) as [Hlt ->].
  rewrite length_app, length_firstn, length_cons, length_skipn. lia.
Qed.

Lemma set_item_same {A : Type} (a a' : list A) (i : nat) (v : A) :
  set_item a i v = Ok a' -> nth_error a' i = Some v.
Proof.
  intro H. destruct (set_item_inv _ _ _ _ H) as [Hlt ->].
  rewrite nth_error_app2; rewrite length_firstn; [|lia].
  replace (i - Nat.min i (List.length a))%nat with O by lia. reflexivity.
Qed.

Lemma set_item_other {A : Type} (a a' : list A) (i j : nat) (v : A) :
  set_item a i v = Ok a' -> j <> i -> nth_error a' j = nth_error a j.
Proof.
  intros H Hne. destruct (set_item_inv _ _ _ _ H) as [Hlt ->].
  destruct (Nat.lt_ge_cases j i) as [Hji|Hge].
  - rewrite nth_error_app1 by (rewrite length_firstn; lia).
    now rewrite nth_error_firstn, (proj2 (Nat.ltb_lt _ _) Hji).
  - rewrite nth_error_app2 by (rewrite length_firstn; lia).
    rewrite length_firstn.
    replace (j - Nat.min i (List.length a))%nat with (S (j - S i)) by lia.
    change (nth_error (skipn (S i) a) (j - S i) = nth_error a j).
    rewrite nth_error_skipn. f_equal. lia.
Qed.

Lemma set_item_repeat {A : Type} (x : A) (n i : nat) :
  (i < n)%nat -> set_item (repeat x n) i x = Ok (repeat x n).
Proof.
  intro H. rewrite set_item_ok by (now rewrite repeat_length).
  f_equal. apply firstn_skipn_middle. now apply nth_error_repeat.
Qed.

(** A loop whose body leaves the state unchanged on the whole range. *)
Lemma for_range_fixed {S : Type} (body : nat -> S -> result S) (s : S) (stop : nat) :
  (forall i, (i < stop)%nat -> body i s = Ok s) ->
  forall count start, (start + count <= stop)%nat -> for_range body start count s = Ok s.
Proof.
  intros Hbody. induction count as [|k IH]; intros start Hle; simpl.
  - reflexivity.
  - rewrite Hbody by lia. simpl. apply IH. lia.
Qed.

(** A loop that writes row [i] at step [i]: the rows written and the rows
    left alone. *)
Lemma for_range_rows {A : Type} (body : nat -> list A -> result (list A))
      (f : nat -> option A) (stop : nat) :
  (forall i a, (i < stop)%nat ->
               body i a = match f i with
                          | Some v => set_item a i v
                          | None => Ok a
                          end) ->
  forall count start (a : list A),
    (start + count <= stop)%nat ->
    (start + count <= List.length a)%nat ->
    exists a',
      for_range body start count a = Ok a'
      /\ List.length a' = List.length a
      /\ (forall i, (start <= i < start + count)%nat ->
                    nth_error a' i = match f i with
                                     | Some v => Some v
                                     | None => nth_error a i
                                     end)
      /\ (forall i, (i < start \/ start + count <= i)%nat ->
                    nth_error a' i = nth_error a i).
Proof.
  intro Hbody.
  induction count as [|k IH]; intros start a Hstop Hle; simpl.
  - exists a. repeat split; auto. intros i Hi. lia.
  - assert (Hstep : exists a1,
               body start a = Ok a1
               /\ List.length a1 = List.length a
               /\ nth_error a1 start = match f start with
                                       | Some v => Some v
                                       | None => nth_error a start
                                       end
               /\ (forall i, i <> start -> nth_error a1 i = nth_error a i)).
    { rewrite Hbody by lia. destruct (f start) as [v|].
      - exists (firstn start a ++ v :: skipn (S start) a).
        assert (E : set_item a start v = Ok (firstn start a ++ v :: skipn (S start) a))
          by (apply set_item_ok; lia).
        repeat split; auto.
        + eapply set_item_length; eauto.
        + eapply set_item_same; eauto.
        + intros i Hi. eapply set_item_other; eauto.
      - exists a. repeat split; auto. }
    destruct Hstep as (a1 & E1 & L1 & S1 & O1).
    rewrite E1. simpl.
    destruct (IH (S start) a1 ltac:(lia) ltac:(lia)) as (a' & E' & L' & In' & Out').
    exists a'. split; [exact E'|]. split; [lia|]. split.
    + intros i Hi. destruct (Nat.eq_dec i start) as [->|Hne].
      * rewrite Out' by lia. exact S1.
      * rewrite In' by lia. destruct (f i); auto.
    + intros i Hi. rewrite Out' by lia. apply O1. lia.
Qed.

(* ===================================================================== *)
(** * [get_asp_index] *)
(* ===================================================================== *)

Lemma find_index_first (x : Z) (a : list Z) (i : nat) :
  find_index (Z.eqb x) a = Some i <-> first_occurrence a x i.
Proof.
  revert i. induction a as [|y a IH]; intro i; simpl.
  - split; [discriminate|]. intros [H _]. destruct i; discriminate.
  - destruct (Z.eqb_spec x y) as [->|Hne].
    + split.
      * intros [= <-]. split; [reflexivity|]. intros j Hj. lia.
      * intros [Hi Hbefore]. destruct i as [|i]; [reflexivity|].
        exfalso. apply (Hbefore O); [lia|reflexivity].
    + destruct (find_index (Z.eqb x) a) as [k|] eqn:E; simpl.
      * split.
        -- intros [= <-]. destruct (proj1 (IH k) eq_refl) as [Hk Hbefore].
           split; [exact Hk|]. intros [|j] Hj; simpl.
           ++ congruence.
           ++ apply Hbefore. lia.
        -- intros [Hi Hbefore]. destruct i as [|i]; simpl in Hi; [congruence|].
           f_equal. assert (H : Some k = Some i); [|congruence].
           apply IH. split; [exact Hi|]. intros j Hj. apply (Hbefore (S j)). lia.
      * split; [discriminate|]. intros [Hi Hbefore].
        destruct i as [|i]; simpl in Hi; [congruence|].
        assert (H : None = Some i); [|discriminate].
        apply IH. split; [exact Hi|]. intros j Hj. apply (Hbefore (S j)). lia.
Qed.

Lemma find_index_none (x : Z) (a : list Z) :
  find_index (Z.eqb x) a = None <-> ~ In x a.
Proof.
  induction a as [|y a IH]; simpl.
  - tauto.
  - destruct (Z.eqb_spec x y) as [->|Hne].
    + split; [discriminate|]. intro H. exfalso. apply H. now left.
    + destruct (find_index (Z.eqb x) a); simpl.
      * split; [discriminate|]. intro H. exfalso.
        assert (Hin : ~ In x a) by tauto. apply IH in Hin. discriminate.
      * split; [|reflexivity]. intros _ [H|H]; [congruence|].
        now apply (proj1 IH).
Qed.

Lemma half_bounds (z n : Z) :
  0 <= z -> z < 2 * n ->
  (0 <= inject_Z z / inject_Z 2 /\ inject_Z z / inject_Z 2 < inject_Z n)%Q.
Proof.
  intros H0 H1.
  assert (E : (inject_Z z / inject_Z 2 == z # 2)%Q).
  { unfold Qdiv, Qinv, Qmult, Qeq, inject_Z. simpl. lia. }
  rewrite E. unfold Qle, Qlt, inject_Z. simpl. lia.
Qed.

(** C7, as the code has it: when the first token of the aspect occurs in
    the tokenized text, [get_asp_index] returns
    [(first * 2 + aspect_len) / 2], where [first] is the first position of
    [text_ids] holding that token and [aspect_len] is the number of
    non-zero aspect ids minus 2.  The value lies in [[0, max_seq_len)]
    (the length of [text_ids]) when [aspect_len] is not negative and the
    span of [aspect_len] tokens starting at [first] ends within the
    sequence; it can exceed the sequence length otherwise. *)
Theorem get_asp_index_midpoint (text_ids aspect_indices : list Z)
        (first_token : Z) (first : nat) :
  nth_error aspect_indices 1 = Some first_token ->
  first_occurrence text_ids first_token first ->
  let aspect_len := count_nonzero aspect_indices - 2 in
  let value := (inject_Z (Z.of_nat first * 2 + aspect_len) / inject_Z 2)%Q in
  get_asp_index text_ids aspect_indices = Ok value
  /\ (0 <= aspect_len ->
      Z.of_nat first + aspect_len <= Z.of_nat (List.length text_ids) ->
      (0 <= value /\ value < inject_Z (Z.of_nat (List.length text_ids)))%Q).
Proof.
  intros Htok Hfirst aspect_len value. split.
  - unfold get_asp_index, index, argwhere_first. rewrite Htok. simpl.
    apply find_index_first in Hfirst. rewrite Hfirst. reflexivity.
  - intros Hlen Hfit. apply half_bounds; [lia|].
    assert (Hlt : (first < List.length text_ids)%nat).
    { apply nth_error_Some. destruct Hfirst as [H _]. congruence. }
    lia.
Qed.

Lemma get_asp_index_midpoint_witness :
  get_asp_index [101; 2000; 2001; 2002; 102; 2001; 102; 0] [101; 2001; 102; 0; 0; 0; 0; 0]
  = Ok (inject_Z (Z.of_nat 2 * 2 + 1) / inject_Z 2)%Q
  /\ (0 <= inject_Z (Z.of_nat 2 * 2 + 1) / inject_Z 2
      /\ inject_Z (Z.of_nat 2 * 2 + 1) / inject_Z 2 < inject_Z 8)%Q.
Proof.
  destruct (get_asp_index_midpoint
              [101; 2000; 2001; 2002; 102; 2001; 102; 0]
              [101; 2001; 102; 0; 0; 0; 0; 0] 2001 2) as [Hval Hbound].
  - reflexivity.
  - split; [reflexivity|].
    intros [|[|j]] Hj; simpl; try discriminate; lia.
  - split; [exact Hval|]. apply Hbound; simpl; lia.
Defined.

(** C7, the bound as the claim states it fails: with a text truncated to
    8 tokens whose last token starts a 6-token aspect, the value is 10. *)
Lemma get_asp_index_exceeds_length :
  first_occurrence [101; 11; 12; 13; 14; 15; 16; 7] 7 7
  /\ get_asp_index [101; 11; 12; 13; 14; 15; 16; 7] [101; 7; 8; 9; 10; 4; 3; 102]
     = Ok (20 # 2)
  /\ ~ (20 # 2 < inject_Z (Z.of_nat (List.length [101; 11; 12; 13; 14; 15; 16; 7])))%Q.
Proof.
  split; [|split].
  - split; [reflexivity|].
    intros j Hj. do 7 (destruct j as [|j]; [simpl; discriminate|]). lia.
  - reflexivity.
  - unfold Qlt. simpl. lia.
Qed.

(* ===================================================================== *)
(** * [get_lca_ids_and_cdm_vec] *)
(* ===================================================================== *)

Section Weighting.

Variable tokenizer : Tokenizer.
Variable opt : Opt.
Variable calculate_dep_dist : string -> string -> list string * list Z.

Lemma mark_local_ones (i : nat) :
  (i < max_seq_len opt)%nat ->
  mark_local opt i (ones (max_seq_len opt), ones2 (max_seq_len opt) (embed_dim opt))
  = Ok (ones (max_seq_len opt), ones2 (max_seq_len opt) (embed_dim opt)).
Proof.
  intro H. unfold mark_local, ones, ones2.
  rewrite set_item_repeat by exact H. simpl.
  rewrite set_item_repeat by exact H. reflexivity.
Qed.

(** C5, as the code has it: for a model whose name does not contain
    [lcfs], [get_lca_ids_and_cdm_vec] raises exactly when [get_asp_index]
    raises (the first token of the aspect is not in the text), and returns
    the all-ones vector of length [max_seq_len] and the all-ones
    [(max_seq_len, embed_dim)] matrix on every other input. *)
Theorem lca_ids_and_cdm_vec_constant (text_ids aspect_indices : list Z)
        (text_raw aspect : string) :
  PyStr.contains "lcfs" (model_name opt) = false ->
  get_lca_ids_and_cdm_vec tokenizer opt calculate_dep_dist
    text_ids aspect_indices text_raw aspect
  = (_ <- get_asp_index text_ids aspect_indices ;;
     Ok (ones (max_seq_len opt), ones2 (max_seq_len opt) (embed_dim opt))).
Proof.
  intro Hmodel. unfold get_lca_ids_and_cdm_vec. rewrite Hmodel.
  destruct (get_asp_index text_ids aspect_indices) as [aspect_begin|e]; simpl;
    [|reflexivity].
  destruct (Qlt_bool aspect_begin 0); [reflexivity|].
  apply for_range_fixed with (stop := max_seq_len opt); [|lia].
  intros i Hi.
  destruct (_ && _); [|reflexivity].
  now apply mark_local_ones.
Qed.

End Weighting.

Lemma lca_ids_and_cdm_vec_constant_witness :
  get_lca_ids_and_cdm_vec (Toy.tokenizer 8) (Toy.opt "lca_bert" "cdm" 3 8 2)
    Toy.calculate_dep_dist
    [101; 2000; 2001; 2002; 102; 2001; 102; 0] [101; 2001; 102; 0; 0; 0; 0; 0]
    "a b c" "b"
  = (_ <- get_asp_index [101; 2000; 2001; 2002; 102; 2001; 102; 0]
                        [101; 2001; 102; 0; 0; 0; 0; 0] ;;
     Ok (ones 8, ones2 8 2)).
Proof.
  apply (lca_ids_and_cdm_vec_constant (Toy.tokenizer 8) (Toy.opt "lca_bert" "cdm" 3 8 2)).
  reflexivity.
Defined.

(** C5, as the claim states it, fails on the inputs for which the lookup of
    the aspect raises: here the aspect token 7 is not among the text ids. *)
Lemma lca_ids_and_cdm_vec_raises :
  PyStr.contains "lcfs" (model_name (Toy.opt "lcf_bert" "cdm" 3 4 2)) = false
  /\ get_lca_ids_and_cdm_vec (Toy.tokenizer 4) (Toy.opt "lcf_bert" "cdm" 3 4 2)
       Toy.calculate_dep_dist [101; 5; 102; 0] [101; 7; 102; 0] "x" "y"
     = Raise IndexError.
Proof. split; reflexivity. Qed.

(* ===================================================================== *)
(** * [get_cdw_vec] *)
(* ===================================================================== *)

Lemma unit_fraction (d t : Q) :
  (0 <= d -> d <= t -> 0 < t -> 0 <= 1 - d / t /\ 1 - d / t <= 1)%Q.
Proof.
  intros Hd Hdt Ht.
  assert (H1 : (d / t <= 1)%Q) by (apply Qle_shift_div_r; [exact Ht|lra]).
  assert (H0 : (0 <= d / t)%Q) by (apply Qle_shift_div_l; [exact Ht|lra]).
  split; lra.
Qed.

Lemma find_last_index_lt (p : Z -> bool) (a : list Z) (i : nat) :
  find_last_index p a = Some i -> (i < List.length a)%nat.
Proof.
  revert i. induction a as [|x a IH]; intro i; simpl; [discriminate|].
  destruct (find_last_index p a) as [k|].
  - intros [= <-]. specialize (IH k eq_refl). lia.
  - destruct (p x); [|discriminate]. intros [= <-]. lia.
Qed.

Lemma get_asp_index_inv (text_ids aspect_indices : list Z) (v : Q) :
  get_asp_index text_ids aspect_indices = Ok v ->
  exists first_token first,
    index aspect_indices 1 = Ok first_token
    /\ argwhere_first text_ids first_token = Ok first.
Proof.
  unfold get_asp_index.
  destruct (index aspect_indices 1) as [tok|] eqn:E1; simpl; [|discriminate].
  destruct (argwhere_first text_ids tok) as [first|] eqn:E2; simpl; [|discriminate].
  intros _. exists tok, first. split; [reflexivity|exact E2].
Qed.

Lemma scaled_ones_row (w : Q) (n : nat) : row_is n w (scaled_ones w n).
Proof.
  unfold row_is, scaled_ones, ones. split.
  - now rewrite length_map, repeat_length.
  - apply Forall_forall. intros x Hx. apply in_map_iff in Hx.
    destruct Hx as (y & <- & Hy). apply repeat_spec in Hy. subst y. lra.
Qed.

Lemma zeros_row (n : nat) : row_is n 0 (repeat 0%Q n).
Proof.
  split; [apply repeat_length|].
  apply Forall_forall. intros x Hx. apply repeat_spec in Hx. subst. reflexivity.
Qed.

Lemma cdw_weight_cases (b e : Q) (text_len i : nat) :
  let iq := inject_Z (Z.of_nat i) in
  let tl := inject_Z (Z.of_nat text_len) in
  exists w, cdw_weight b e text_len i = Some w
    /\ ((b <= iq)%Q -> (iq <= e)%Q -> w == 1)
    /\ ((iq < b)%Q -> w == 1 - (b - iq) / tl)
    /\ ((e < iq)%Q -> (b <= iq)%Q -> w == 1 - (iq - e) / tl).
Proof.
  intros iq tl. unfold cdw_weight. fold iq tl.
  destruct (Qlt_bool iq b) eqn:E1.
  - apply Qlt_bool_iff in E1. eexists. split; [reflexivity|].
    repeat split; intros; try reflexivity; lra.
  - apply Qlt_bool_false_iff in E1.
    destruct (Qle_bool b iq) eqn:E2; simpl.
    2:{ apply Qle_bool_false_iff in E2. lra. }
    destruct (Qle_bool iq e) eqn:E3.
    + apply Qle_bool_iff in E3. eexists. split; [reflexivity|].
      repeat split; intros; try reflexivity; lra.
    + apply Qle_bool_false_iff in E3.
      destruct (Qlt_bool e iq) eqn:E4.
      * eexists. split; [reflexivity|]. repeat split; intros; try reflexivity; lra.
      * apply Qlt_bool_false_iff in E4. lra.
Qed.

Section ContextWeights.

Variable tokenizer : Tokenizer.
Variable opt : Opt.
Variable calculate_dep_dist : string -> string -> list string * list Z.

(** C1, as the code has it, in absolute (non-[lcfs]) mode.  [text_ids] has
    [max_seq_len] entries, [aspect_begin] is the value of [get_asp_index]
    and is not negative, [text_len] is one more than the last non-zero
    position.  Every row [i] of the result holds one weight [w] in all its
    [embed_dim] columns: below [text_len] it is 1 inside the window
    [[aspect_begin - SRD, aspect_begin + aspect_len + SRD - 1]] and
    [1 - distance / text_len] outside, [distance] being the distance to the
    nearer window edge; from [text_len] on it is 0, inside the window too.
    The weight lies in [[0, 1]] when the lower edge of the window is at
    most [text_len] and the upper edge at least -1. *)
Theorem cdw_vec_weights (text_ids aspect_indices : list Z) (text_raw aspect : string)
        (aspect_begin : Q) (last_nonzero : nat) :
  PyStr.contains "lcfs" (model_name opt) = false ->
  List.length text_ids = max_seq_len opt ->
  get_asp_index text_ids aspect_indices = Ok aspect_begin ->
  (0 <= aspect_begin)%Q ->
  flatnonzero_last text_ids = Ok last_nonzero ->
  let text_len := S last_nonzero in
  let tl := inject_Z (Z.of_nat text_len) in
  let window_begin := (aspect_begin - inject_Z (SRD opt))%Q in
  let window_end :=
    (aspect_begin + inject_Z (count_nonzero aspect_indices - 2)
     + inject_Z (SRD opt) - 1)%Q in
  exists cdw_vec,
    get_cdw_vec tokenizer opt calculate_dep_dist text_ids aspect_indices text_raw aspect
    = Ok cdw_vec
    /\ List.length cdw_vec = max_seq_len opt
    /\ forall i, (i < max_seq_len opt)%nat ->
       let iq := inject_Z (Z.of_nat i) in
       exists w row,
         nth_error cdw_vec i = Some row
         /\ row_is (embed_dim opt) w row
         /\ ((i < text_len)%nat -> (window_begin <= iq)%Q -> (iq <= window_end)%Q -> w == 1)
         /\ ((i < text_len)%nat -> (iq < window_begin)%Q ->
             w == 1 - (window_begin - iq) / tl)
         /\ ((i < text_len)%nat -> (window_end < iq)%Q -> (window_begin <= iq)%Q ->
             w == 1 - (iq - window_end) / tl)
         /\ ((text_len <= i)%nat -> w == 0)
         /\ ((window_begin <= tl)%Q -> (-1 <= window_end)%Q -> (0 <= w /\ w <= 1)%Q).
Proof.
  intros Hmodel Hlen Hasp Hnonneg Hlast text_len tl window_begin window_end.
  assert (Htl : (text_len <= max_seq_len opt)%nat).
  { unfold flatnonzero_last in Hlast.
    destruct (find_last_index _ text_ids) as [k|] eqn:E; [|discriminate].
    injection Hlast as <-. apply find_last_index_lt in E. unfold text_len. lia. }
  destruct (get_asp_index_inv _ _ _ Hasp) as (tok & first & Htok & Hfirst).
  unfold get_cdw_vec. rewrite Htok. simpl. rewrite Hfirst. simpl.
  rewrite Hlast. simpl. rewrite Hmodel, Hasp. simpl.
  apply Qlt_bool_false_iff in Hnonneg. rewrite Hnonneg.
  apply Qlt_bool_false_iff in Hnonneg.
  replace (last_nonzero + 1)%nat with text_len by (unfold text_len; lia).
  set (lcb := py_max0 (aspect_begin - inject_Z (SRD opt))).
  fold window_end.
  assert (Hbody : forall i (a : list (list Q)),
             match cdw_weight lcb window_end text_len i with
             | Some w => set_item a i (scaled_ones w (embed_dim opt))
             | None => Ok a
             end
             = match option_map (fun w => scaled_ones w (embed_dim opt))
                                (cdw_weight lcb window_end text_len i) with
               | Some v => set_item a i v
               | None => Ok a
               end).
  { intros i a. destruct (cdw_weight lcb window_end text_len i); reflexivity. }
  assert (Hroom : (0 + text_len
                   <= List.length (zeros2 (max_seq_len opt) (embed_dim opt)))%nat).
  { unfold zeros2. rewrite repeat_length. lia. }
  destruct (for_range_rows _ _ text_len (fun i a _ => Hbody i a) text_len 0%nat _
              (le_n _) Hroom)
    as (cdw_vec & Hrun & Hlength & Hin & Hout).
  exists cdw_vec. split; [exact Hrun|]. split.
  { rewrite Hlength. unfold zeros2. apply repeat_length. }
  intros i Hi. set (iq := inject_Z (Z.of_nat i)).
  assert (Hi0 : (0 <= iq)%Q).
  { unfold iq. change 0%Q with (inject_Z 0). rewrite <- Zle_Qle. lia. }
  assert (Hlcb : ((0 < window_begin)%Q /\ lcb = window_begin)
                 \/ ((window_begin <= 0)%Q /\ lcb = 0%Q)).
  { unfold lcb, py_max0. fold window_begin.
    destruct (Qlt_bool 0 window_begin) eqn:E.
    - left. apply Qlt_bool_iff in E. now split.
    - right. apply Qlt_bool_false_iff in E. now split. }
  destruct (Nat.lt_ge_cases i text_len) as [Hlt|Hge].
  - rewrite (Hin i) by lia.
    destruct (cdw_weight_cases lcb window_end text_len i)
      as (w & Hw & Hmid & Hleft & Hright).
    rewrite Hw. simpl. fold iq in Hmid, Hleft, Hright. fold tl in Hleft, Hright.
    exists w, (scaled_ones w (embed_dim opt)).
    split; [reflexivity|]. split; [apply scaled_ones_row|].
    assert (Htlpos : (0 < tl)%Q).
    { unfold tl. change 0%Q with (inject_Z 0). rewrite <- Zlt_Qlt. lia. }
    assert (Hitl : (iq <= tl - 1)%Q).
    { assert (H : Z.of_nat i + 1 <= Z.of_nat text_len) by lia.
      rewrite Zle_Qle, inject_Z_plus in H. fold iq tl in H.
      change (inject_Z 1) with 1%Q in H. lra. }
    repeat split.
    + intros _ Hb He. apply Hmid; [|exact He]. destruct Hlcb as [[_ ->]|[_ ->]]; lra.
    + intros _ Hb. destruct Hlcb as [[_ E]|[Hneg E]]; [|lra].
      rewrite <- E. apply Hleft. rewrite E. exact Hb.
    + intros _ He Hb. apply Hright; [exact He|].
      destruct Hlcb as [[_ ->]|[_ ->]]; lra.
    + intro. lia.
    + destruct (Qlt_le_dec iq lcb) as [Hl|Hl].
      * rewrite (Hleft Hl).
        apply unit_fraction; [lra| |exact Htlpos].
        destruct Hlcb as [[_ E]|[_ E]]; rewrite E in *; lra.
      * destruct (Qlt_le_dec window_end iq) as [Hr|Hr].
        -- rewrite (Hright Hr Hl). apply unit_fraction; [lra|lra|exact Htlpos].
        -- rewrite (Hmid Hl Hr). lra.
    + destruct (Qlt_le_dec iq lcb) as [Hl|Hl].
      * rewrite (Hleft Hl).
        apply unit_fraction; [lra| |exact Htlpos].
        destruct Hlcb as [[_ E]|[_ E]]; rewrite E in *; lra.
      * destruct (Qlt_le_dec window_end iq) as [Hr|Hr].
        -- rewrite (Hright Hr Hl). apply unit_fraction; [lra|lra|exact Htlpos].
        -- rewrite (Hmid Hl Hr). lra.
  - rewrite (Hout i) by lia.
    exists 0%Q, (repeat 0%Q (embed_dim opt)).
    split; [unfold zeros2; now apply nth_error_repeat|].
    split; [apply zeros_row|].
    repeat split; intros; try lia; try reflexivity; lra.
Qed.

End ContextWeights.

Lemma cdw_vec_weights_witness :
  exists cdw_vec,
    get_cdw_vec (Toy.tokenizer 8) (Toy.opt "lcf_bert" "cdw" 1 8 2) Toy.calculate_dep_dist
      [101; 2000; 2001; 2002; 102; 2001; 102; 0] [101; 2001; 102; 0; 0; 0; 0; 0]
      "a b c" "b"
    = Ok cdw_vec
    /\ List.length cdw_vec = 8%nat.
Proof.
  destruct (cdw_vec_weights (Toy.tokenizer 8) (Toy.opt "lcf_bert" "cdw" 1 8 2)
              Toy.calculate_dep_dist
              [101; 2000; 2001; 2002; 102; 2001; 102; 0] [101; 2001; 102; 0; 0; 0; 0; 0]
              "a b c" "b" (5 # 2) 6)
    as (cdw_vec & Hrun & Hlength & _).
  - reflexivity.
  - reflexivity.
  - reflexivity.
  - unfold Qle. simpl. lia.
  - reflexivity.
  - exists cdw_vec. split; [exact Hrun|exact Hlength].
Defined.

(** C1, as the claim states it, fails: a weight can be negative.  The text
    is truncated to 8 tokens and its last token starts a 6-token aspect;
    with [SRD = 1] the window starts at 9 and position 0, outside the
    window and below the text length 8, gets the weight [1 - 9/8]. *)
Lemma cdw_vec_negative_weight :
  exists cdw_vec w,
    get_cdw_vec (Toy.tokenizer 8) (Toy.opt "lcf_bert" "cdw" 1 8 1) Toy.calculate_dep_dist
      [101; 11; 12; 13; 14; 15; 16; 7] [101; 7; 8; 9; 10; 4; 3; 102] "x" "y"
    = Ok cdw_vec
    /\ nth_error cdw_vec 0 = Some [w]
    /\ w == - (1 # 8)
    /\ ~ (0 <= w)%Q.
Proof.
  eexists. eexists. split; [vm_compute; reflexivity|].
  split; [reflexivity|]. split.
  - reflexivity.
  - unfold Qle. simpl. lia.
Qed.

(* ===================================================================== *)
(** * [parse_sample] *)
(* ===================================================================== *)

(** What [build_samples] returns: all the samples, or those before the first
    index at which [mk] raises. *)
Lemma build_samples_spec (mk : nat -> result string) (idxs : list nat) :
  forall samples,
    match build_samples mk idxs samples with
    | (samples', None) =>
        exists new, samples' = samples ++ new
                    /\ Forall2 (fun i s => mk i = Ok s) idxs new
    | (samples', Some e) =>
        exists pre k post new,
          idxs = pre ++ k :: post
          /\ samples' = samples ++ new
          /\ Forall2 (fun i s => mk i = Ok s) pre new
          /\ mk k = Raise e
    end.
Proof.
  induction idxs as [|i rest IH]; intro samples; simpl.
  - exists []. split; [now rewrite app_nil_r|constructor].
  - destruct (mk i) as [sample|e] eqn:E.
    + specialize (IH (samples ++ [sample])).
      destruct (build_samples mk rest (samples ++ [sample])) as [samples' [e|]].
      * destruct IH as (pre & k & post & new & -> & -> & Hpre & Hk).
        exists (i :: pre), k, post, (sample :: new).
        split; [reflexivity|]. split; [now rewrite <- app_assoc|].
        split; [now constructor|exact Hk].
      * destruct IH as (new & -> & Hnew).
        exists (sample :: new). split; [now rewrite <- app_assoc|now constructor].
    + exists [], i, rest, []. split; [reflexivity|].
      split; [now rewrite app_nil_r|]. split; [constructor|exact E].
Qed.

Lemma range2_nth (stop j k : nat) :
  nth_error (range2 stop) j = Some k -> k = (2 * j)%nat /\ (k < stop)%nat.
Proof.
  unfold range2. intro H.
  rewrite nth_error_map in H.
  destruct (nth_error (seq 0 (Nat.div2 (stop + 1))) j) as [x|] eqn:E; [|discriminate].
  injection H as <-.
  assert (Hj : (j < Nat.div2 (stop + 1))%nat).
  { assert (H : (j < List.length (seq 0 (Nat.div2 (stop + 1))))%nat)
      by (apply nth_error_Some; congruence).
    now rewrite length_seq in H. }
  rewrite nth_error_seq in E.
  apply Nat.ltb_lt in Hj as Hj'. rewrite Hj' in E. injection E as <-.
  split; [reflexivity|].
  pose proof (Nat.div2_odd (stop + 1)).
  destruct (Nat.odd (stop + 1)); simpl in *; lia.
Qed.

Lemma range2_length (stop : nat) : List.length (range2 stop) = Nat.div2 (stop + 1).
Proof. unfold range2. now rewrite length_map, length_seq. Qed.

Lemma split_position {A : Type} (l pre post : list A) (k : A) :
  l = pre ++ k :: post -> nth_error l (List.length pre) = Some k.
Proof.
  intros ->. rewrite nth_error_app2 by lia. now rewrite Nat.sub_diag.
Qed.

Lemma index_ok {A : Type} (l : list A) (i : nat) :
  (i < List.length l)%nat -> exists a, index l i = Ok a.
Proof.
  intro H. unfold index. destruct (nth_error l i) as [a|] eqn:E.
  - now exists a.
  - apply nth_error_None in E. lia.
Qed.

Lemma index_raise {A : Type} (l : list A) (i : nat) (e : exn) :
  index l i = Raise e -> e = IndexError /\ (List.length l <= i)%nat.
Proof.
  unfold index. destruct (nth_error l i) eqn:E; [discriminate|].
  intros [= <-]. split; [reflexivity|]. now apply nth_error_None.
Qed.

(** A loop over [range2] whose body cannot raise appends one sample per
    index. *)
Lemma build_samples_total (mk : nat -> result string) (stop : nat) :
  (forall i, (i < stop)%nat -> exists s, mk i = Ok s) ->
  exists samples,
    build_samples mk (range2 stop) [] = (samples, None)
    /\ List.length samples = Nat.div2 (stop + 1).
Proof.
  intro Hmk.
  pose proof (build_samples_spec mk (range2 stop) []) as H.
  destruct (build_samples mk (range2 stop) []) as [samples [e|]].
  - destruct H as (pre & k & post & new & Hidx & _ & _ & Hk).
    apply split_position in Hidx. apply range2_nth in Hidx.
    destruct (Hmk k) as [s Hs]; [tauto|]. congruence.
  - destruct H as (new & -> & Hnew). exists new. split; [reflexivity|].
    rewrite <- (Forall2_length Hnew). apply range2_length.
Qed.

(** How the [try] block of [parse_sample] can end with an exception. *)
Lemma parse_sample_try_raised (text : string) (e : exn) :
  ps_raised (parse_sample_try text) = Some e ->
  PyStr.contains "!sent!" text = true
  /\ ((e = ValueError
       /\ List.length (PyStr.split "!sent!" text) <> 2%nat
       /\ ps_samples (parse_sample_try text) = []
       /\ ps_text (parse_sample_try text) = text)
      \/ (e = IndexError
          /\ exists text1 ref_sent,
               PyStr.split "!sent!" text = [text1; ref_sent]
               /\ let markers :=
                    (List.length
                       (PyStr.split "[ASP]" ("[PADDING] " ++ text1 ++ " [PADDING]")%string)
                     - 1)%nat in
                  Nat.odd markers = true
                  /\ Nat.div2 markers = List.length (PyStr.split_ws ref_sent)
                  /\ List.length (ps_samples (parse_sample_try text)) = Nat.div2 markers)).
Proof.
  unfold parse_sample_try.
  destruct (PyStr.contains "!sent!" text) eqn:Hc; simpl negb; cbv iota.
  - destruct (PyStr.split "!sent!" text) as [|text1 [|ref_sent [|x l]]] eqn:Hs.
    + simpl. intros [= <-]. split; [reflexivity|]. left. repeat split; auto.
    + simpl. intros [= <-]. split; [reflexivity|]. left. repeat split; auto.
    + remember ("[PADDING] " ++ text1 ++ " [PADDING]")%string as padded eqn:Hpadded.
      remember (PyStr.split "[ASP]" padded) as splits eqn:Hsplits.
      remember (PyStr.split_ws ref_sent) as refs eqn:Hrefs.
      destruct (Nat.div2 (List.length splits - 1) =? List.length refs)%nat eqn:Hm.
      * apply Nat.eqb_eq in Hm.
        match goal with
        | |- context [build_samples ?mk ?idxs []] =>
            pose proof (build_samples_spec mk idxs []) as H;
            destruct (build_samples mk idxs []) as [samples [e'|]]
        end; cbn [ps_raised ps_samples ps_text]; [|discriminate].
        intros [= <-]. split; [reflexivity|]. right.
        destruct H as (pre & k & post & new & Hidx & -> & Hpre & Hk).
        apply split_position in Hidx. apply range2_nth in Hidx.
        destruct Hidx as [Hk2 Hklt].
        destruct (index_ok splits (k + 1)) as [a Ha]; [lia|].
        rewrite Ha in Hk. simpl in Hk.
        destruct (index refs (Nat.div2 k)) as [r|e''] eqn:Hr; simpl in Hk; [discriminate|].
        injection Hk as <-. apply index_raise in Hr. destruct Hr as [-> Hr].
        split; [reflexivity|]. exists text1, ref_sent. split; [reflexivity|].
        cbv zeta. rewrite <- Hpadded, <- Hsplits, <- Hrefs.
        rewrite Hk2, Nat.div2_double in Hr.
        pose proof (Nat.div2_odd (List.length splits - 1)) as Hodd.
        apply Forall2_length in Hpre. rewrite app_nil_l.
        destruct (Nat.odd (List.length splits - 1)); simpl in Hodd.
        -- repeat split; lia.
        -- lia.
      * match goal with
        | |- context [build_samples ?mk ?idxs []] =>
            destruct (build_samples_total mk (List.length splits - 1)) as (samples & -> & _)
        end; [|simpl; discriminate].
        intros i Hi. destruct (index_ok splits (i + 1)) as [a Ha]; [lia|].
        rewrite Ha. simpl. eauto.
    + simpl. intros [= <-]. split; [reflexivity|]. left. repeat split; auto.
  - match goal with
    | |- context [build_samples ?mk ?idxs []] =>
        destruct (build_samples_total mk (List.length (PyStr.split "[ASP]" text) - 1))
          as (samples & -> & _)
    end; [|simpl; discriminate].
    intros i Hi. destruct (index_ok (PyStr.split "[ASP]" text) (i + 1)) as [a Ha]; [lia|].
    rewrite Ha. simpl. eauto.
Qed.

(** C10, as the code has it: [parse_sample] always returns.  When the
    [try] block raises, the exception is caught, the line
    ['Error while processing:'] with the current value of [text] is
    printed last, and the samples appended before the exception are
    returned.  The block raises only for a line that contains ['!sent!']:
    either the line does not split into two parts at ['!sent!'] and no
    sample is returned, or an odd number [m] of [[ASP]] markers meets
    [m / 2] reference polarities and the [m / 2] samples built before the
    missing polarity are returned. *)
Theorem parse_sample_recovers (text : string) :
  let st := parse_sample_try text in
  match ps_raised st with
  | None => parse_sample text = (ps_samples st, ps_out st)
  | Some e =>
      parse_sample text
      = (ps_samples st, ps_out st ++ [Print ["Error while processing:"; ps_text st]])
      /\ PyStr.contains "!sent!" text = true
      /\ ((e = ValueError
           /\ List.length (PyStr.split "!sent!" text) <> 2%nat
           /\ ps_samples st = []
           /\ ps_text st = text)
          \/ (e = IndexError
              /\ exists text1 ref_sent,
                   PyStr.split "!sent!" text = [text1; ref_sent]
                   /\ let markers :=
                        (List.length
                           (PyStr.split "[ASP]" ("[PADDING] " ++ text1 ++ " [PADDING]")%string)
                         - 1)%nat in
                      Nat.odd markers = true
                      /\ Nat.div2 markers = List.length (PyStr.split_ws ref_sent)
                      /\ List.length (ps_samples st) = Nat.div2 markers))
  end.
Proof.
  intro st. pose proof (parse_sample_try_raised text) as H. fold st in H.
  unfold parse_sample. fold st.
  destruct (ps_raised st) as [e|]; [|reflexivity].
  split; [reflexivity|]. now apply H.
Qed.

(** C10, as the claim states it, fails: three [[ASP]] markers and one
    reference polarity.  The first sample is appended, the second one
    raises [IndexError], and [parse_sample] returns the first. *)
Lemma parse_sample_keeps_partial_samples :
  ps_raised (parse_sample_try "[ASP]a[ASP] b [ASP]c !sent! 1") = Some IndexError
  /\ parse_sample "[ASP]a[ASP] b [ASP]c !sent! 1"
     = (["[PADDING] [ASP]a[ASP] b c  [PADDING] !sent! 1"],
        [Print ["Error while processing:"; "[PADDING] [ASP]a[ASP] b [ASP]c  [PADDING]"]]).
Proof. split; reflexivity. Qed.

(** C4: the code marks every occurrence of the aspect's text.  The line has
    two aspects and no ['!sent!']; the word of the first aspect occurs
    once more, unmarked, and the first sample marks both occurrences. *)
Lemma parse_sample_marks_every_occurrence :
  parse_sample "good [ASP]food[ASP] but the food [ASP]service[ASP] was slow"
  = (["good [ASP]food[ASP] but the [ASP]food[ASP] service was slow";
      "good food but the food [ASP]service[ASP] was slow"],
     []).
Proof. reflexivity. Qed.

(* ===================================================================== *)
(** * [process_data] *)
(* ===================================================================== *)

(** Case analysis on a successful sequence of binds. *)
Ltac inv_ok H :=
  repeat
    match type of H with
    | bind ?c _ = Ok _ =>
        let E := fresh "E" in
        destruct c eqn:E; cbn [bind] in H; [|discriminate H]
    | (let '(_, _) := ?p in _) = Ok _ => destruct p
    | (if ?c then _ else _) = Ok _ =>
        let E := fresh "E" in destruct c eqn:E; try discriminate H
    | Raise _ = Ok _ => discriminate H
    end.

Section ProcessData.

Variable tokenizer : Tokenizer.
Variable opt : Opt.
Variable calculate_dep_dist : string -> string -> list string * list Z.
Variable is_similar : option (list Z) -> option (list Z) -> bool.

Lemma build_feature_polarity (text : string) (p : Z) (d : Feature) :
  build_feature tokenizer opt calculate_dep_dist text p = Ok d -> polarity d = p.
Proof.
  unfold build_feature.
  destruct (PyStr.split "[ASP]" text) as [|text_left [|aspect [|text_right [|x l]]]];
    try discriminate.
  intro H. inv_ok H. injection H as <-. reflexivity.
Qed.

Lemma check_polarity_value (text text' : string) (p : Z) :
  check_polarity text = (text', Ok p) ->
  match reference_polarity text with
  | None => p = -999
  | Some EmptyString => p = -999
  | Some s => exists v, PyStr.int s = Ok v /\ p = v + 1
  end.
Proof.
  unfold check_polarity, reference_polarity.
  destruct (String.eqb "" (PyStr.strip text)); [discriminate|].
  destruct (PyStr.contains "!sent!" text); [|now intros [= _ <-]].
  unfold index.
  destruct (nth_error (PyStr.split "!sent!" text) 0) as [p0|]; [|discriminate].
  destruct (nth_error (PyStr.split "!sent!" text) 1) as [p1|]; [|discriminate].
  simpl. destruct (PyStr.strip p1) as [|c s] eqn:E.
  - now intros [= _ <-].
  - destruct (PyStr.int (String c s)) as [v|e]; simpl; [|discriminate].
    intros [= _ <-]. now exists v.
Qed.

(** C8: the record built from a sample stores [-999] when the sample has no
    ['!sent!'] or an empty reference polarity, and [v + 1] when the
    reference polarity is a non-empty string that [int] reads as [v]; for
    the strings 0, 1 and 2 the stored values are 1, 2 and 3. *)
Theorem stored_polarity (text text' : string) (d : Feature) :
  process_sample tokenizer opt calculate_dep_dist text = (text', Ok d) ->
  (reference_polarity text = None \/ reference_polarity text = Some "" ->
   polarity d = -999)
  /\ (forall s v, reference_polarity text = Some s -> s <> "" ->
                  PyStr.int s = Ok v -> polarity d = v + 1)
  /\ (reference_polarity text = Some "0" -> polarity d = 1)
  /\ (reference_polarity text = Some "1" -> polarity d = 2)
  /\ (reference_polarity text = Some "2" -> polarity d = 3)
  /\ (forall s, reference_polarity text = Some s -> In s [""; "0"; "1"; "2"] ->
                In (polarity d) [-999; 1; 2; 3]).
Proof.
  unfold process_sample.
  destruct (check_polarity text) as [t [p|e]] eqn:Hcheck; simpl; [|discriminate].
  intros [= _ Hbuild]. apply build_feature_polarity in Hbuild. rewrite Hbuild.
  apply check_polarity_value in Hcheck.
  assert (Hgen : forall s v, reference_polarity text = Some s -> s <> "" ->
                             PyStr.int s = Ok v -> p = v + 1).
  { intros s v Hs Hne Hint. rewrite Hs in Hcheck.
    destruct s as [|c s]; [congruence|].
    destruct Hcheck as (v' & Hv' & ->). congruence. }
  assert (Hnone : reference_polarity text = None \/ reference_polarity text = Some "" ->
                  p = -999).
  { intros [Hs|Hs]; rewrite Hs in Hcheck; exact Hcheck. }
  split; [exact Hnone|]. split; [exact Hgen|].
  split; [intro Hs; apply (Hgen "0" 0 Hs); [discriminate|reflexivity]|].
  split; [intro Hs; apply (Hgen "1" 1 Hs); [discriminate|reflexivity]|].
  split; [intro Hs; apply (Hgen "2" 2 Hs); [discriminate|reflexivity]|].
  intros s Hs [<-|[<-|[<-|[<-|[]]]]].
  - rewrite Hnone by now right. simpl. tauto.
  - rewrite (Hgen "0" 0 Hs); [simpl; tauto|discriminate|reflexivity].
  - rewrite (Hgen "1" 1 Hs); [simpl; tauto|discriminate|reflexivity].
  - rewrite (Hgen "2" 2 Hs); [simpl; tauto|discriminate|reflexivity].
Qed.


Hypothesis not_lca : PyStr.contains "lca" (model_name opt) = false.
Hypothesis is_lcf : PyStr.contains "lcf" (model_name opt) = true.
Hypothesis not_cdm : PyStr.contains "cdm" (lcf opt) = false.
Hypothesis not_cdw : PyStr.contains "cdw" (lcf opt) = false.
Hypothesis is_fusion : PyStr.contains "fusion" (lcf opt) = true.

Lemma build_feature_fusion (text : string) (p : Z) :
  build_feature tokenizer opt calculate_dep_dist text p
  = match PyStr.split "[ASP]" text with
    | [_; _; _] =>
        Raise (NotImplementedError "LCF-Fusion is not recommended due to its low efficiency!")
    | _ => Raise ValueError
    end.
Proof.
  unfold build_feature.
  destruct (PyStr.split "[ASP]" text) as [|text_left [|aspect [|text_right [|x l]]]];
    try reflexivity.
  rewrite not_lca, is_lcf, not_cdm, not_cdw, is_fusion. reflexivity.
Qed.

Lemma process_sample_fusion (text : string) :
  exists t e, process_sample tokenizer opt calculate_dep_dist text = (t, Raise e).
Proof.
  unfold process_sample. destruct (check_polarity text) as [t [p|e]].
  - simpl. rewrite build_feature_fusion.
    destruct (PyStr.split "[ASP]" t) as [|text_left [|aspect [|text_right [|x l]]]];
      eauto.
  - simpl. eauto.
Qed.

Lemma process_samples_fusion (samples : list string) :
  forall all_data out,
    snd (process_samples tokenizer opt calculate_dep_dist true samples all_data out)
    = Ok all_data.
Proof.
  induction samples as [|text rest IH]; intros all_data out; simpl.
  - reflexivity.
  - destruct (process_sample_fusion text) as (t & e & ->). apply IH.
Qed.

(** C3, as the code has it.  With an [lcf] model (not [lca]) and the mode
    [fusion], every sample raises inside the [try] block of [process_data]:
    [NotImplementedError] when the sample splits into three parts at
    [[ASP]].  The exception is caught.  With [ignore_error] set,
    [process_data] prints it, skips the sample and returns an empty
    dataset; without it, the first sample ends [process_data] with
    ['Error while processing:']. *)
Theorem fusion_mode_is_caught :
  (forall text p left_text aspect right_text,
      PyStr.split "[ASP]" text = [left_text; aspect; right_text] ->
      build_feature tokenizer opt calculate_dep_dist text p
      = Raise (NotImplementedError "LCF-Fusion is not recommended due to its low efficiency!"))
  /\ (forall samples,
         snd (process_data tokenizer opt calculate_dep_dist is_similar samples true) = Ok [])
  /\ (forall text rest,
         exists t e,
           process_sample tokenizer opt calculate_dep_dist text = (t, Raise e)
           /\ process_data tokenizer opt calculate_dep_dist is_similar (text :: rest) false
              = ([PrintExn e], Raise (RuntimeError ["Error while processing:"; t]))).
Proof.
  split; [|split].
  - intros text p l a r Hsplit. rewrite build_feature_fusion, Hsplit. reflexivity.
  - intro samples. unfold process_data.
    pose proof (process_samples_fusion samples [] []) as H.
    destruct (process_samples tokenizer opt calculate_dep_dist true samples [] [])
      as [out r].
    simpl in *. rewrite H. reflexivity.
  - intros text rest. destruct (process_sample_fusion text) as (t & e & E).
    exists t, e. split; [exact E|].
    unfold process_data. simpl. rewrite E. reflexivity.
Qed.

End ProcessData.

Lemma stored_polarity_witness :
  exists text' d,
    process_sample (Toy.tokenizer 16) (Toy.opt "bert_base" "cdw" 3 16 2)
      Toy.calculate_dep_dist
      "[PADDING] The [ASP]battery[ASP] life is great [PADDING] !sent! 2"
    = (text', Ok d)
    /\ polarity d = 3.
Proof.
  pose (r := process_sample (Toy.tokenizer 16) (Toy.opt "bert_base" "cdw" 3 16 2)
               Toy.calculate_dep_dist
               "[PADDING] The [ASP]battery[ASP] life is great [PADDING] !sent! 2").
  assert (E : process_sample (Toy.tokenizer 16) (Toy.opt "bert_base" "cdw" 3 16 2)
                Toy.calculate_dep_dist
                "[PADDING] The [ASP]battery[ASP] life is great [PADDING] !sent! 2" = r)
    by reflexivity.
  vm_compute in r.
  match eval unfold r in r with
  | (?t, Ok ?d) =>
      exists t, d; split; [exact E|];
      apply (stored_polarity _ _ _ _ t d E); reflexivity
  end.
Defined.

Lemma fusion_mode_is_caught_witness :
  snd (process_data (Toy.tokenizer 16) (Toy.opt "lcf_bert" "fusion" 3 16 2)
         Toy.calculate_dep_dist Toy.is_similar
         ["The [ASP]battery[ASP] is good"; "no aspect here"] true)
  = Ok [].
Proof.
  apply (fusion_mode_is_caught (Toy.tokenizer 16) (Toy.opt "lcf_bert" "fusion" 3 16 2)
           Toy.calculate_dep_dist Toy.is_similar);
    reflexivity.
Defined.

(** C3, as the claim states it, fails: with the default [ignore_error] the
    error is printed and the sample skipped; [process_data] returns
    normally, with no record. *)
Lemma fusion_mode_not_fatal :
  process_data (Toy.tokenizer 16) (Toy.opt "lcf_bert" "fusion" 3 16 2)
    Toy.calculate_dep_dist Toy.is_similar ["The [ASP]battery[ASP] is good"] true
  = ([PrintExn (NotImplementedError
                  "LCF-Fusion is not recommended due to its low efficiency!");
      Print ["Ignore error while processing:"; "The [ASP]battery[ASP] is good"]],
     Ok []).
Proof. reflexivity. Qed.

(* ===================================================================== *)
(** * [prepare_dataloader] *)
(* ===================================================================== *)

Lemma chunks_lengths {A : Type} (lengths : list nat) :
  forall l : list A,
    (list_sum lengths <= List.length l)%nat ->
    map (@List.length A) (chunks lengths l) = lengths.
Proof.
  induction lengths as [|n lengths IH]; intros l Hle; simpl in *.
  - reflexivity.
  - rewrite length_firstn, IH by (rewrite length_skipn; lia). f_equal. lia.
Qed.

Lemma chunks_concat {A : Type} (lengths : list nat) :
  forall l : list A,
    list_sum lengths = List.length l -> concat (chunks lengths l) = l.
Proof.
  induction lengths as [|n lengths IH]; intros l Hsum; simpl in *.
  - symmetry in Hsum. apply length_zero_iff_nil in Hsum. now subst.
  - rewrite IH by (rewrite length_skipn; lia). apply firstn_skipn.
Qed.

Lemma chunks_count {A : Type} (lengths : list nat) (l : list A) :
  List.length (chunks lengths l) = List.length lengths.
Proof.
  revert l. induction lengths as [|n lengths IH]; intro l; simpl; [reflexivity|].
  now rewrite IH.
Qed.

Lemma Subset_seq {A : Type} (ds front : list A) :
  Subset (front ++ ds) (seq (List.length front) (List.length ds)) = ds.
Proof.
  revert front. induction ds as [|a ds IH]; intro front; simpl; [reflexivity|].
  rewrite nth_error_app2 by lia. rewrite Nat.sub_diag. simpl. f_equal.
  specialize (IH (front ++ [a])). rewrite <- app_assoc, length_app in IH. simpl in IH.
  rewrite Nat.add_1_r in IH. exact IH.
Qed.

(** A subset drawn along a permutation of the indices holds every example
    once. *)
Lemma Subset_permutation {A : Type} (ds : list A) (indices : list nat) :
  Permutation indices (seq 0 (List.length ds)) -> Permutation (Subset ds indices) ds.
Proof.
  intro H. unfold Subset.
  rewrite (Permutation_flat_map _ H).
  change (Permutation (Subset ([] ++ ds) (seq (List.length (@nil A)) (List.length ds))) ds).
  now rewrite Subset_seq.
Qed.

Lemma all_but_from {A : Type} (folds : list A) :
  forall start f_idx,
    map snd (filter (fun ix => negb (fst ix =? start + f_idx)%nat)
                    (combine (seq start (List.length folds)) folds))
    = firstn f_idx folds ++ skipn (S f_idx) folds.
Proof.
  induction folds as [|x folds IH]; intros start f_idx; simpl.
  - now destruct f_idx.
  - destruct f_idx as [|f_idx]; simpl.
    + rewrite Nat.add_0_r, Nat.eqb_refl. simpl.
      specialize (IH (S start) 0%nat).
      assert (E : forall l : list (nat * A),
                 Forall (fun ix => (S start <= fst ix)%nat) l ->
                 filter (fun ix => negb (fst ix =? start)%nat) l = l).
      { induction l as [|y l IHl]; intro Hall; simpl; [reflexivity|].
        inversion Hall as [|? ? Hy Hl]; subst.
        destruct (Nat.eqb_spec (fst y) start); [lia|]. simpl. f_equal. now apply IHl. }
      rewrite E.
      * clear. revert start. induction folds as [|y folds IH]; intro start; simpl;
          [reflexivity|]. f_equal. apply IH.
      * clear. revert start. induction folds as [|y folds IH]; intro start; simpl;
          constructor; simpl; [lia|].
        eapply Forall_impl; [|apply (IH (S start))]. simpl. intros. lia.
    + destruct (Nat.eqb_spec start (start + S f_idx)); [lia|]. simpl. f_equal.
      etransitivity; [|exact (IH (S start) f_idx)]. f_equal.
      apply filter_ext. intros [i y].
      replace (start + S f_idx)%nat with (S start + f_idx)%nat by lia. reflexivity.
Qed.

Lemma all_but_spec {A : Type} (folds : list A) (f_idx : nat) :
  all_but f_idx folds = firstn f_idx folds ++ skipn (S f_idx) folds.
Proof. unfold all_but. apply (all_but_from folds 0 f_idx). Qed.

Lemma all_but_permutation {A : Type} (folds : list (list A)) (f_idx : nat) :
  (f_idx < List.length folds)%nat ->
  Permutation (concat (all_but f_idx folds) ++ nth f_idx folds []) (concat folds).
Proof.
  intro Hlt. rewrite all_but_spec.
  assert (Hnth : nth_error folds f_idx = Some (nth f_idx folds []))
    by now apply nth_error_nth'.
  pose proof (firstn_skipn_middle f_idx folds Hnth) as E.
  remember (nth f_idx folds []) as x eqn:Hx.
  remember (firstn f_idx folds) as pre eqn:Hpre.
  remember (skipn (S f_idx) folds) as post eqn:Hpost.
  rewrite <- E, !concat_app, concat_cons, <- app_assoc.
  apply Permutation_app_head. apply Permutation_app_comm.
Qed.

Lemma map_nth_seq {A B : Type} (f : A -> B) (l : list A) (d : A) :
  map (fun i => f (nth i l d)) (seq 0 (List.length l)) = map f l.
Proof.
  rewrite <- (map_map (fun i => nth i l d) f). f_equal.
  apply nth_ext with (d := d) (d' := d).
  - now rewrite length_map, length_seq.
  - intros n Hn. rewrite length_map, length_seq in Hn.
    rewrite (nth_indep _ d (nth 0 l d)) by (now rewrite length_map, length_seq).
    rewrite (map_nth (fun i => nth i l d) (seq 0 (List.length l)) 0%nat n).
    now rewrite seq_nth.
Qed.

Lemma fold_lengths_sum (total n : nat) :
  (1 <= n)%nat ->
  list_sum (repeat (total / n)%nat (n - 1) ++ [(total - total / n * (n - 1))%nat]) = total.
Proof.
  intro Hn. rewrite list_sum_app. simpl.
  assert (E : list_sum (repeat (total / n)%nat (n - 1)) = (total / n * (n - 1))%nat).
  { induction (n - 1)%nat as [|k IH]; simpl; [lia|]. rewrite IH. lia. }
  rewrite E.
  assert (total / n * n <= total)%nat.
  { rewrite Nat.mul_comm. apply Nat.Div0.mul_div_le. }
  nia.
Qed.

Section Folds.

Variable opt : Opt.
Variable randperm : nat -> list nat.

Lemma all_but_length {A : Type} (folds : list A) (f_idx : nat) :
  (f_idx < List.length folds)%nat ->
  List.length (all_but f_idx folds) = (List.length folds - 1)%nat.
Proof.
  intro H. rewrite all_but_spec, length_app, length_firstn, length_skipn. lia.
Qed.

Lemma fold_loop {A : Type} (folds : list (list A)) (count : nat) :
  (2 <= List.length folds)%nat ->
  forall start (self : loaders A),
    (start + count <= List.length folds)%nat ->
    for_range
      (fun f_idx (self : loaders A) =>
         train_set <- ConcatDataset (all_but f_idx folds) ;;
         test_set <- index folds f_idx ;;
         Ok (fst self ++ [mkDataLoader train_set (batch_size opt) true false],
             snd self ++ [mkDataLoader test_set (batch_size opt) false false]))
      start count self
    = Ok (fst self
          ++ map (fun i => mkDataLoader (concat (all_but i folds)) (batch_size opt) true false)
                 (seq start count),
          snd self
          ++ map (fun i => mkDataLoader (nth i folds []) (batch_size opt) false false)
                 (seq start count)).
Proof.
  intro Hfolds. induction count as [|k IH]; intros start self Hle; simpl.
  - now rewrite !app_nil_r, <- surjective_pairing.
  - assert (Hcat : ConcatDataset (all_but start folds) = Ok (concat (all_but start folds))).
    { pose proof (all_but_length folds start ltac:(lia)) as Hlen.
      destruct (all_but start folds); [simpl in Hlen; lia|reflexivity]. }
    rewrite Hcat. simpl.
    unfold index. rewrite (nth_error_nth' folds [] (n := start)) by lia. simpl.
    rewrite IH by lia. simpl. now rewrite <- !app_assoc.
Qed.

(** C6, as the code has it.  With [cross_validate_fold < 1] one training
    loader over the training set is added and, when the test set is not
    empty, one test loader over it.  With [cross_validate_fold = n >= 2]
    the training and test sets together are drawn along a random
    permutation and cut into [n] folds, the first [n - 1] of
    [total / n] examples and the last of the rest; fold [i] trains on the
    other folds in order and tests on fold [i]; the test sets of all the
    folds together hold every example once, and so do the training and
    test set of each fold. *)
Theorem prepare_dataloader_folds {A : Type} (self : loaders A)
        (train_set : list A) (test_set : option (list A)) :
  (forall n, Permutation (randperm n) (seq 0 n)) ->
  let held := match test_set with Some t => t | None => [] end in
  let sum_dataset := train_set ++ held in
  (cross_validate_fold opt < 1 ->
   prepare_dataloader opt randperm self train_set test_set
   = Ok (fst self ++ [mkDataLoader train_set (batch_size opt) true true],
         snd self ++ match held with
                     | [] => []
                     | _ :: _ => [mkDataLoader held (batch_size opt) false true]
                     end))
  /\ (2 <= cross_validate_fold opt ->
      let n := Z.to_nat (cross_validate_fold opt) in
      let total := List.length sum_dataset in
      exists folds,
        List.length folds = n
        /\ map (@List.length A) folds
           = repeat (total / n)%nat (n - 1) ++ [(total - total / n * (n - 1))%nat]
        /\ Permutation (concat folds) sum_dataset
        /\ prepare_dataloader opt randperm self train_set test_set
           = Ok (fst self
                 ++ map (fun i => mkDataLoader (concat (all_but i folds))
                                               (batch_size opt) true false)
                        (seq 0 n),
                 snd self
                 ++ map (fun fold => mkDataLoader fold (batch_size opt) false false) folds)
        /\ forall i, (i < n)%nat ->
                     Permutation (concat (all_but i folds) ++ nth i folds []) sum_dataset).
Proof.
  intros Hperm held sum_dataset. split.
  - intro Hcv. unfold prepare_dataloader. destruct self as [trains tests].
    apply Z.ltb_lt in Hcv. rewrite Hcv. simpl.
    unfold held. destruct test_set as [[|x t]|]; simpl; now rewrite ?app_nil_r.
  - intros Hcv n total.
    assert (Hn : (2 <= n)%nat) by (unfold n; lia).
    assert (Hsum : (if truthy test_set
                    then match test_set with
                         | Some test_set => ConcatDataset [train_set; test_set]
                         | None => Ok train_set
                         end
                    else Ok train_set) = Ok sum_dataset).
    { unfold sum_dataset, held. destruct test_set as [[|x t]|]; simpl;
        now rewrite ?app_nil_r. }
    set (lengths := repeat (total / n)%nat (n - 1)
                    ++ [(total - total / n * (n - 1))%nat]).
    assert (Hlengths : list_sum lengths = total)
      by (apply fold_lengths_sum; lia).
    set (drawn := Subset sum_dataset (randperm total)).
    assert (Hdrawn : Permutation drawn sum_dataset).
    { apply Subset_permutation. apply Hperm. }
    exists (chunks lengths drawn).
    assert (Hcount : List.length (chunks lengths drawn) = n).
    { rewrite chunks_count. unfold lengths. rewrite length_app, repeat_length. simpl. lia. }
    split; [exact Hcount|]. split.
    { apply chunks_lengths. rewrite (Permutation_length Hdrawn). fold total. lia. }
    split.
    { rewrite chunks_concat; [exact Hdrawn|].
      rewrite (Permutation_length Hdrawn). exact Hlengths. }
    split.
    { unfold prepare_dataloader. destruct self as [trains tests].
      assert (Hcv' : (cross_validate_fold opt <? 1) = false) by (apply Z.ltb_ge; lia).
      rewrite Hcv', Hsum. cbn [bind]. fold n. fold total. fold lengths.
      unfold random_split. fold total. rewrite Hlengths, Nat.eqb_refl. cbn [bind].
      fold drawn.
      rewrite fold_loop by lia. cbn [fst snd].
      apply f_equal. apply f_equal2; [reflexivity|]. apply f_equal.
      rewrite <- Hcount.
      apply (map_nth_seq (fun fold => mkDataLoader fold (batch_size opt) false false)). }
    intros i Hi.
    rewrite all_but_permutation by lia.
    rewrite chunks_concat; [exact Hdrawn|].
    rewrite (Permutation_length Hdrawn). exact Hlengths.
Qed.

End Folds.

Lemma prepare_dataloader_folds_witness :
  exists folds,
    map (@List.length nat) folds = [10; 10; 10]%nat
    /\ Permutation (concat folds) (seq 1 30)
    /\ prepare_dataloader (mkOpt "lcf_bert" "cdw" 3 80 768 3 16 1 5 0 "checkpoints" true [])
         (fun n => rev (seq 0 n)) ([], []) (seq 1 30) None
       = Ok (map (fun i => mkDataLoader (concat (all_but i folds)) 16 true false) (seq 0 3),
             map (fun fold => mkDataLoader fold 16 false false) folds).
Proof.
  destruct (prepare_dataloader_folds
              (mkOpt "lcf_bert" "cdw" 3 80 768 3 16 1 5 0 "checkpoints" true [])
              (fun n => rev (seq 0 n)) ([], []) (seq 1 30) None)
    as [_ Hfolds].
  - intro n. symmetry. apply Permutation_rev.
  - destruct Hfolds as (folds & _ & Hlengths & Hperm & Hrun & _).
    + simpl. lia.
    + exists folds. split; [exact Hlengths|]. split; [|exact Hrun].
      rewrite app_nil_r in Hperm. exact Hperm.
Defined.

(** C6, as the claim states it, fails for [cross_validate_fold = 1]: the
    only fold would train on the concatenation of no partition, which
    [ConcatDataset] refuses. *)
Lemma prepare_dataloader_one_fold_raises :
  prepare_dataloader (mkOpt "lcf_bert" "cdw" 3 80 768 1 16 1 5 0 "checkpoints" true [])
    (fun n => seq 0 n) ([], []) [1; 2; 3]%nat (Some [4; 5]%nat)
  = Raise (AssertionError "datasets should not be an empty iterable").
Proof. reflexivity. Qed.

(* ===================================================================== *)
(** * The checkpoints of a fold *)
(* ===================================================================== *)

Lemma round_half_even_cases (x : Q) :
  let f := Qfloor x in
  let r := (x - inject_Z f)%Q in
  (round_half_even x = f /\ (r <= 1 # 2)%Q /\ (r == 1 # 2 -> Z.even f = true))
  \/ (round_half_even x = f + 1 /\ (1 # 2 <= r)%Q /\ (r == 1 # 2 -> Z.even f = false)).
Proof.
  intros f r. unfold round_half_even. fold f. fold r.
  destruct (Qlt_bool r (1 # 2)) eqn:E1.
  - apply Qlt_bool_iff in E1. left. repeat split; [lra|]. intro H. lra.
  - apply Qlt_bool_false_iff in E1.
    destruct (Qlt_bool (1 # 2) r) eqn:E2.
    + apply Qlt_bool_iff in E2. right. repeat split; [lra|]. intro H. lra.
    + apply Qlt_bool_false_iff in E2.
      destruct (Z.even f) eqn:E3.
      * left. repeat split; auto.
      * right. repeat split; auto.
Qed.

Lemma round_half_even_monotone (x y : Q) :
  (x <= y)%Q -> round_half_even x <= round_half_even y.
Proof.
  intro Hxy.
  pose proof (Qfloor_resp_le _ _ Hxy) as Hf.
  destruct (round_half_even_cases x) as [(Ex & Hx & Hxe)|(Ex & Hx & Hxe)];
    destruct (round_half_even_cases y) as [(Ey & Hy & Hye)|(Ey & Hy & Hye)];
    rewrite Ex, Ey; try lia.
  destruct (Z.eq_dec (Qfloor x) (Qfloor y)) as [E|E]; [|lia].
  exfalso. rewrite E in *.
  assert (Hrx : (x - inject_Z (Qfloor y) == 1 # 2)%Q) by lra.
  assert (Hry : (y - inject_Z (Qfloor y) == 1 # 2)%Q) by lra.
  specialize (Hxe Hrx). specialize (Hye Hry). congruence.
Qed.

Lemma round2_monotone (x y : Q) : (x <= y)%Q -> (round2 x <= round2 y)%Q.
Proof.
  intro H. unfold round2, Qle. simpl.
  assert (round_half_even (x * 100) <= round_half_even (y * 100))
    by (apply round_half_even_monotone; lra).
  lia.
Qed.

Lemma save_dir_eqb_refl (p : save_dir) : save_dir_eqb p p = true.
Proof.
  destruct p; simpl; rewrite ?String.eqb_refl, ?Qeq_bool_refl; reflexivity.
Qed.

Lemma saved_app (a b : list fs_op) : saved (a ++ b) = saved a ++ saved b.
Proof. unfold saved. apply flat_map_app. Qed.

Lemma replay_app (ds : list save_dir) (a b : list fs_op) :
  replay ds (a ++ b) = replay (replay ds a) b.
Proof. unfold replay. apply fold_left_app. Qed.

(** The last directory saved is the last of [saved]. *)
Lemma fold_ops_last (ops : list fs_op) (l : option save_dir) :
  fold_ops ops l ->
  match l with
  | Some p => exists before, saved ops = before ++ [p]
  | None => saved ops = []
  end.
Proof.
  induction 1 as [|ops l root H IH|ops p H IH|ops q b p H IH Hle].
  - reflexivity.
  - rewrite saved_app. simpl. rewrite app_nil_r. exact IH.
  - rewrite saved_app, IH. now exists [].
  - rewrite saved_app. simpl. now exists (saved ops).
Qed.

Lemma Sorted_snoc {A : Type} (R : A -> A -> Prop) (l : list A) (x y : A) :
  Sorted R (l ++ [x]) -> R x y -> Sorted R ((l ++ [x]) ++ [y]).
Proof.
  induction l as [|a l IH]; simpl; intros Hs Hr.
  - repeat constructor. exact Hr.
  - inversion Hs as [|? ? Hs' Hhd]; subst. constructor.
    + now apply IH.
    + destruct l; simpl in *; inversion Hhd; subst; now constructor.
Qed.

(** The accuracies encoded in the names of the saved directories never
    decrease. *)
Lemma fold_ops_sorted (ops : list fs_op) (l : option save_dir) :
  fold_ops ops l -> Sorted Qle (map encoded_acc (saved ops)).
Proof.
  induction 1 as [|ops l root H IH|ops p H IH|ops q b p H IH Hle].
  - constructor.
  - rewrite saved_app. simpl. now rewrite app_nil_r.
  - apply fold_ops_last in H. rewrite saved_app, H. simpl. repeat constructor.
  - pose proof (fold_ops_last _ _ H) as (before & E).
    rewrite saved_app. simpl. rewrite E in *.
    rewrite !map_app in *. simpl in *. now apply Sorted_snoc.
Qed.

(** With every removal done, the directories left are the last one saved,
    after every operation. *)
Lemma fold_ops_retained (ops : list fs_op) (l : option save_dir) :
  fold_ops ops l ->
  Forall (fun op => match op with OpRmtree _ removed => removed = true | _ => True end) ops ->
  replay [] ops = match l with Some p => [p] | None => [] end
  /\ forall done rest, ops = done ++ rest -> (List.length (replay [] done) <= 1)%nat.
Proof.
  induction 1 as [|ops l root H IH|ops p H IH|ops q b p H IH Hle]; intro Hall.
  - split; [reflexivity|]. intros done rest E.
    symmetry in E. apply app_eq_nil in E. destruct E as [-> _]. simpl. lia.
  - apply Forall_app in Hall. destruct Hall as [Hall _].
    destruct (IH Hall) as [Hend Hpre]. split.
    + rewrite replay_app. simpl. exact Hend.
    + intros done rest E. apply app_eq_app in E.
      destruct E as [m [[E1 E]|[-> E]]].
      * eapply Hpre. exact E1.
      * destruct m as [|o [|o' m]]; try discriminate.
        -- rewrite app_nil_r. apply (Hpre ops []). now rewrite app_nil_r.
        -- injection E as <- _. rewrite replay_app. simpl. rewrite Hend.
           destruct l; simpl; lia.
  - apply Forall_app in Hall. destruct Hall as [Hall _].
    destruct (IH Hall) as [Hend Hpre]. split.
    + rewrite replay_app. simpl. rewrite Hend. reflexivity.
    + intros done rest E. apply app_eq_app in E.
      destruct E as [m [[E1 E]|[-> E]]].
      * eapply Hpre. exact E1.
      * destruct m as [|o [|o' m]]; try discriminate.
        -- rewrite app_nil_r. apply (Hpre ops []). now rewrite app_nil_r.
        -- injection E as <- _. rewrite replay_app. simpl. rewrite Hend. simpl. lia.
  - apply Forall_app in Hall. destruct Hall as [Hall Hblock].
    inversion Hblock as [|? ? Hb _]. simpl in Hb. subst.
    destruct (IH Hall) as [Hend Hpre]. split.
    + rewrite replay_app. simpl. rewrite Hend. simpl.
      rewrite save_dir_eqb_refl. reflexivity.
    + intros done rest E. apply app_eq_app in E.
      destruct E as [m [[E1 E]|[-> E]]].
      * eapply Hpre. exact E1.
      * destruct m as [|o [|o' [|o'' m]]]; try discriminate.
        -- rewrite app_nil_r. apply (Hpre ops []). now rewrite app_nil_r.
        -- injection E as <- _. rewrite replay_app. simpl. rewrite Hend. simpl.
           rewrite save_dir_eqb_refl. simpl. lia.
        -- injection E as <- <- _. rewrite replay_app. simpl. rewrite Hend. simpl.
           rewrite save_dir_eqb_refl. simpl. lia.
Qed.

Section Checkpoints.

Variable opt : Opt.
Variable rmtree_fails : save_dir -> bool.
Variable evaluate : nat -> Z -> Q * Q.
Variable f : nat.
Variable st0 : TrainState.

Let fold_invariant := fold_invariant rmtree_fails st0.

Lemma fold_invariant_start : fold_invariant (start_fold st0).
Proof.
  exists []. simpl. rewrite app_nil_r.
  repeat split; try constructor; intros; discriminate.
Qed.

Lemma existsb_save_model (p : save_dir) (disk : FileSystem) :
  existsb (save_dir_eqb p) (dirs (save_model p disk)) = true.
Proof.
  unfold save_model. simpl.
  destruct (existsb (save_dir_eqb p) (dirs disk)) eqn:E; [exact E|].
  rewrite existsb_app. simpl. rewrite save_dir_eqb_refl. apply orb_true_r.
Qed.

Lemma make_room_spec (st : TrainState) (ops : list fs_op) (new : save_dir) :
  trace st = trace st0 ++ ops ->
  fold_ops ops (save_path st) ->
  (forall p, save_path st = Some p ->
             (encoded_acc p <= encoded_acc new)%Q
             /\ existsb (save_dir_eqb p) (dirs (fs st)) = true) ->
  ((forall p, rmtree_fails p = false) -> removals_done ops) ->
  exists ops',
    snd (make_room opt rmtree_fails st) ++ [OpSaveModel new] = trace st0 ++ ops'
    /\ fold_ops ops' (Some new)
    /\ ((forall p, rmtree_fails p = false) -> removals_done ops').
Proof.
  intros Htrace Hops Hpath Hflags. unfold make_room.
  set (made := if root_exists (fs st) then (fs st, trace st)
               else (mkFS true (dirs (fs st)),
                     trace st ++ [OpMkdir (model_path_to_save opt)])).
  assert (Hmade : exists ops1,
             snd made = trace st0 ++ ops1
             /\ fold_ops ops1 (save_path st)
             /\ dirs (fst made) = dirs (fs st)
             /\ ((forall p, rmtree_fails p = false) -> removals_done ops1)).
  { unfold made. destruct (root_exists (fs st)); simpl.
    - exists ops. repeat split; auto.
    - exists (ops ++ [OpMkdir (model_path_to_save opt)]).
      split; [now rewrite Htrace, app_assoc|]. split; [now apply fold_ops_mkdir|].
      split; [reflexivity|]. intro Hnever. apply Forall_app.
      split; [now apply Hflags|]. repeat constructor. }
  destruct made as [disk ops0]. simpl in Hmade.
  destruct Hmade as (ops1 & -> & Hops1 & Hdirs & Hflags1).
  destruct (save_path st) as [old|] eqn:Hold.
  - destruct (Hpath old eq_refl) as [Hle Hexists].
    unfold rmtree. rewrite Hdirs, Hexists. simpl. rewrite orb_false_r.
    destruct (rmtree_fails old) eqn:Hfail; simpl.
    + exists (ops1 ++ [OpRmtree old false; OpSaveModel new]).
      split; [now rewrite <- !app_assoc|]. split.
      * now apply fold_ops_next.
      * intro Hnever. rewrite Hnever in Hfail. discriminate.
    + exists (ops1 ++ [OpRmtree old true; OpSaveModel new]).
      split; [now rewrite <- !app_assoc|]. split.
      * now apply fold_ops_next.
      * intro Hnever. apply Forall_app. split; [now apply Hflags1|].
        repeat constructor.
  - simpl. exists (ops1 ++ [OpSaveModel new]).
    split; [now rewrite <- !app_assoc|]. split.
    + now apply fold_ops_first.
    + intro Hnever. apply Forall_app. split; [now apply Hflags1|].
      repeat constructor.
Qed.

Lemma fold_invariant_on_test_acc (st : TrainState) (test_acc f1 : Q) :
  (String.eqb (model_path_to_save opt) "" = true -> save_path st = None) ->
  fold_invariant st -> fold_invariant (on_test_acc opt rmtree_fails st test_acc f1).
Proof.
  intros Hroot (ops & Htrace & Hops & Hpath & Hflags).
  unfold on_test_acc.
  destruct (Qlt_bool (max_fold_acc st) test_acc) eqn:Himproved.
  - destruct (String.eqb (model_path_to_save opt) "") eqn:Hempty; simpl.
    + exists ops. simpl. rewrite (Hroot eq_refl) in *.
      repeat split; auto; intros; discriminate.
    + set (new := Checkpoint (model_path_to_save opt) (model_name opt) (lcf opt)
                             (round2 (test_acc * 100)) (round2 (f1 * 100))).
      destruct (make_room_spec st ops new Htrace Hops) as (ops' & E & Hops' & Hflags').
      { intros p Hp. destruct (Hpath p Hp) as [Hacc Hexists].
        split; [|exact Hexists]. rewrite Hacc. simpl.
        apply round2_monotone. apply Qlt_bool_iff in Himproved. lra. }
      { exact Hflags. }
      destruct (make_room opt rmtree_fails st) as [disk ops1]. simpl in E.
      exists ops'. simpl. split; [exact E|]. split; [exact Hops'|].
      split; [|exact Hflags'].
      intros p [= <-]. split; [reflexivity|apply existsb_save_model].
  - exists ops. simpl. repeat split; auto; now apply Hpath.
Qed.

Lemma fold_invariant_on_evaluate (st : TrainState) :
  (String.eqb (model_path_to_save opt) "" = true -> save_path st = None) ->
  fold_invariant st -> fold_invariant (on_evaluate opt rmtree_fails evaluate f st).
Proof.
  intros Hroot Hinv. unfold on_evaluate.
  destruct (evaluate f (global_step st)) as [test_acc f1].
  pose proof (fold_invariant_on_test_acc st test_acc f1 Hroot Hinv) as H.
  unfold on_f1. destruct (Qlt_bool _ f1); [|exact H].
  destruct H as (ops & H1 & H2 & H3 & H4). exists ops. simpl. auto.
Qed.

Lemma no_root_on_evaluate (st : TrainState) :
  (String.eqb (model_path_to_save opt) "" = true -> save_path st = None) ->
  String.eqb (model_path_to_save opt) "" = true ->
  save_path (on_evaluate opt rmtree_fails evaluate f st) = None.
Proof.
  intros Hroot Hempty. unfold on_evaluate, on_f1, on_test_acc.
  destruct (evaluate f (global_step st)) as [test_acc f1].
  rewrite Hempty. simpl.
  destruct (Qlt_bool (max_fold_acc st) test_acc); simpl;
    destruct (Qlt_bool _ f1); simpl; auto.
Qed.

Lemma reachable_invariant (st : TrainState) :
  reachable opt rmtree_fails evaluate f st0 st ->
  fold_invariant st
  /\ (String.eqb (model_path_to_save opt) "" = true -> save_path st = None).
Proof.
  induction 1 as [|st epoch st' Hreach [IH Hroot] Hstep].
  - split; [apply fold_invariant_start|reflexivity].
  - unfold train_step in Hstep.
    set (st1 := mkTrainState (global_step st + 1) (max_fold_acc st) (max_fold_f1 st)
                  (save_path st) (sum_acc st) (sum_f1 st) (metrics_of_this_checkpoint st)
                  (max_apc_test_acc st) (max_apc_test_f1 st) (fs st) (trace st)) in *.
    assert (Hinv1 : fold_invariant st1).
    { destruct IH as (ops & H1 & H2 & H3 & H4). exists ops. simpl. auto. }
    assert (Hroot1 : String.eqb (model_path_to_save opt) "" = true -> save_path st1 = None)
      by exact Hroot.
    destruct (dataset_file_has_test opt); [|injection Hstep as <-; now split].
    destruct (log_step opt =? 0); [discriminate|].
    destruct (global_step st1 mod log_step opt =? 0);
      [|injection Hstep as <-; now split].
    destruct (evaluate_begin opt <=? Z.of_nat epoch);
      injection Hstep as <-; [|now split].
    split; [now apply fold_invariant_on_evaluate|].
    now apply no_root_on_evaluate.
Qed.

(** C2, as the code has it.  An evaluation changes the checkpoints only if
    its accuracy is strictly greater than the running maximum of the fold,
    which it then becomes.  The operations a fold has done at any moment
    are: a first save, then saves each of which comes right after the
    removal of the directory saved before it (a failure of the removal is
    ignored).  The accuracies encoded in the names of the directories
    saved never decrease (two accuracies may round to the same name), and
    when no removal fails the fold keeps at most one directory after every
    operation. *)
Theorem checkpoint_policy (st : TrainState) :
  reachable opt rmtree_fails evaluate f st0 st ->
  (let test_acc := fst (evaluate f (global_step st)) in
   let st' := on_evaluate opt rmtree_fails evaluate f st in
   (trace st' <> trace st -> (max_fold_acc st < test_acc)%Q)
   /\ max_fold_acc st'
      = if Qlt_bool (max_fold_acc st) test_acc then test_acc else max_fold_acc st)
  /\ exists ops,
       trace st = trace st0 ++ ops
       /\ fold_ops ops (save_path st)
       /\ Sorted Qle (map encoded_acc (saved ops))
       /\ ((forall p, rmtree_fails p = false) ->
           forall done rest, ops = done ++ rest ->
                             (List.length (replay [] done) <= 1)%nat).
Proof.
  intro Hreach. split.
  - unfold on_evaluate, on_f1, on_test_acc.
    destruct (evaluate f (global_step st)) as [test_acc f1]. simpl.
    destruct (Qlt_bool (max_fold_acc st) test_acc) eqn:E.
    + split; [intros _; now apply Qlt_bool_iff|].
      destruct (negb _); [destruct (make_room opt rmtree_fails st)|];
        simpl; destruct (Qlt_bool _ f1); reflexivity.
    + split; [|simpl; destruct (Qlt_bool _ f1); reflexivity].
      simpl. destruct (Qlt_bool _ f1); simpl; congruence.
  - destruct (reachable_invariant st Hreach) as [(ops & Htrace & Hops & _ & Hflags) _].
    exists ops. split; [exact Htrace|]. split; [exact Hops|].
    split; [now apply fold_ops_sorted with (l := save_path st)|].
    intros Hnever done rest E.
    exact (proj2 (fold_ops_retained ops _ Hops (Hflags Hnever)) done rest E).
Qed.

(** The state a fold ends in is one of its reachable states. *)
Lemma train_fold_reachable (batches : nat) (st : TrainState) :
  train_fold opt rmtree_fails evaluate f batches st0 = Ok st ->
  reachable opt rmtree_fails evaluate f st0 st.
Proof.
  unfold train_fold.
  assert (Hinner : forall epoch count start s s',
             reachable opt rmtree_fails evaluate f st0 s ->
             for_range (fun _ st => train_step opt rmtree_fails evaluate f epoch st)
                       start count s = Ok s' ->
             reachable opt rmtree_fails evaluate f st0 s').
  { intros epoch. induction count as [|k IH]; intros start s s' Hs Hrun; simpl in Hrun.
    - now injection Hrun as <-.
    - destruct (train_step opt rmtree_fails evaluate f epoch s) as [s1|e] eqn:E;
        simpl in Hrun; [|discriminate].
      apply (IH (S start) s1 s'); [|exact Hrun].
      eapply reachable_step; eauto. }
  assert (Houter : forall count start s s',
             reachable opt rmtree_fails evaluate f st0 s ->
             for_range
               (fun epoch st =>
                  for_range (fun _ st => train_step opt rmtree_fails evaluate f epoch st)
                            0 batches st)
               start count s = Ok s' ->
             reachable opt rmtree_fails evaluate f st0 s').
  { induction count as [|k IH]; intros start s s' Hs Hrun; simpl in Hrun.
    - now injection Hrun as <-.
    - destruct (for_range _ 0 batches s) as [s1|e] eqn:E; simpl in Hrun; [|discriminate].
      apply (IH (S start) s1 s'); [|exact Hrun].
      eapply Hinner; eauto. }
  apply Houter. constructor.
Qed.

End Checkpoints.

Lemma checkpoint_policy_witness :
  exists st ops,
    train_fold (mkOpt "lcf_bert" "cdw" 3 80 768 0 16 1 1 0 "checkpoints" true [])
      (fun _ => false)
      (fun _ step => if step =? 1 then (6 # 10, 1 # 2) else (8 # 10, 7 # 10))
      0 2 (initial_state (mkFS false []))
    = Ok st
    /\ trace st = ops
    /\ fold_ops ops (save_path st)
    /\ Sorted Qle (map encoded_acc (saved ops))
    /\ (List.length (replay [] ops) <= 1)%nat.
Proof.
  pose (r := train_fold (mkOpt "lcf_bert" "cdw" 3 80 768 0 16 1 1 0 "checkpoints" true [])
               (fun _ => false)
               (fun _ step => if step =? 1 then (6 # 10, 1 # 2) else (8 # 10, 7 # 10))
               0 2 (initial_state (mkFS false []))).
  assert (E : train_fold (mkOpt "lcf_bert" "cdw" 3 80 768 0 16 1 1 0 "checkpoints" true [])
                (fun _ => false)
                (fun _ step => if step =? 1 then (6 # 10, 1 # 2) else (8 # 10, 7 # 10))
                0 2 (initial_state (mkFS false [])) = r) by reflexivity.
  vm_compute in r.
  match eval unfold r in r with
  | Ok ?st =>
      destruct (checkpoint_policy _ _ _ _ _ st (train_fold_reachable _ _ _ _ _ _ _ E))
        as [_ (ops & Htrace & Hops & Hsorted & Hkept)];
      exists st, ops;
      split; [exact E|];
      split; [exact Htrace|];
      split; [exact Hops|];
      split; [exact Hsorted|];
      apply (Hkept (fun _ => eq_refl) ops []); now rewrite app_nil_r
  end.
Defined.

(** C2, as the claim states it, fails: the encoded accuracy is not strictly
    increasing.  Two evaluations of a test set of 100000 examples find
    90000 and then 90001 correct; both are saved, the second after the
    first is removed, and both names encode 90.0. *)
Lemma encoded_accuracy_repeats :
  exists st p1 p2,
    train_fold (mkOpt "lcf_bert" "cdw" 3 80 768 0 16 1 1 0 "checkpoints" true [])
      (fun _ => false)
      (fun _ step => if step =? 1 then (90000 # 100000, 1 # 2) else (90001 # 100000, 1 # 2))
      0 2 (initial_state (mkFS false []))
    = Ok st
    /\ trace st = [OpMkdir "checkpoints"; OpSaveModel p1; OpRmtree p1 true; OpSaveModel p2]
    /\ (90000 # 100000 < 90001 # 100000)%Q
    /\ encoded_acc p1 == 90
    /\ encoded_acc p2 == 90
    /\ ~ (encoded_acc p1 < encoded_acc p2)%Q.
Proof.
  eexists. eexists. eexists.
  split; [vm_compute; reflexivity|].
  split; [reflexivity|].
  split; [reflexivity|].
  split; [reflexivity|].
  split; [reflexivity|].
  unfold Qlt. simpl. lia.
Qed.

(* ===================================================================== *)
(** * [_infer] *)
(* ===================================================================== *)

Section Inference.

Variable predict : Feature -> Z.

Lemma sentiments_keys (k : Z) :
  In k [0; 1; 2; -999] ->
  exists label, int_dict_get sentiments k = Ok label
                /\ (k = -999 -> label = "")
                /\ (k <> -999 -> label <> "").
Proof.
  intros [<-|[<-|[<-|[<-|[]]]]]; eexists; (split; [reflexivity|]);
    split; intro H; try discriminate; try reflexivity; try lia.
Qed.

Lemma sentiments_missing (k : Z) :
  ~ In k [0; 1; 2; -999] -> int_dict_get sentiments k = Raise (KeyError (KInt k)).
Proof.
  intro H. simpl in H. unfold sentiments, int_dict_get.
  destruct (Z.eqb_spec k 0); [exfalso; apply H; subst; intuition|].
  destruct (Z.eqb_spec k 1); [exfalso; apply H; subst; intuition|].
  destruct (Z.eqb_spec k 2); [exfalso; apply H; subst; intuition|].
  destruct (Z.eqb_spec k (-999)); [exfalso; apply H; subst; intuition|].
  reflexivity.
Qed.

Lemma infer_sample_ok (save_result print_result : bool) (sample : Feature)
      (st : InferState) :
  In (polarity sample) [0; 1; 2; -999] ->
  In (predict sample) [0; 1; 2; -999] ->
  exists st' label,
    infer_sample predict save_result print_result sample st = Ok st'
    /\ int_dict_get sentiments (polarity sample) = Ok label
    /\ results st' = results st ++ [record_of predict sample label]
    /\ n_total st' = n_total st + 1
    /\ n_labeled st' = (if polarity sample =? -999 then n_labeled st else n_labeled st + 1)
    /\ n_correct st'
       = (if negb (polarity sample =? -999) && (predict sample =? polarity sample)
          then n_correct st + 1 else n_correct st).
Proof.
  intros Hreal Hsent.
  destruct (sentiments_keys _ Hreal) as (label & Hlabel & _).
  destruct (sentiments_keys _ Hsent) as (name & Hname & _).
  unfold infer_sample. rewrite Hlabel. cbn [bind].
  destruct (polarity sample =? -999) eqn:E.
  - rewrite Hname. cbn [bind]. eexists. exists label.
    split; [reflexivity|]. simpl. repeat split; reflexivity.
  - rewrite Hname. cbn [bind]. eexists. exists label.
    split; [reflexivity|]. simpl. repeat split; try reflexivity.
Qed.

Lemma infer_loop_ok (save_result print_result : bool) (samples : list Feature) :
  Forall (fun sample => In (polarity sample) [0; 1; 2; -999]
                        /\ In (predict sample) [0; 1; 2; -999]) samples ->
  forall st,
  exists st' new,
    infer_loop predict save_result print_result samples st = Ok st'
    /\ results st' = results st ++ new
    /\ Forall2 (fun sample r =>
                  exists label,
                    int_dict_get sentiments (polarity sample) = Ok label
                    /\ r = record_of predict sample label) samples new
    /\ n_total st' = n_total st + Z.of_nat (List.length samples).
Proof.
  induction 1 as [|sample rest [Hreal Hsent] Hrest IH]; intro st; simpl.
  - exists st, []. rewrite app_nil_r. repeat split; auto. lia.
  - destruct (infer_sample_ok save_result print_result sample st Hreal Hsent)
      as (st1 & label & E & Hlabel & Hres & Htot & _).
    rewrite E. cbn [bind].
    destruct (IH st1) as (st' & new & E' & Hres' & Hall & Htot').
    exists st', (record_of predict sample label :: new).
    split; [exact E'|]. split; [now rewrite Hres', Hres, <- app_assoc|].
    split; [constructor; eauto|]. lia.
Qed.

(** The records of [_infer].  When the stored polarity and the predicted
    class of every sample are keys of [sentiments] (0, 1, 2 or -999),
    [_infer] returns one record per sample, in order, with exactly the
    fields [text], [aspect], [sentiment], [ref_sentiment] and
    [infer result].  [ref_sentiment] is the label of the stored polarity,
    empty for -999 only.  Line 162 sets [infer result] for every sample
    from [sent == real_sent], the unlabeled ones included. *)
Theorem infer_result_records (all_data : list Feature) (save_result print_result : bool) :
  Forall (fun sample => In (polarity sample) [0; 1; 2; -999]
                        /\ In (predict sample) [0; 1; 2; -999]) all_data ->
  exists st,
    _infer predict all_data save_result print_result = Ok st
    /\ Forall2
         (fun sample r =>
            map fst r = ["text"; "aspect"; "sentiment"; "ref_sentiment"; "infer result"]
            /\ dict_lookup r "text" = Some (VStr (text_raw sample))
            /\ dict_lookup r "aspect" = Some (VStr (aspect sample))
            /\ dict_lookup r "sentiment" = Some (VInt (predict sample))
            /\ (exists label,
                   dict_lookup r "ref_sentiment" = Some (VStr label)
                   /\ int_dict_get sentiments (polarity sample) = Ok label
                   /\ (label = "" <-> polarity sample = -999))
            /\ dict_lookup r "infer result"
               = Some (VStr (if predict sample =? polarity sample
                             then "Correct" else "Wrong"))
            /\ (polarity sample = -999 -> predict sample <> -999 ->
                dict_lookup r "infer result" = Some (VStr "Wrong")))
         all_data (results st).
Proof.
  intro Hall.
  destruct (infer_loop_ok save_result print_result all_data Hall
              (mkInferState [] 0 0 0 [] [])) as (st' & new & E & Hres & Hnew & _).
  unfold _infer. rewrite E. cbn [bind]. eexists. split; [reflexivity|].
  cbn [results]. rewrite Hres. simpl.
  clear E Hres. induction Hnew as [|sample r rest new (label & Hlabel & ->) Hrest IH];
    [constructor|].
  inversion Hall as [|? ? [Hreal _] Hall']; subst.
  constructor; [|now apply IH].
  unfold record_of. simpl. repeat split.
  - exists label. split; [reflexivity|]. split; [exact Hlabel|].
    destruct (sentiments_keys _ Hreal) as (label' & Hlabel' & Hyes & Hno).
    assert (label' = label) by congruence. subst label'.
    split; [|exact Hyes]. intro Hempty.
    destruct (Z.eq_dec (polarity sample) (-999)) as [Heq|Hne]; [exact Heq|].
    exfalso. now apply (Hno Hne).
  - intros Heq Hne. rewrite Heq.
    destruct (Z.eqb_spec (predict sample) (-999)); [contradiction|reflexivity].
Qed.

(** [_infer] raises [KeyError] at the first sample whose stored polarity is
    not a key of [sentiments], whatever was inferred before it. *)
Lemma infer_sample_unknown_polarity (save_result print_result : bool)
      (sample : Feature) (st : InferState) :
  ~ In (polarity sample) [0; 1; 2; -999] ->
  infer_sample predict save_result print_result sample st
  = Raise (KeyError (KInt (polarity sample))).
Proof.
  intro H. unfold infer_sample. now rewrite (sentiments_missing _ H).
Qed.

End Inference.

Lemma infer_result_records_witness :
  exists st,
    _infer (fun _ => 2)
      [mkFeature "the battery life" "battery" (5 # 2) None None None None None None
                 2 None None;
       mkFeature "the screen" "screen" (5 # 2) None None None None None None
                 (-999) None None]
      false true
    = Ok st
    /\ List.length (results st) = 2%nat.
Proof.
  destruct (infer_result_records (fun _ => 2)
              [mkFeature "the battery life" "battery" (5 # 2) None None None None None None
                         2 None None;
               mkFeature "the screen" "screen" (5 # 2) None None None None None None
                         (-999) None None]
              false true) as (st & Hrun & Hrecords).
  - repeat constructor; simpl; tauto.
  - exists st. split; [exact Hrun|].
    symmetry. exact (Forall2_length Hrecords).
Defined.

(** C9: the code diverges from the claim on an unlabeled sample.  The
    sample has the stored polarity -999 and the model answers class 1.
    The printed line carries no verdict and the sample is counted neither
    as labeled nor as correct (lines 165-175), yet its record has the field
    [infer result], with the value ["Wrong"] (line 162). *)
Lemma infer_result_present_when_unlabeled :
  exists st r,
    _infer (fun _ => 1)
      [mkFeature "the screen" "screen" (5 # 2) None None None None None None
                 (-999) None None]
      false true
    = Ok st
    /\ results st = [r]
    /\ dict_lookup r "ref_sentiment" = Some (VStr "")
    /\ dict_lookup r "infer result" = Some (VStr "Wrong")
    /\ n_labeled st = 0 /\ n_correct st = 0
    /\ stdout st = [Line "the screen"; Line "screen --> Neutral";
                    TotalSamples 1; LabeledSamples 0; PredictionAccuracy None].
Proof.
  eexists. eexists. split; [reflexivity|]. repeat split; reflexivity.
Qed.

(* ===================================================================== *)
(** * More on [parse_sample] *)
(* ===================================================================== *)

Lemma split_from_nonempty (sep : string) (s : string) :
  forall skip, PyStr.split_from sep skip s <> [].
Proof.
  induction s as [|c s IH]; intro skip; simpl; [discriminate|].
  destruct skip; [|apply IH].
  destruct (PyStr.startswith sep (String c s)); [discriminate|].
  destruct (PyStr.split_from sep 0 s); discriminate.
Qed.

Lemma split_length (sep s : string) : (1 <= List.length (PyStr.split sep s))%nat.
Proof.
  pose proof (split_from_nonempty sep s 0) as H. unfold PyStr.split.
  destruct (PyStr.split_from sep 0 s); [congruence|simpl; lia].
Qed.

Lemma Forall2_nth_error {A B : Type} (R : A -> B -> Prop) (l : list A) (l' : list B) :
  Forall2 R l l' ->
  forall j x, nth_error l j = Some x -> exists y, nth_error l' j = Some y /\ R x y.
Proof.
  induction 1 as [|a b l l' Hab Hrest IH]; intros j x Hj.
  - destruct j; discriminate.
  - destruct j as [|j]; simpl in *.
    + injection Hj as <-. eauto.
    + eauto.
Qed.

Lemma range2_nth_error (stop j : nat) :
  (j < Nat.div2 (stop + 1))%nat -> nth_error (range2 stop) j = Some (2 * j)%nat.
Proof.
  intro H. unfold range2. rewrite nth_error_map, nth_error_seq.
  apply Nat.ltb_lt in H. now rewrite H.
Qed.

(** The loop of [parse_sample] when its body cannot raise: one sample per
    index, the [j]-th built from index [2 * j]. *)
Lemma build_samples_each (mk : nat -> result string) (stop : nat) :
  (forall i, (i < stop)%nat -> exists s, mk i = Ok s) ->
  exists samples,
    build_samples mk (range2 stop) [] = (samples, None)
    /\ List.length samples = Nat.div2 (stop + 1)
    /\ forall j, (j < Nat.div2 (stop + 1))%nat ->
                 exists sample, nth_error samples j = Some sample
                                /\ mk (2 * j)%nat = Ok sample.
Proof.
  intro Hmk.
  pose proof (build_samples_spec mk (range2 stop) []) as H.
  destruct (build_samples mk (range2 stop) []) as [samples [e|]].
  - destruct H as (pre & k & post & new & Hidx & _ & _ & Hk).
    apply split_position in Hidx. apply range2_nth in Hidx.
    destruct (Hmk k) as [s Hs]; [tauto|]. congruence.
  - destruct H as (new & -> & Hnew). exists new. split; [reflexivity|].
    split; [rewrite <- (Forall2_length Hnew); apply range2_length|].
    intros j Hj.
    exact (Forall2_nth_error _ _ _ Hnew j _ (range2_nth_error stop j Hj)).
Qed.

(** A line without ['!sent!']: [parse_sample] prints nothing and returns
    one sample per pair of pieces between [[ASP]] markers, [k] samples for
    [2 * k] markers; the [j]-th sample is the line without its markers in
    which every occurrence of the text of the [j]-th aspect is put between
    markers. *)
Theorem parse_sample_without_reference (text : string) :
  PyStr.contains "!sent!" text = false ->
  let splits := PyStr.split "[ASP]" text in
  exists samples,
    parse_sample text = (samples, [])
    /\ List.length samples = Nat.div2 (List.length splits)
    /\ (forall k, List.length splits = (2 * k + 1)%nat -> List.length samples = k)
    /\ forall j, (j < Nat.div2 (List.length splits))%nat ->
         exists a,
           nth_error splits (2 * j + 1) = Some a
           /\ nth_error samples j
              = Some (PyStr.replace a ("[ASP]" ++ a ++ "[ASP]")%string
                        (PyStr.replace "[ASP]" "" text)).
Proof.
  intros Hc splits.
  assert (Hlen : (List.length splits - 1 + 1 = List.length splits)%nat).
  { pose proof (split_length "[ASP]" text). fold splits in H. lia. }
  destruct (build_samples_each
              (fun i => a <- index splits (i + 1) ;;
                        Ok (PyStr.replace a ("[ASP]" ++ a ++ "[ASP]")%string
                              (PyStr.replace "[ASP]" "" text)))
              (List.length splits - 1)) as (samples & Hrun & Hcount & Heach).
  { intros i Hi. destruct (index_ok splits (i + 1)) as [a Ha]; [lia|].
    rewrite Ha. simpl. eauto. }
  rewrite Hlen in Hcount, Heach.
  exists samples. split.
  - unfold parse_sample, parse_sample_try. rewrite Hc. simpl negb. cbv iota.
    fold splits. rewrite Hrun. reflexivity.
  - split; [exact Hcount|]. split.
    + intros k Hk. rewrite Hcount, Hk.
      replace (2 * k + 1)%nat with (S (2 * k)) by lia. apply Nat.div2_succ_double.
    + intros j Hj. destruct (Heach j Hj) as (sample & Hnth & Hmk).
      unfold index in Hmk.
      destruct (nth_error splits (2 * j + 1)) as [a|] eqn:Ha; [|discriminate].
      cbn [bind] in Hmk. exists a. split; [reflexivity|congruence].
Qed.

Lemma parse_sample_without_reference_witness :
  exists samples,
    parse_sample "The [ASP]battery[ASP] is fine, the [ASP]screen[ASP] dim"
    = (samples, [])
    /\ List.length samples = 2%nat.
Proof.
  destruct (parse_sample_without_reference
              "The [ASP]battery[ASP] is fine, the [ASP]screen[ASP] dim")
    as (samples & Hrun & Hcount & _).
  - reflexivity.
  - exists samples. split; [exact Hrun|exact Hcount].
Defined.

(** A line with one ['!sent!'], an even number [2 * k] of markers and [k]
    reference polarities: [parse_sample] prints nothing and returns [k]
    samples, the [j]-th ending with the [j]-th polarity. *)
Theorem parse_sample_with_matching_reference (text text1 ref_sent : string) :
  PyStr.contains "!sent!" text = true ->
  PyStr.split "!sent!" text = [text1; ref_sent] ->
  let padded := ("[PADDING] " ++ text1 ++ " [PADDING]")%string in
  let splits := PyStr.split "[ASP]" padded in
  let refs := PyStr.split_ws ref_sent in
  List.length splits = (2 * List.length refs + 1)%nat ->
  exists samples,
    parse_sample text = (samples, [])
    /\ List.length samples = List.length refs
    /\ forall j r, nth_error refs j = Some r ->
         exists a,
           nth_error splits (2 * j + 1) = Some a
           /\ nth_error samples j
              = Some (PyStr.replace "[TEMP]" "[ASP]"
                        (PyStr.replace "[ASP]" ""
                           (PyStr.replace ("[ASP]" ++ a ++ "[ASP]")%string
                                          ("[TEMP]" ++ a ++ "[TEMP]")%string padded)
                         ++ " !sent! " ++ r)%string).
Proof.
  intros Hc Hs padded splits refs Hlen.
  assert (Hdiv : Nat.div2 (List.length splits - 1) = List.length refs).
  { rewrite Hlen. replace (2 * List.length refs + 1 - 1)%nat
      with (2 * List.length refs)%nat by lia. apply Nat.div2_double. }
  assert (Hdiv' : Nat.div2 (List.length splits - 1 + 1) = List.length refs).
  { rewrite Hlen. replace (2 * List.length refs + 1 - 1 + 1)%nat
      with (S (2 * List.length refs)) by lia. apply Nat.div2_succ_double. }
  destruct (build_samples_each
              (fun i =>
                 sample <-
                   (a <- index splits (i + 1) ;;
                    Ok (PyStr.replace "[ASP]" ""
                          (PyStr.replace ("[ASP]" ++ a ++ "[ASP]")%string
                                         ("[TEMP]" ++ a ++ "[TEMP]")%string padded))) ;;
                 r <- index refs (Nat.div2 i) ;;
                 Ok (PyStr.replace "[TEMP]" "[ASP]" (sample ++ " !sent! " ++ r)%string))
              (List.length splits - 1)) as (samples & Hrun & Hcount & Heach).
  { intros i Hi. destruct (index_ok splits (i + 1)) as [a Ha]; [lia|].
    rewrite Ha. cbn [bind].
    destruct (index_ok refs (Nat.div2 i)) as [r Hr].
    { pose proof (Nat.div2_odd i) as Hodd.
      destruct (Nat.odd i); simpl in Hodd; lia. }
    rewrite Hr. cbn [bind]. eauto. }
  rewrite Hdiv' in Hcount, Heach.
  exists samples. split.
  - unfold parse_sample, parse_sample_try. rewrite Hc, Hs. simpl negb. cbv iota.
    fold padded. fold splits. fold refs.
    apply Nat.eqb_eq in Hdiv. rewrite Hdiv, Hrun. reflexivity.
  - split; [exact Hcount|]. intros j r Hr.
    assert (Hj : (j < List.length refs)%nat) by (apply nth_error_Some; congruence).
    destruct (Heach j Hj) as (sample & Hnth & Hmk).
    unfold index in Hmk. rewrite Nat.div2_double, Hr in Hmk.
    destruct (nth_error splits (2 * j + 1)) as [a|] eqn:Ha; [|discriminate].
    cbn [bind] in Hmk. exists a. split; [reflexivity|congruence].
Qed.

Lemma parse_sample_with_matching_reference_witness :
  exists samples,
    parse_sample "The [ASP]battery[ASP] life is great but the [ASP]screen[ASP] is dim. !sent! 2 0"
    = (samples, [])
    /\ List.length samples = 2%nat.
Proof.
  destruct (parse_sample_with_matching_reference
              "The [ASP]battery[ASP] life is great but the [ASP]screen[ASP] is dim. !sent! 2 0"
              "The [ASP]battery[ASP] life is great but the [ASP]screen[ASP] is dim. "
              " 2 0")
    as (samples & Hrun & Hcount & _).
  - reflexivity.
  - reflexivity.
  - reflexivity.
  - exists samples. split; [exact Hrun|exact Hcount].
Defined.

(** A line with one ['!sent!'] whose number of reference polarities is not
    half the number of markers: [parse_sample] prints the warning and
    returns the samples without any polarity, one per pair of pieces. *)
Theorem parse_sample_with_unequal_reference (text text1 ref_sent : string) :
  PyStr.contains "!sent!" text = true ->
  PyStr.split "!sent!" text = [text1; ref_sent] ->
  let padded := ("[PADDING] " ++ text1 ++ " [PADDING]")%string in
  let splits := PyStr.split "[ASP]" padded in
  Nat.div2 (List.length splits - 1) <> List.length (PyStr.split_ws ref_sent) ->
  exists samples,
    parse_sample text
    = (samples,
       [Print [padded; " -> Unequal length of reference sentiment and aspects, ingore the refernece sentiment."]])
    /\ List.length samples = Nat.div2 (List.length splits)
    /\ forall j, (j < Nat.div2 (List.length splits))%nat ->
         exists a,
           nth_error splits (2 * j + 1) = Some a
           /\ nth_error samples j
              = Some (PyStr.replace "[TEMP]" "[ASP]"
                        (PyStr.replace "[ASP]" ""
                           (PyStr.replace ("[ASP]" ++ a ++ "[ASP]")%string
                                          ("[TEMP]" ++ a ++ "[TEMP]")%string padded))).
Proof.
  intros Hc Hs padded splits Hne.
  assert (Hlen : (List.length splits - 1 + 1 = List.length splits)%nat).
  { pose proof (split_length "[ASP]" padded). fold splits in H. lia. }
  destruct (build_samples_each
              (fun i =>
                 sample <-
                   (a <- index splits (i + 1) ;;
                    Ok (PyStr.replace "[ASP]" ""
                          (PyStr.replace ("[ASP]" ++ a ++ "[ASP]")%string
                                         ("[TEMP]" ++ a ++ "[TEMP]")%string padded))) ;;
                 Ok (PyStr.replace "[TEMP]" "[ASP]" sample))
              (List.length splits - 1)) as (samples & Hrun & Hcount & Heach).
  { intros i Hi. destruct (index_ok splits (i + 1)) as [a Ha]; [lia|].
    rewrite Ha. cbn [bind]. eauto. }
  rewrite Hlen in Hcount, Heach.
  exists samples. split.
  - unfold parse_sample, parse_sample_try. rewrite Hc, Hs. simpl negb. cbv iota.
    fold padded. fold splits.
    apply Nat.eqb_neq in Hne. rewrite Hne, Hrun. reflexivity.
  - split; [exact Hcount|]. intros j Hj.
    destruct (Heach j Hj) as (sample & Hnth & Hmk).
    unfold index in Hmk.
    destruct (nth_error splits (2 * j + 1)) as [a|] eqn:Ha; [|discriminate].
    cbn [bind] in Hmk. exists a. split; [reflexivity|congruence].
Qed.

Lemma parse_sample_with_unequal_reference_witness :
  exists samples,
    fst (parse_sample "The [ASP]battery[ASP] and the [ASP]screen[ASP] !sent! 2") = samples
    /\ List.length samples = 2%nat.
Proof.
  destruct (parse_sample_with_unequal_reference
              "The [ASP]battery[ASP] and the [ASP]screen[ASP] !sent! 2"
              "The [ASP]battery[ASP] and the [ASP]screen[ASP] " " 2")
    as (samples & Hrun & Hcount & _).
  - reflexivity.
  - reflexivity.
  - simpl. lia.
  - exists samples. split; [now rewrite Hrun|exact Hcount].
Defined.

(* ===================================================================== *)
(** * More on the weighting functions *)
(* ===================================================================== *)

(** [get_asp_index] returns exactly when [aspect_indices] has a second
    entry and that token occurs in [text_ids]; it raises [IndexError]
    otherwise. *)
Theorem get_asp_index_defined (text_ids aspect_indices : list Z) :
  ((exists v, get_asp_index text_ids aspect_indices = Ok v)
   <-> exists first_token, nth_error aspect_indices 1 = Some first_token
                           /\ In first_token text_ids)
  /\ forall e, get_asp_index text_ids aspect_indices = Raise e -> e = IndexError.
Proof.
  unfold get_asp_index, index, argwhere_first. split; [split|].
  - intros [v Hv].
    destruct (nth_error aspect_indices 1) as [tok|]; [|discriminate].
    exists tok. split; [reflexivity|]. simpl in Hv.
    destruct (find_index (Z.eqb tok) text_ids) as [i|] eqn:E; [|discriminate].
    apply find_index_first in E. destruct E as [E _]. now apply nth_error_In in E.
  - intros (tok & -> & Hin). simpl.
    destruct (find_index (Z.eqb tok) text_ids) as [i|] eqn:E.
    + simpl. eauto.
    + apply find_index_none in E. contradiction.
  - intros e. destruct (nth_error aspect_indices 1) as [tok|]; simpl.
    + destruct (find_index (Z.eqb tok) text_ids); simpl; congruence.
    + congruence.
Qed.

(** A loop ends with the exception of the first index at which its body
    raises, when the body leaves the state unchanged before it. *)
Lemma for_range_raise {S : Type} (body : nat -> S -> result S) (s : S) (e : exn)
      (k : nat) :
  (forall i, (i < k)%nat -> body i s = Ok s) ->
  body k s = Raise e ->
  forall count start, (start <= k)%nat -> (k < start + count)%nat ->
                      for_range body start count s = Raise e.
Proof.
  intros Hbefore Hk. induction count as [|n IH]; intros start Hle Hlt; simpl; [lia|].
  destruct (Nat.eq_dec start k) as [->|Hne].
  - now rewrite Hk.
  - rewrite Hbefore by lia. simpl. apply IH; lia.
Qed.

(** A property of the state that every step of a loop keeps. *)
Lemma for_range_invariant {S : Type} (body : nat -> S -> result S) (P : S -> Prop) :
  (forall i s s', body i s = Ok s' -> P s -> P s') ->
  forall count start s s', for_range body start count s = Ok s' -> P s -> P s'.
Proof.
  intro Hbody. induction count as [|n IH]; intros start s s' Hrun Hs; simpl in Hrun.
  - now injection Hrun as <-.
  - destruct (body start s) as [s1|e] eqn:E; simpl in Hrun; [|discriminate].
    eapply IH; eauto.
Qed.

Section MoreWeights.

Variable tokenizer : Tokenizer.
Variable opt : Opt.
Variable calculate_dep_dist : string -> string -> list string * list Z.

(** In [lcfs] mode too the local-context ids and the mask are constant:
    all ones when the dependency distances cover [max_seq_len] positions,
    and [IndexError] when they are fewer. *)
Theorem lca_ids_and_cdm_vec_syntactic (text_ids aspect_indices : list Z)
        (text_raw aspect : string) :
  PyStr.contains "lcfs" (model_name opt) = true ->
  let syntactical_dist :=
    syntactical_dist_of tokenizer calculate_dep_dist text_raw aspect in
  get_lca_ids_and_cdm_vec tokenizer opt calculate_dep_dist
    text_ids aspect_indices text_raw aspect
  = if (max_seq_len opt <=? List.length syntactical_dist)%nat
    then Ok (ones (max_seq_len opt), ones2 (max_seq_len opt) (embed_dim opt))
    else Raise IndexError.
Proof.
  intros Hmodel dist. unfold get_lca_ids_and_cdm_vec. rewrite Hmodel. fold dist.
  assert (Hstep : forall i, (i < List.length dist)%nat -> (i < max_seq_len opt)%nat ->
             (d <- index dist i ;;
              if d <=? SRD opt
              then mark_local opt i (ones (max_seq_len opt),
                                     ones2 (max_seq_len opt) (embed_dim opt))
              else Ok (ones (max_seq_len opt), ones2 (max_seq_len opt) (embed_dim opt)))
             = Ok (ones (max_seq_len opt), ones2 (max_seq_len opt) (embed_dim opt))).
  { intros i Hi Hmax. destruct (index_ok dist i Hi) as [d ->]. cbn [bind].
    destruct (d <=? SRD opt); [now apply mark_local_ones|reflexivity]. }
  destruct (Nat.leb_spec (max_seq_len opt) (List.length dist)) as [Hle|Hlt].
  - apply for_range_fixed with (stop := max_seq_len opt); [|lia].
    intros i Hi. apply Hstep; lia.
  - apply for_range_raise with (k := List.length dist); try lia.
    + intros i Hi. apply Hstep; lia.
    + unfold index. now rewrite (proj2 (nth_error_None dist _) (le_n _)).
Qed.

(** [build_spc_mask_vec] on ids that fit the matrix: row [i] is all ones
    where [text_ids[i]] is not zero and all zeros elsewhere. *)
Theorem spc_mask_rows (text_ids : list Z) :
  (List.length text_ids <= max_seq_len opt)%nat ->
  exists spc_mask_vec,
    build_spc_mask_vec opt text_ids = Ok spc_mask_vec
    /\ List.length spc_mask_vec = max_seq_len opt
    /\ forall i, (i < max_seq_len opt)%nat ->
         nth_error spc_mask_vec i
         = Some (match nth_error text_ids i with
                 | Some t => if t =? 0 then repeat 0%Q (embed_dim opt)
                             else ones (embed_dim opt)
                 | None => repeat 0%Q (embed_dim opt)
                 end).
Proof.
  intro Hfit. unfold build_spc_mask_vec.
  destruct (for_range_rows
              (fun i spc_mask_vec =>
                 t <- index text_ids i ;;
                 if negb (t =? 0) then set_item spc_mask_vec i (ones (embed_dim opt))
                 else Ok spc_mask_vec)
              (fun i => match nth_error text_ids i with
                        | Some t => if t =? 0 then None else Some (ones (embed_dim opt))
                        | None => None
                        end)
              (List.length text_ids))
    with (count := List.length text_ids) (start := 0%nat)
         (a := zeros2 (max_seq_len opt) (embed_dim opt))
    as (m & Hrun & Hlen & Hin & Hout).
  - intros i a Hi. destruct (index_ok text_ids i Hi) as [t Ht].
    rewrite Ht. cbn [bind]. unfold index in Ht.
    destruct (nth_error text_ids i) as [t'|]; [|discriminate].
    injection Ht as ->. now destruct (t =? 0).
  - lia.
  - unfold zeros2. rewrite repeat_length. lia.
  - exists m. split; [exact Hrun|]. split.
    + rewrite Hlen. unfold zeros2. apply repeat_length.
    + intros i Hi. destruct (Nat.lt_ge_cases i (List.length text_ids)) as [Hlt|Hge].
      * rewrite Hin by lia.
        destruct (nth_error text_ids i) as [t|] eqn:E.
        -- destruct (t =? 0); [|reflexivity]. unfold zeros2. now apply nth_error_repeat.
        -- apply nth_error_None in E. lia.
      * rewrite Hout by lia.
        rewrite (proj2 (nth_error_None text_ids i) Hge).
        unfold zeros2. now apply nth_error_repeat.
Qed.

(** In [lcfs] mode [get_cdw_vec] weights position [i] below the text length
    by its dependency distance [d]: 1 when [d <= SRD] and
    [1 - d / text_len] otherwise; the rows from the text length on are
    zero. *)
Theorem cdw_vec_syntactic (text_ids aspect_indices : list Z) (text_raw aspect : string)
        (first_token : Z) (last_nonzero : nat) :
  PyStr.contains "lcfs" (model_name opt) = true ->
  nth_error aspect_indices 1 = Some first_token ->
  In first_token text_ids ->
  flatnonzero_last text_ids = Ok last_nonzero ->
  let text_len := S last_nonzero in
  let syntactical_dist :=
    syntactical_dist_of tokenizer calculate_dep_dist text_raw aspect in
  (text_len <= max_seq_len opt)%nat ->
  (text_len <= List.length syntactical_dist)%nat ->
  exists cdw_vec,
    get_cdw_vec tokenizer opt calculate_dep_dist text_ids aspect_indices text_raw aspect
    = Ok cdw_vec
    /\ List.length cdw_vec = max_seq_len opt
    /\ (forall i d, (i < text_len)%nat -> nth_error syntactical_dist i = Some d ->
          exists row,
            nth_error cdw_vec i = Some row
            /\ row_is (embed_dim opt)
                 (if SRD opt <? d
                  then 1 - inject_Z d / inject_Z (Z.of_nat text_len) else 1)%Q row)
    /\ (forall i, (text_len <= i < max_seq_len opt)%nat ->
          nth_error cdw_vec i = Some (repeat 0%Q (embed_dim opt))).
Proof.
  intros Hmodel Htok Hin Hlast text_len dist Hmax Hdist.
  unfold get_cdw_vec, index, argwhere_first. rewrite Htok. cbn [bind].
  destruct (find_index (Z.eqb first_token) text_ids) as [k|] eqn:E.
  2:{ apply find_index_none in E. contradiction. }
  cbn [bind]. rewrite Hlast. cbn [bind]. rewrite Hmodel. fold dist.
  replace (last_nonzero + 1)%nat with text_len by (unfold text_len; lia).
  destruct (for_range_rows
              (fun i cdw_vec =>
                 d <- match nth_error dist i with
                      | Some a => Ok a
                      | None => Raise IndexError
                      end ;;
                 if SRD opt <? d
                 then set_item cdw_vec i
                        (scaled_ones (1 - inject_Z d / inject_Z (Z.of_nat text_len))
                                     (embed_dim opt))
                 else set_item cdw_vec i (ones (embed_dim opt)))
              (fun i => match nth_error dist i with
                        | Some d =>
                            Some (if SRD opt <? d
                                  then scaled_ones
                                         (1 - inject_Z d / inject_Z (Z.of_nat text_len))
                                         (embed_dim opt)
                                  else ones (embed_dim opt))
                        | None => None
                        end)
              text_len)
    with (count := text_len) (start := 0%nat)
         (a := zeros2 (max_seq_len opt) (embed_dim opt))
    as (m & Hrun & Hlen & Hrows & Hout).
  - intros i a Hi. destruct (nth_error dist i) as [d|] eqn:Ed.
    + cbn [bind]. now destruct (SRD opt <? d).
    + apply nth_error_None in Ed. lia.
  - lia.
  - unfold zeros2. rewrite repeat_length. lia.
  - exists m. split; [exact Hrun|]. split.
    + rewrite Hlen. unfold zeros2. apply repeat_length.
    + split.
      * intros i d Hi Hd. rewrite Hrows by lia. rewrite Hd.
        eexists. split; [reflexivity|].
        destruct (SRD opt <? d); [apply scaled_ones_row|].
        unfold ones. split; [apply repeat_length|].
        apply Forall_forall. intros x Hx. apply repeat_spec in Hx. now subst.
      * intros i Hi. rewrite Hout by lia. unfold zeros2. apply nth_error_repeat. lia.
Qed.

End MoreWeights.

Lemma get_asp_index_defined_witness :
  exists v, get_asp_index [101; 5; 7; 102; 0] [101; 7; 102; 0] = Ok v.
Proof.
  apply (proj1 (get_asp_index_defined [101; 5; 7; 102; 0] [101; 7; 102; 0])).
  exists 7. split; [reflexivity|]. simpl. tauto.
Defined.

Lemma lca_ids_and_cdm_vec_syntactic_witness :
  get_lca_ids_and_cdm_vec (Toy.tokenizer 4) (Toy.opt "lcfs_bert" "cdm" 3 4 2)
    Toy.calculate_dep_dist [101; 5; 102; 0] [101; 5; 102; 0] "a b" "a"
  = Ok (ones 4, ones2 4 2).
Proof.
  rewrite (lca_ids_and_cdm_vec_syntactic (Toy.tokenizer 4) (Toy.opt "lcfs_bert" "cdm" 3 4 2)
             Toy.calculate_dep_dist [101; 5; 102; 0] [101; 5; 102; 0] "a b" "a" eq_refl).
  reflexivity.
Defined.

Lemma spc_mask_rows_witness :
  exists spc_mask_vec,
    build_spc_mask_vec (Toy.opt "slide_lcf_bert" "cdw" 3 4 2) [101; 5; 102; 0]
    = Ok spc_mask_vec
    /\ List.length spc_mask_vec = 4%nat.
Proof.
  destruct (spc_mask_rows (Toy.opt "slide_lcf_bert" "cdw" 3 4 2) [101; 5; 102; 0])
    as (m & Hrun & Hlen & _).
  - simpl. lia.
  - exists m. split; [exact Hrun|exact Hlen].
Defined.

Lemma cdw_vec_syntactic_witness :
  exists cdw_vec,
    get_cdw_vec (Toy.tokenizer 6) (Toy.opt "lcfs_bert" "cdw" 0 6 2)
      (fun _ _ => (["a"; "b"; "c"], [2; 0; 1]))
      [101; 5; 6; 7; 102; 0] [101; 6; 102; 0; 0; 0] "a b c" "b"
    = Ok cdw_vec
    /\ List.length cdw_vec = 6%nat.
Proof.
  destruct (cdw_vec_syntactic (Toy.tokenizer 6) (Toy.opt "lcfs_bert" "cdw" 0 6 2)
              (fun _ _ => (["a"; "b"; "c"], [2; 0; 1]))
              [101; 5; 6; 7; 102; 0] [101; 6; 102; 0; 0; 0] "a b c" "b" 6 4)
    as (m & Hrun & Hlen & _).
  - reflexivity.
  - reflexivity.
  - simpl. tauto.
  - reflexivity.
  - simpl. lia.
  - simpl. lia.
  - exists m. split; [exact Hrun|exact Hlen].
Defined.

(* ===================================================================== *)
(** * The records of [process_data] *)
(* ===================================================================== *)

Lemma shape_repeat (r c : nat) (x : Q) : shape r c (repeat (repeat x c) r).
Proof.
  split; [apply repeat_length|].
  apply Forall_forall. intros row H. apply repeat_spec in H. subst.
  apply repeat_length.
Qed.

Lemma Forall_firstn_skipn {A : Type} (P : A -> Prop) (l : list A) (n : nat) :
  Forall P l -> Forall P (firstn n l) /\ Forall P (skipn n l).
Proof.
  intro H. rewrite <- (firstn_skipn n l) in H. now apply Forall_app in H.
Qed.

Lemma shape_set_item (r c : nat) (m m' : list (list Q)) (i : nat) (row : list Q) :
  shape r c m -> List.length row = c -> set_item m i row = Ok m' -> shape r c m'.
Proof.
  intros [Hlen Hrows] Hrow Hset. split.
  - now rewrite (set_item_length _ _ _ _ Hset).
  - destruct (set_item_inv _ _ _ _ Hset) as [_ ->].
    apply Forall_app. split; [now apply Forall_firstn_skipn|].
    constructor; [exact Hrow|now apply Forall_firstn_skipn].
Qed.

Lemma scaled_ones_length (w : Q) (n : nat) : List.length (scaled_ones w n) = n.
Proof. unfold scaled_ones, ones. now rewrite length_map, repeat_length. Qed.

Lemma ones_length (n : nat) : List.length (ones n) = n.
Proof. apply repeat_length. Qed.

Section Records.

Variable tokenizer : Tokenizer.
Variable opt : Opt.
Variable calculate_dep_dist : string -> string -> list string * list Z.
Variable is_similar : option (list Z) -> option (list Z) -> bool.

Lemma mark_local_kept (i : nat) (arrs : list Q * list (list Q)) :
  mark_local opt i (ones (max_seq_len opt), ones2 (max_seq_len opt) (embed_dim opt))
  = Ok arrs ->
  arrs = (ones (max_seq_len opt), ones2 (max_seq_len opt) (embed_dim opt)).
Proof.
  destruct (Nat.lt_ge_cases i (max_seq_len opt)) as [Hlt|Hge].
  - rewrite mark_local_ones by exact Hlt. now intros [= <-].
  - unfold mark_local, set_item, ones.
    rewrite (proj2 (Nat.ltb_ge i (List.length (repeat 1%Q (max_seq_len opt)))))
      by (rewrite repeat_length; exact Hge).
    discriminate.
Qed.

Lemma lca_ids_and_cdm_vec_value (text_ids aspect_indices : list Z)
      (text_raw aspect : string) (l : list Q) (m : list (list Q)) :
  get_lca_ids_and_cdm_vec tokenizer opt calculate_dep_dist
    text_ids aspect_indices text_raw aspect = Ok (l, m) ->
  l = ones (max_seq_len opt) /\ m = ones2 (max_seq_len opt) (embed_dim opt).
Proof.
  intro Hrun.
  enough (H : (l, m) = (ones (max_seq_len opt), ones2 (max_seq_len opt) (embed_dim opt)))
    by (now injection H as -> ->).
  unfold get_lca_ids_and_cdm_vec in Hrun.
  destruct (PyStr.contains "lcfs" (model_name opt)).
  - eapply for_range_invariant
      with (P := fun arrs => arrs = (ones (max_seq_len opt),
                                     ones2 (max_seq_len opt) (embed_dim opt)));
      [|exact Hrun|reflexivity].
    intros i s s' Hstep ->. cbv beta in Hstep.
    match type of Hstep with
    | bind ?c _ = _ => destruct c as [d|]; cbn [bind] in Hstep; [|discriminate]
    end.
    destruct (d <=? SRD opt); [now apply mark_local_kept in Hstep|now injection Hstep as <-].
  - destruct (get_asp_index text_ids aspect_indices) as [a|]; cbn [bind] in Hrun;
      [|discriminate].
    destruct (Qlt_bool a 0); [congruence|].
    eapply for_range_invariant
      with (P := fun arrs => arrs = (ones (max_seq_len opt),
                                     ones2 (max_seq_len opt) (embed_dim opt)));
      [|exact Hrun|reflexivity].
    intros i s s' Hstep ->. cbv beta in Hstep.
    destruct (_ && _); [now apply mark_local_kept in Hstep|now injection Hstep as <-].
Qed.

Lemma cdw_vec_shape (text_ids aspect_indices : list Z) (text_raw aspect : string)
      (m : list (list Q)) :
  get_cdw_vec tokenizer opt calculate_dep_dist text_ids aspect_indices text_raw aspect
  = Ok m ->
  shape (max_seq_len opt) (embed_dim opt) m.
Proof.
  unfold get_cdw_vec.
  destruct (index aspect_indices 1) as [tok|]; cbn [bind]; [|discriminate].
  destruct (argwhere_first text_ids tok) as [k|]; cbn [bind]; [|discriminate].
  destruct (flatnonzero_last text_ids) as [last|]; cbn [bind]; [|discriminate].
  destruct (PyStr.contains "lcfs" (model_name opt)).
  - intro Hrun. eapply for_range_invariant with (P := shape _ _); [|exact Hrun|].
    + intros i s s' Hstep Hs.
      cbv beta in Hstep.
      match type of Hstep with
      | bind ?c _ = _ => destruct c as [d|]; cbn [bind] in Hstep; [|discriminate]
      end.
      destruct (SRD opt <? d).
      * eapply shape_set_item; [exact Hs|apply scaled_ones_length|exact Hstep].
      * eapply shape_set_item; [exact Hs|apply ones_length|exact Hstep].
    + apply shape_repeat.
  - destruct (get_asp_index text_ids aspect_indices) as [a|]; cbn [bind]; [|discriminate].
    destruct (Qlt_bool a 0).
    + intros [= <-]. apply shape_repeat.
    + intro Hrun. eapply for_range_invariant with (P := shape _ _); [|exact Hrun|].
      * intros i s s' Hstep Hs. cbv beta in Hstep.
        destruct (cdw_weight _ _ _ i) as [w|].
        -- eapply shape_set_item; [exact Hs|apply scaled_ones_length|exact Hstep].
        -- now injection Hstep as <-.
      * apply shape_repeat.
Qed.

Lemma spc_mask_shape (text_ids : list Z) (m : list (list Q)) :
  build_spc_mask_vec opt text_ids = Ok m ->
  shape (max_seq_len opt) (embed_dim opt) m.
Proof.
  unfold build_spc_mask_vec. intro Hrun.
  eapply for_range_invariant with (P := shape _ _); [|exact Hrun|].
  - intros i s s' Hstep Hs. cbv beta in Hstep.
    destruct (index text_ids i) as [t|]; cbn [bind] in Hstep; [|discriminate].
    destruct (negb (t =? 0)).
    + eapply shape_set_item; [exact Hs|apply ones_length|exact Hstep].
    + now injection Hstep as <-.
  - apply shape_repeat.
Qed.

Lemma column_inv {A : Type} (col : string) (v : result A) (o : option A) :
  column opt col v = Ok o ->
  exists cols,
    dict_get input_colses (model_name opt) = Ok cols
    /\ populated o = mem col cols
    /\ forall a, o = Some a -> v = Ok a.
Proof.
  unfold column.
  destruct (dict_get input_colses (model_name opt)) as [cols|]; cbn [bind];
    [|discriminate].
  destruct (mem col cols) eqn:Hmem.
  - destruct v as [a|]; cbn [bind]; [|discriminate].
    intros [= <-]. exists cols. split; [reflexivity|]. split; [now rewrite Hmem|].
    intros a' Ha. congruence.
  - intros [= <-]. exists cols. split; [reflexivity|]. split; [now rewrite Hmem|].
    discriminate.
Qed.

Lemma input_colses_never_aspect (cols : list string) :
  dict_get input_colses (model_name opt) = Ok cols ->
  mem "aspect_bert_indices" cols = false.
Proof.
  unfold input_colses. simpl.
  repeat (destruct (String.eqb (model_name opt) _); [now intros [= <-]|]).
  discriminate.
Qed.

(** Which columns of a record hold a tensor is read off
    [input_colses[model_name]] alone; no model reads
    [aspect_bert_indices], which is always the placeholder; and a record
    has no side vector before the linkage.  The tensors have the
    configured shape: [lcf_vec] and [spc_mask_vec] are
    [(max_seq_len, embed_dim)], [lca_ids] is [max_seq_len] ones. *)
Theorem feature_columns (text : string) (p : Z) (d : Feature) :
  build_feature tokenizer opt calculate_dep_dist text p = Ok d ->
  exists cols,
    dict_get input_colses (model_name opt) = Ok cols
    /\ populated (lca_ids d) = mem "lca_ids" cols
    /\ populated (lcf_vec d) = mem "lcf_vec" cols
    /\ populated (spc_mask_vec d) = mem "spc_mask_vec" cols
    /\ populated (text_bert_indices d) = mem "text_bert_indices" cols
    /\ populated (text_raw_bert_indices d) = mem "text_raw_bert_indices" cols
    /\ aspect_bert_indices d = None
    /\ left_lcf_vec d = None /\ right_lcf_vec d = None
    /\ (forall m, lcf_vec d = Some m -> shape (max_seq_len opt) (embed_dim opt) m)
    /\ (forall m, spc_mask_vec d = Some m -> shape (max_seq_len opt) (embed_dim opt) m)
    /\ (forall l, lca_ids d = Some l -> l = repeat 1 (max_seq_len opt)).
Proof.
  unfold build_feature.
  destruct (PyStr.split "[ASP]" text) as [|text_left [|aspect [|text_right [|x l]]]];
    try discriminate.
  set (text_raw := (_ ++ " " ++ aspect ++ " " ++ _)%string).
  set (ids := text_to_sequence tokenizer ("[CLS] " ++ text_raw ++ " [SEP] " ++ aspect ++ " [SEP]")%string).
  set (raw_ids := text_to_sequence tokenizer ("[CLS] " ++ text_raw ++ " [SEP]")%string).
  set (asp_ids := text_to_sequence tokenizer ("[CLS] " ++ aspect ++ " [SEP]")%string).
  set (branch := if PyStr.contains "lca" (model_name opt) then _ else _).
  intro H.
  destruct branch as [[lca0 lcf0]|] eqn:Hbranch; cbn [bind] in H; [|discriminate].
  destruct (dict_get input_colses (model_name opt)) as [cols|] eqn:Hcols;
    cbn [bind] in H; [|discriminate].
  destruct (get_asp_index ids asp_ids) as [a|]; cbn [bind] in H; [|discriminate].
  destruct (column opt "lca_ids" _) as [c1|] eqn:E1; cbn [bind] in H; [|discriminate].
  destruct (column opt "lcf_vec" _) as [c2|] eqn:E2; cbn [bind] in H; [|discriminate].
  destruct (column opt "spc_mask_vec" _) as [c3|] eqn:E3; cbn [bind] in H; [|discriminate].
  destruct (column opt "text_bert_indices" _) as [c4|] eqn:E4; cbn [bind] in H;
    [|discriminate].
  destruct (column opt "aspect_bert_indices" _) as [c5|] eqn:E5; cbn [bind] in H;
    [|discriminate].
  destruct (column opt "text_raw_bert_indices" _) as [c6|] eqn:E6; cbn [bind] in H;
    [|discriminate].
  injection H as <-. cbn [lca_ids lcf_vec spc_mask_vec text_bert_indices
                          aspect_bert_indices text_raw_bert_indices
                          left_lcf_vec right_lcf_vec].
  apply column_inv in E1, E2, E3, E4, E5, E6.
  destruct E1 as (k1 & K1 & P1 & V1), E2 as (k2 & K2 & P2 & V2),
           E3 as (k3 & K3 & P3 & V3), E4 as (k4 & K4 & P4 & _),
           E5 as (k5 & K5 & P5 & _), E6 as (k6 & K6 & P6 & _).
  assert (k1 = cols) by congruence. assert (k2 = cols) by congruence.
  assert (k3 = cols) by congruence. assert (k4 = cols) by congruence.
  assert (k5 = cols) by congruence. assert (k6 = cols) by congruence. subst.
  exists cols. split; [reflexivity|].
  do 5 (split; [assumption|]).
  split.
  { rewrite (input_colses_never_aspect cols Hcols) in P5. now destruct c5. }
  split; [reflexivity|]. split; [reflexivity|].
  assert (Hvars : (forall m, lcf0 = Some m -> shape (max_seq_len opt) (embed_dim opt) m)
                  /\ (forall l, lca0 = Some l -> l = repeat 1 (max_seq_len opt))).
  { unfold branch in Hbranch.
    destruct (PyStr.contains "lca" (model_name opt)).
    - destruct (get_lca_ids_and_cdm_vec _ _ _ _ _ _ _) as [[l0 m0]|] eqn:Hget;
        cbn [bind] in Hbranch; [|discriminate].
      injection Hbranch as <- <-.
      apply lca_ids_and_cdm_vec_value in Hget. destruct Hget as [-> ->]. split.
      + intros m [= <-]. apply shape_repeat.
      + intros l' [= <-]. unfold long, ones. rewrite map_repeat. reflexivity.
    - destruct (PyStr.contains "lcf" (model_name opt)).
      + destruct (PyStr.contains "cdm" (lcf opt)).
        * destruct (get_lca_ids_and_cdm_vec _ _ _ _ _ _ _) as [[l0 m0]|] eqn:Hget;
            cbn [bind] in Hbranch; [|discriminate].
          injection Hbranch as <- <-.
          apply lca_ids_and_cdm_vec_value in Hget. destruct Hget as [-> ->]. split.
          -- intros m [= <-]. apply shape_repeat.
          -- discriminate.
        * destruct (PyStr.contains "cdw" (lcf opt)).
          -- destruct (get_cdw_vec _ _ _ _ _ _ _) as [m0|] eqn:Hget;
               cbn [bind] in Hbranch; [|discriminate].
             injection Hbranch as <- <-. split; [|discriminate].
             intros m [= <-]. now apply cdw_vec_shape in Hget.
          -- destruct (PyStr.contains "fusion" (lcf opt)); discriminate.
      + injection Hbranch as <- <-. split; discriminate. }
  destruct Hvars as [Hlcf Hlca].
  split; [|split].
  - intros m ->. specialize (V2 m eq_refl). destruct lcf0; [|discriminate].
    injection V2 as ->. now apply Hlcf.
  - intros m ->. specialize (V3 m eq_refl). now apply spc_mask_shape in V3.
  - intros l' ->. specialize (V1 l' eq_refl). destruct lca0; [|discriminate].
    injection V1 as ->. now apply Hlca.
Qed.

End Records.

Lemma feature_columns_witness :
  exists d,
    build_feature (Toy.tokenizer 16) (Toy.opt "slide_lcf_bert" "cdw" 3 16 2)
      Toy.calculate_dep_dist "The [ASP]battery[ASP] is good" (-999)
    = Ok d
    /\ populated (lcf_vec d) = true
    /\ populated (text_raw_bert_indices d) = false.
Proof.
  pose (r := build_feature (Toy.tokenizer 16) (Toy.opt "slide_lcf_bert" "cdw" 3 16 2)
               Toy.calculate_dep_dist "The [ASP]battery[ASP] is good" (-999)).
  assert (E : build_feature (Toy.tokenizer 16) (Toy.opt "slide_lcf_bert" "cdw" 3 16 2)
                Toy.calculate_dep_dist "The [ASP]battery[ASP] is good" (-999) = r)
    by reflexivity.
  vm_compute in r.
  match eval unfold r in r with
  | Ok ?d =>
      destruct (feature_columns _ _ _ _ _ d E)
        as (cols & Hcols & _ & Hlcf & _ & _ & Hraw & _);
      exists d; split; [exact E|];
      injection Hcols as <-;
      split; [exact Hlcf|exact Hraw]
  end.
Defined.

(* ===================================================================== *)
(** * The linkage of neighbouring records and the error policy *)
(* ===================================================================== *)

(** A loop whose steps always succeed and carry a property of the index
    and the state from one index to the next. *)
Lemma for_range_indexed {S : Type} (body : nat -> S -> result S)
      (P : nat -> S -> Prop) :
  forall count start s,
    P start s ->
    (forall i s, (start <= i < start + count)%nat -> P i s ->
                 exists s', body i s = Ok s' /\ P (Datatypes.S i) s') ->
    exists s', for_range body start count s = Ok s' /\ P (start + count)%nat s'.
Proof.
  induction count as [|n IH]; intros start s Hs Hstep; simpl.
  - exists s. now rewrite Nat.add_0_r.
  - destruct (Hstep start s ltac:(lia) Hs) as (s1 & -> & Hs1). simpl.
    destruct (IH (Datatypes.S start) s1 Hs1) as (s' & Hrun & Hs').
    + intros i s2 Hi. apply Hstep. lia.
    + exists s'. split; [exact Hrun|].
      now replace (start + Datatypes.S n)%nat with (Datatypes.S start + n)%nat by lia.
Qed.

Lemma same_base_refl (d : Feature) : same_base d d.
Proof. unfold same_base. tauto. Qed.

Lemma same_base_trans (a b c : Feature) : same_base a b -> same_base b c -> same_base a c.
Proof. unfold same_base. intuition congruence. Qed.

Lemma same_base_copy (direct : side) (target source : Feature) :
  same_base target (copy_side_aspect direct target source).
Proof. destruct direct; unfold same_base; simpl; tauto. Qed.

Section Linkage.

Variable tokenizer : Tokenizer.
Variable opt : Opt.
Variable calculate_dep_dist : string -> string -> list string * list Z.
Variable is_similar : option (list Z) -> option (list Z) -> bool.

(** The records [s] are those of [orig] up to their side vectors; the
    first [nl] records have a left vector and the first [nr] a right
    one. *)
Let linked (orig : list Feature) (nl nr : nat) (s : list Feature) : Prop :=
  List.length s = List.length orig
  /\ (forall i d, nth_error orig i = Some d ->
                  exists d', nth_error s i = Some d' /\ same_base d d')
  /\ (forall i d', nth_error s i = Some d' ->
                   ((i < nl)%nat -> left_lcf_vec d' <> None)
                   /\ ((i < nr)%nat -> right_lcf_vec d' <> None)).

Lemma update_record_linked (orig s : list Feature) (direct : side) (i j nl nr : nat) :
  linked orig nl nr s ->
  (i < List.length s)%nat -> (j < List.length s)%nat ->
  i = match direct with left_side => nl | right_side => nr end ->
  exists s',
    update_record s direct i j = Ok s'
    /\ linked orig (match direct with left_side => S nl | right_side => nl end)
                   (match direct with left_side => nr | right_side => S nr end) s'.
Proof.
  intros (Hlen & Hbase & Hsides) Hi Hj Hwhich.
  destruct (index_ok s i Hi) as [target Ht]. destruct (index_ok s j Hj) as [source Hs].
  unfold update_record. rewrite Ht, Hs. cbn [bind].
  pose proof (set_item_ok s i (copy_side_aspect direct target source) Hi) as Hset.
  rewrite Hset. eexists. split; [reflexivity|].
  unfold index in Ht. destruct (nth_error s i) as [t'|] eqn:Hnth; [|discriminate].
  injection Ht as ->.
  split; [rewrite (set_item_length _ _ _ _ Hset); exact Hlen|]. split.
  - intros k d Hk. destruct (Hbase k d Hk) as (d' & Hd' & Hsame).
    destruct (Nat.eq_dec k i) as [->|Hne].
    + rewrite (set_item_same _ _ _ _ Hset). eexists. split; [reflexivity|].
      assert (d' = target) by congruence. subst d'.
      eapply same_base_trans; [exact Hsame|apply same_base_copy].
    + rewrite (set_item_other _ _ _ _ _ Hset Hne). eauto.
  - intros k d' Hk. destruct (Nat.eq_dec k i) as [->|Hne].
    + rewrite (set_item_same _ _ _ _ Hset) in Hk. injection Hk as <-.
      destruct (Hsides i target Hnth) as [Hl Hr].
      destruct direct; simpl; split; intro Hlt; try discriminate.
      * apply Hr. exact Hlt.
      * apply Hl. exact Hlt.
    + rewrite (set_item_other _ _ _ _ _ Hset Hne) in Hk.
      destruct (Hsides k d' Hk) as [Hl Hr].
      destruct direct; split; intro Hlt; try (apply Hl; lia); try (apply Hr; lia).
Qed.

Lemma link_neighbours_linked (all_data : list Feature) :
  exists linked_data,
    link_neighbours opt is_similar all_data = Ok linked_data
    /\ if PyStr.contains "slide" (model_name opt)
       then linked all_data (List.length all_data) (List.length all_data) linked_data
       else linked_data = all_data.
Proof.
  assert (Hself : linked all_data 0 0 all_data).
  { split; [reflexivity|]. split.
    - intros i d Hi. exists d. split; [exact Hi|apply same_base_refl].
    - intros i d' _. split; intro; lia. }
  unfold link_neighbours.
  destruct all_data as [|first rest] eqn:Hall.
  { exists []. split; [reflexivity|]. now destruct (PyStr.contains _ _). }
  rewrite <- Hall in *.
  assert (Hpos : (1 <= List.length all_data)%nat) by (subst; simpl; lia).
  clear Hall first rest.
  destruct (PyStr.contains "slide" (model_name opt)) eqn:Hslide.
  2:{ exists all_data. split; reflexivity. }
  destruct (update_record_linked all_data all_data left_side 0 0 0 0 Hself)
    as (s0 & -> & H1); [lia|lia|reflexivity|]. cbn [bind].
  pose proof H1 as (Hlen0 & _ & _).
  destruct (for_range_indexed
              (fun idx all_data0 =>
                 prev <- index all_data0 (idx - 1) ;;
                 cur <- index all_data0 idx ;;
                 if is_similar (text_bert_indices prev) (text_bert_indices cur)
                 then all_data1 <- update_record all_data0 right_side (idx - 1) idx ;;
                      update_record all_data1 left_side idx (idx - 1)
                 else all_data1 <- update_record all_data0 right_side (idx - 1) (idx - 1) ;;
                      update_record all_data1 left_side idx idx)
              (fun idx s => linked all_data idx (idx - 1) s)
              (List.length s0 - 1) 1 s0 H1)
    as (s1 & Hrun & Hs1).
  { intros idx s Hidx Hs. pose proof Hs as (Hlen & _ & _). rewrite Hlen0 in Hidx.
    destruct (index_ok s (idx - 1)) as [prev ->]; [lia|].
    destruct (index_ok s idx) as [cur ->]; [lia|]. cbn [bind].
    assert (Hpair : forall j j',
               (j < List.length s)%nat -> (j' < List.length s)%nat ->
               exists s',
                 (all_data1 <- update_record s right_side (idx - 1) j ;;
                  update_record all_data1 left_side idx j') = Ok s'
                 /\ linked all_data (S idx) (S idx - 1) s').
    { intros j j' Hj Hj'.
      destruct (update_record_linked all_data s right_side (idx - 1) j idx (idx - 1) Hs)
        as (sa & -> & Ha); [lia|lia|reflexivity|]. cbn [bind].
      pose proof Ha as (Hlena & _ & _).
      destruct (update_record_linked all_data sa left_side idx j' idx (S (idx - 1)) Ha)
        as (sb & -> & Hb); [lia|lia|reflexivity|].
      exists sb. split; [reflexivity|].
      now replace (S idx - 1)%nat with (S (idx - 1)) by lia. }
    destruct (is_similar _ _); apply Hpair; lia. }
  rewrite Hrun. cbn [bind].
  replace (1 + (List.length s0 - 1))%nat with (List.length all_data) in Hs1 by lia.
  pose proof Hs1 as (Hlen1 & _ & _).
  destruct (update_record_linked all_data s1 right_side (List.length s1 - 1)
              (List.length s1 - 1) (List.length all_data) (List.length all_data - 1) Hs1)
    as (s2 & -> & Hs2); [lia|lia|lia|].
  exists s2. split; [reflexivity|].
  now replace (List.length all_data) with (S (List.length all_data - 1)) at 2 by lia.
Qed.

(** What the rest of [process_data] needs of the linkage: it returns, and
    keeps the number of records and every column but the side vectors. *)
Lemma link_neighbours_keeps (all_data : list Feature) :
  exists linked_data,
    link_neighbours opt is_similar all_data = Ok linked_data
    /\ List.length linked_data = List.length all_data
    /\ (forall i d, nth_error all_data i = Some d ->
                    exists d', nth_error linked_data i = Some d' /\ same_base d d').
Proof.
  destruct (link_neighbours_linked all_data) as (linked_data & Hrun & H).
  exists linked_data. split; [exact Hrun|].
  destruct (PyStr.contains "slide" (model_name opt)).
  - destruct H as (Hlen & Hbase & _). split; assumption.
  - subst linked_data. split; [reflexivity|].
    intros i d Hi. exists d. split; [exact Hi|apply same_base_refl].
Qed.

(** [copy_side_aspect] is modelled from the spec.  The linkage never
    raises; it keeps the number of records and every column but the side
    vectors; for a [slide] model every record ends with a left and a right
    vector, and for another model the records are returned as they are. *)
Theorem link_neighbours_total (all_data : list Feature) :
  exists linked_data,
    link_neighbours opt is_similar all_data = Ok linked_data
    /\ List.length linked_data = List.length all_data
    /\ (forall i d, nth_error all_data i = Some d ->
                    exists d', nth_error linked_data i = Some d' /\ same_base d d')
    /\ (PyStr.contains "slide" (model_name opt) = true ->
        forall d', In d' linked_data ->
                   left_lcf_vec d' <> None /\ right_lcf_vec d' <> None)
    /\ (PyStr.contains "slide" (model_name opt) = false -> linked_data = all_data).
Proof.
  destruct (link_neighbours_linked all_data) as (linked_data & Hrun & H).
  destruct (link_neighbours_keeps all_data) as (linked' & Hrun' & Hlen & Hbase).
  assert (linked' = linked_data) by congruence. subst linked'.
  exists linked_data. split; [exact Hrun|]. split; [exact Hlen|]. split; [exact Hbase|].
  destruct (PyStr.contains "slide" (model_name opt)).
  - split; [|discriminate]. intros _ d' Hin.
    destruct H as (_ & _ & Hsides).
    apply In_nth_error in Hin. destruct Hin as [k Hk].
    assert (Hlt : (k < List.length linked_data)%nat) by (apply nth_error_Some; congruence).
    destruct (Hsides k d' Hk) as [Hl Hr]. split; [apply Hl|apply Hr]; lia.
  - split; [discriminate|]. intros _. exact H.
Qed.

Lemma process_samples_spec (ignore_error : bool) (samples : list string) :
  forall all_data out,
    match process_samples tokenizer opt calculate_dep_dist ignore_error samples all_data out
    with
    | (_, Ok all_data') =>
        exists new,
          all_data' = all_data ++ new
          /\ (List.length new <= List.length samples)%nat
          /\ (ignore_error = false ->
              Forall2 (fun text d =>
                         snd (process_sample tokenizer opt calculate_dep_dist text) = Ok d)
                      samples new)
    | (out', Raise e) =>
        ignore_error = false
        /\ exists before text rest new text' cause,
             samples = before ++ text :: rest
             /\ Forall2 (fun text d =>
                           snd (process_sample tokenizer opt calculate_dep_dist text) = Ok d)
                        before new
             /\ process_sample tokenizer opt calculate_dep_dist text = (text', Raise cause)
             /\ out' = out ++ [PrintExn cause]
             /\ e = RuntimeError ["Error while processing:"; text']
    end.
Proof.
  induction samples as [|text rest IH]; intros all_data out; simpl.
  - exists []. rewrite app_nil_r. repeat split; auto.
  - destruct (process_sample tokenizer opt calculate_dep_dist text) as [text' [d|cause]]
      eqn:Hsample.
    + specialize (IH (all_data ++ [d]) out).
      destruct (process_samples _ _ _ ignore_error rest (all_data ++ [d]) out)
        as [out' [all_data'|e]].
      * destruct IH as (new & -> & Hlen & Hall).
        exists (d :: new). split; [now rewrite <- app_assoc|]. split; [simpl; lia|].
        intro Hstrict. constructor; [now rewrite Hsample|now apply Hall].
      * destruct IH as (Hstrict & before & t & rest' & new & t' & cause & -> & Hall & Ht & -> & ->).
        split; [exact Hstrict|].
        exists (text :: before), t, rest', (d :: new), t', cause.
        split; [reflexivity|]. split; [constructor; [now rewrite Hsample|exact Hall]|].
        split; [exact Ht|]. split; reflexivity.
    + destruct ignore_error.
      * specialize (IH all_data
                       ((out ++ [PrintExn cause])
                        ++ [Print ["Ignore error while processing:"; text']])).
        destruct (process_samples _ _ _ true rest all_data _) as [out' [all_data'|e]].
        -- destruct IH as (new & -> & Hlen & _).
           exists new. split; [reflexivity|]. split; [lia|]. discriminate.
        -- destruct IH as [Hstrict _]. discriminate.
      * split; [reflexivity|].
        exists [], text, rest, [], text', cause.
        split; [reflexivity|]. split; [constructor|]. split; [exact Hsample|].
        split; reflexivity.
Qed.

(** With [ignore_error] set, [process_data] never raises: the samples that
    raise are skipped, so there is at most one record per sample. *)
Theorem process_data_ignoring_errors (samples : list string) :
  exists out all_data,
    process_data tokenizer opt calculate_dep_dist is_similar samples true
    = (out, Ok all_data)
    /\ (List.length all_data <= List.length samples)%nat.
Proof.
  unfold process_data.
  pose proof (process_samples_spec true samples [] []) as H.
  destruct (process_samples tokenizer opt calculate_dep_dist true samples [] [])
    as [out [built|e]].
  - destruct H as (new & -> & Hlen & _). cbn [bind app].
    destruct (link_neighbours_keeps new) as (linked_data & -> & Hlen' & _).
    exists out, linked_data. split; [reflexivity|]. rewrite Hlen'. exact Hlen.
  - destruct H as [H _]. discriminate.
Qed.

(** Without [ignore_error], [process_data] either builds one record per
    sample, in order and printing nothing, or ends at the first sample that
    raises: it prints the exception and raises [RuntimeError] with the
    value of [text] at that moment; the records built before are lost. *)
Theorem process_data_strict (samples : list string) :
  match process_data tokenizer opt calculate_dep_dist is_similar samples false with
  | (out, Ok all_data) =>
      out = []
      /\ Forall2 (fun text d =>
                    exists built,
                      snd (process_sample tokenizer opt calculate_dep_dist text) = Ok built
                      /\ same_base built d)
                 samples all_data
  | (out, Raise e) =>
      exists before text rest text' cause,
        samples = before ++ text :: rest
        /\ Forall (fun text =>
                     exists d, snd (process_sample tokenizer opt calculate_dep_dist text)
                               = Ok d) before
        /\ process_sample tokenizer opt calculate_dep_dist text = (text', Raise cause)
        /\ out = [PrintExn cause]
        /\ e = RuntimeError ["Error while processing:"; text']
  end.
Proof.
  unfold process_data.
  assert (Hout : forall all_data out,
             fst (process_samples tokenizer opt calculate_dep_dist false samples all_data out)
             = out
             \/ exists r, snd (process_samples tokenizer opt calculate_dep_dist false
                                 samples all_data out) = Raise r).
  { induction samples as [|text rest IH]; intros all_data out; simpl; [now left|].
    destruct (process_sample tokenizer opt calculate_dep_dist text) as [text' [d|cause]].
    - apply IH.
    - right. eexists. reflexivity. }
  specialize (Hout [] []).
  pose proof (process_samples_spec false samples [] []) as H.
  destruct (process_samples tokenizer opt calculate_dep_dist false samples [] [])
    as [out [built|e]].
  - destruct H as (new & -> & Hlen & Hall). specialize (Hall eq_refl). cbn [bind app].
    destruct (link_neighbours_keeps new) as (linked_data & -> & Hlen' & Hbase).
    split.
    { destruct Hout as [Hout|[r Hr]]; [exact Hout|discriminate]. }
    clear Hout Hlen. revert linked_data Hlen' Hbase.
    induction Hall as [|text d samples' new' Hd Hrest IH]; intros linked_data Hlen' Hbase.
    + destruct linked_data; [constructor|discriminate].
    + destruct linked_data as [|d' linked_data]; [discriminate|].
      constructor.
      * exists d. split; [exact Hd|].
        destruct (Hbase 0%nat d eq_refl) as (d0 & [= <-] & Hsame). exact Hsame.
      * apply IH; [simpl in Hlen'; lia|].
        intros i x Hi. exact (Hbase (S i) x Hi).
  - destruct H as (_ & before & text & rest & new & text' & cause & -> & Hall & Ht & -> & ->).
    cbn [bind]. exists before, text, rest, text', cause.
    split; [reflexivity|]. split.
    + clear Hout Ht. induction Hall; constructor; eauto.
    + split; [exact Ht|]. split; reflexivity.
Qed.

End Linkage.

Lemma link_neighbours_total_witness :
  exists linked_data,
    link_neighbours (Toy.opt "slide_lcf_bert" "cdw" 3 16 1) Toy.is_similar
      [mkFeature "the battery life" "battery" (5 # 2) None None None None None None
                 2 None None;
       mkFeature "the screen" "screen" (5 # 2) None None None None None None
                 (-999) None None]
    = Ok linked_data
    /\ List.length linked_data = 2%nat.
Proof.
  destruct (link_neighbours_total (Toy.opt "slide_lcf_bert" "cdw" 3 16 1) Toy.is_similar
              [mkFeature "the battery life" "battery" (5 # 2) None None None None None None
                         2 None None;
               mkFeature "the screen" "screen" (5 # 2) None None None None None None
                         (-999) None None])
    as (linked_data & Hrun & Hlen & _).
  exists linked_data. split; [exact Hrun|exact Hlen].
Defined.

(* ===================================================================== *)
(** * More on the training loop *)
(* ===================================================================== *)

Section Training.

Variable opt : Opt.
Variable randperm : nat -> list nat.
Variable rmtree_fails : save_dir -> bool.
Variable evaluate : nat -> Z -> Q * Q.

(** The state after [n] more batches that did not evaluate. *)
Let stepped (st : TrainState) (n : nat) : TrainState :=
  mkTrainState (global_step st + Z.of_nat n) (max_fold_acc st) (max_fold_f1 st)
    (save_path st) (sum_acc st) (sum_f1 st) (metrics_of_this_checkpoint st)
    (max_apc_test_acc st) (max_apc_test_f1 st) (fs st) (trace st).

Lemma stepped_stepped (st : TrainState) (n m : nat) :
  stepped (stepped st n) m = stepped st (n + m).
Proof.
  unfold stepped. simpl. f_equal. lia.
Qed.

Lemma stepped_zero (st : TrainState) : stepped st 0 = st.
Proof. unfold stepped. destruct st. simpl. f_equal. lia. Qed.

(** With a test file, a [log_step] other than 0 and [evaluate_begin] not
    below [num_epoch], no epoch of a fold reaches [evaluate_begin]: the fold
    evaluates nothing and only counts its batches; it saves nothing, removes
    nothing and does not raise, whatever [log_step] divides. *)
Theorem train_fold_before_evaluate_begin (f batches : nat) (st0 : TrainState) :
  dataset_file_has_test opt = true ->
  log_step opt <> 0 ->
  Z.of_nat (num_epoch opt) <= evaluate_begin opt ->
  exists st,
    train_fold opt rmtree_fails evaluate f batches st0 = Ok st
    /\ global_step st = Z.of_nat (num_epoch opt * batches)
    /\ save_path st = None
    /\ max_fold_acc st = 0%Q /\ max_fold_f1 st = 0%Q
    /\ trace st = trace st0 /\ fs st = fs st0
    /\ sum_acc st = sum_acc st0 /\ sum_f1 st = sum_f1 st0.
Proof.
  intros Htest Hlog Hbegin.
  assert (Hstep : forall epoch st,
             (epoch < num_epoch opt)%nat ->
             train_step opt rmtree_fails evaluate f epoch st = Ok (stepped st 1)).
  { intros epoch st Hepoch. unfold train_step. rewrite Htest.
    rewrite (proj2 (Z.eqb_neq _ _) Hlog).
    rewrite (proj2 (Z.leb_gt (evaluate_begin opt) (Z.of_nat epoch))) by lia.
    now destruct (_ =? 0). }
  assert (Hinner : forall epoch st,
             (epoch < num_epoch opt)%nat ->
             for_range (fun _ st => train_step opt rmtree_fails evaluate f epoch st)
                       0 batches st = Ok (stepped st batches)).
  { intros epoch st Hepoch.
    destruct (for_range_indexed
                (fun _ st => train_step opt rmtree_fails evaluate f epoch st)
                (fun i s => s = stepped st i) batches 0 st) as (s & -> & ->).
    - symmetry. apply stepped_zero.
    - intros i s _ ->. exists (stepped st (S i)). split; [|reflexivity].
      rewrite Hstep by exact Hepoch. rewrite stepped_stepped.
      now replace (i + 1)%nat with (S i) by lia.
    - reflexivity. }
  unfold train_fold.
  destruct (for_range_indexed
              (fun epoch st =>
                 for_range (fun _ st => train_step opt rmtree_fails evaluate f epoch st)
                           0 batches st)
              (fun i s => s = stepped (start_fold st0) (i * batches))
              (num_epoch opt) 0 (start_fold st0)) as (s & -> & ->).
  - symmetry. apply stepped_zero.
  - intros i s Hi ->. eexists. split; [apply Hinner; lia|].
    rewrite stepped_stepped. now replace (i * batches + batches)%nat with (S i * batches)%nat by lia.
  - eexists. split; [reflexivity|]. simpl. repeat split.
Qed.

(** With a test file and [log_step = 0] the first batch of a fold raises
    [ZeroDivisionError]. *)
Theorem train_fold_zero_log_step (f batches : nat) (st0 : TrainState) :
  dataset_file_has_test opt = true ->
  log_step opt = 0 ->
  (0 < num_epoch opt)%nat -> (0 < batches)%nat ->
  train_fold opt rmtree_fails evaluate f batches st0 = Raise ZeroDivisionError.
Proof.
  intros Htest Hlog Hepochs Hbatches. unfold train_fold.
  destruct (num_epoch opt) as [|n]; [lia|]. destruct batches as [|b]; [lia|].
  simpl. unfold train_step at 1. rewrite Htest, Hlog. reflexivity.
Qed.

(** Without cross-validation and without a test set there is no pair of
    loaders: no batch is trained on and nothing is evaluated; the model is
    saved once under the name without accuracy when a root directory is
    configured, and the sums of accuracy and F1 returned are 0. *)
Theorem train_without_test_set {A : Type} (disk : FileSystem)
        (train_set : list A) (test_set : option (list A)) :
  cross_validate_fold opt < 1 ->
  truthy test_set = false ->
  exists st,
    _train_and_evaluate opt randperm rmtree_fails evaluate ([], []) disk train_set test_set
    = Ok (ReturnModel
            (if String.eqb (model_path_to_save opt) "" then None
             else Some (FinalModel (model_path_to_save opt) (model_name opt) (lcf opt)))
            0 0, st, [])
    /\ global_step st = 0
    /\ trace st
       = (if String.eqb (model_path_to_save opt) "" then []
          else [OpSaveModel (FinalModel (model_path_to_save opt) (model_name opt)
                                        (lcf opt))]).
Proof.
  intros Hcv Htest. unfold _train_and_evaluate, prepare_dataloader.
  apply Z.ltb_lt in Hcv. rewrite Hcv, Htest. cbn [bind app combine run_folds].
  cbn [save_path initial_state].
  destruct (String.eqb (model_path_to_save opt) ""); cbn [negb];
    eexists; (split; [reflexivity|]); split; reflexivity.
Qed.

Lemma prepare_dataloader_cross_validation {A : Type} (train_set : list A)
      (test_set : option (list A)) :
  2 <= cross_validate_fold opt ->
  exists train test trains tests,
    prepare_dataloader opt randperm ([], []) train_set test_set
    = Ok (train :: trains, test :: tests).
Proof.
  intro Hcv.
  set (n := Z.to_nat (cross_validate_fold opt)).
  assert (Hn : (2 <= n)%nat) by (unfold n; lia).
  unfold prepare_dataloader.
  assert (Hcv' : (cross_validate_fold opt <? 1) = false) by (apply Z.ltb_ge; lia).
  rewrite Hcv'.
  assert (Hsum : exists sum_dataset,
             (if truthy test_set
              then match test_set with
                   | Some test_set => ConcatDataset [train_set; test_set]
                   | None => Ok train_set
                   end
              else Ok train_set) = Ok sum_dataset).
  { destruct test_set as [[|x t]|]; simpl; eauto. }
  destruct Hsum as [sum_dataset ->]. cbn [bind]. fold n.
  set (total := List.length sum_dataset).
  set (lengths := repeat (total / n)%nat (n - 1)
                  ++ [(total - total / n * (n - 1))%nat]).
  assert (Hlengths : list_sum lengths = total) by (apply fold_lengths_sum; lia).
  unfold random_split. fold total. rewrite Hlengths, Nat.eqb_refl. cbn [bind].
  set (folds := chunks lengths (Subset sum_dataset (randperm total))).
  assert (Hcount : List.length folds = n).
  { unfold folds. rewrite chunks_count. unfold lengths.
    rewrite length_app, repeat_length. simpl. lia. }
  rewrite fold_loop by lia. cbn [fst snd app].
  destruct n as [|k]; [lia|]. cbn [seq map]. eauto.
Qed.

(** Cross-validation without a test file: the folds are built, and the
    first one raises [TypeError] on [len(self.test_set)] before any batch. *)
Theorem cross_validation_needs_test_set {A : Type} (disk : FileSystem)
        (train_set : list A) :
  2 <= cross_validate_fold opt ->
  _train_and_evaluate opt randperm rmtree_fails evaluate ([], []) disk train_set None
  = Raise TypeError.
Proof.
  intro Hcv.
  destruct (prepare_dataloader_cross_validation train_set None Hcv)
    as (train & test & trains & tests & Hrun).
  unfold _train_and_evaluate. rewrite Hrun. reflexivity.
Qed.

End Training.

Lemma train_fold_before_evaluate_begin_witness :
  exists st,
    train_fold (mkOpt "lcf_bert" "cdw" 3 80 768 0 16 2 1 2 "checkpoints" true [])
      (fun _ => false) (fun _ _ => (1, 1)%Q) 0 3 (initial_state (mkFS false []))
    = Ok st
    /\ global_step st = 6
    /\ save_path st = None.
Proof.
  destruct (train_fold_before_evaluate_begin
              (mkOpt "lcf_bert" "cdw" 3 80 768 0 16 2 1 2 "checkpoints" true [])
              (fun _ => false) (fun _ _ => (1, 1)%Q) 0 3 (initial_state (mkFS false [])))
    as (st & Hrun & Hsteps & Hpath & _).
  - reflexivity.
  - simpl. lia.
  - simpl. lia.
  - exists st. split; [exact Hrun|]. split; [exact Hsteps|exact Hpath].
Defined.

Lemma train_fold_zero_log_step_witness :
  train_fold (mkOpt "lcf_bert" "cdw" 3 80 768 0 16 2 0 0 "checkpoints" true [])
    (fun _ => false) (fun _ _ => (1, 1)%Q) 0 3 (initial_state (mkFS false []))
  = Raise ZeroDivisionError.
Proof.
  apply train_fold_zero_log_step; [reflexivity|reflexivity|simpl; lia|lia].
Defined.

Lemma train_without_test_set_witness :
  exists st,
    _train_and_evaluate (mkOpt "lcf_bert" "cdw" 3 80 768 0 16 2 1 0 "checkpoints" true [])
      (fun n => seq 0 n) (fun _ => false) (fun _ _ => (1, 1)%Q) ([], [])
      (mkFS false []) [1; 2; 3]%nat None
    = Ok (ReturnModel (Some (FinalModel "checkpoints" "lcf_bert" "cdw")) 0 0, st, []).
Proof.
  destruct (train_without_test_set
              (mkOpt "lcf_bert" "cdw" 3 80 768 0 16 2 1 0 "checkpoints" true [])
              (fun n => seq 0 n) (fun _ => false) (fun _ _ => (1, 1)%Q)
              (mkFS false []) [1; 2; 3]%nat None)
    as (st & Hrun & _).
  - reflexivity.
  - reflexivity.
  - exists st. exact Hrun.
Defined.

Lemma cross_validation_needs_test_set_witness :
  _train_and_evaluate (mkOpt "lcf_bert" "cdw" 3 80 768 3 16 2 1 0 "checkpoints" false [])
    (fun n => seq 0 n) (fun _ => false) (fun _ _ => (1, 1)%Q) ([], [])
    (mkFS false []) (seq 0 30) None
  = Raise TypeError.
Proof.
  apply cross_validation_needs_test_set. simpl. lia.
Defined.

(* ===================================================================== *)
(** * More on inference and evaluation *)
(* ===================================================================== *)

Section MoreInference.

Variable predict : Feature -> Z.

Lemma infer_sample_step (save_result print_result : bool) (sample : Feature)
      (st : InferState) :
  known (polarity sample) -> known (predict sample) ->
  exists st',
    infer_sample predict save_result print_result sample st = Ok st'
    /\ n_total st' = n_total st + 1
    /\ n_labeled st' = n_labeled st + Z.of_nat (List.length (labeled [sample]))
    /\ n_correct st' = n_correct st + Z.of_nat (List.length (correct predict [sample]))
    /\ (save_result = false -> fout st' = fout st)
    /\ List.length (results st') = S (List.length (results st)).
Proof.
  intros Hreal Hsent.
  destruct (sentiments_keys _ Hreal) as (label & Hlabel & _).
  destruct (sentiments_keys _ Hsent) as (name & Hname & _).
  unfold infer_sample. rewrite Hlabel, Hname. cbn [bind].
  unfold correct, labeled. simpl filter.
  destruct (polarity sample =? -999) eqn:E; cbn [bind negb].
  - eexists. split; [reflexivity|]. cbn [n_total n_labeled n_correct fout results].
    split; [reflexivity|]. split; [simpl; lia|]. split; [simpl; lia|].
    split; [now intros ->|]. rewrite length_app. simpl. lia.
  - eexists. split; [reflexivity|]. cbn [n_total n_labeled n_correct fout results].
    split; [reflexivity|]. split; [simpl; lia|]. split.
    + simpl filter. destruct (predict sample =? polarity sample); simpl; lia.
    + split; [now intros ->|]. rewrite length_app. simpl. lia.
Qed.

Lemma filter_cons_length {A : Type} (p : A -> bool) (x : A) (l : list A) :
  List.length (filter p (x :: l)) = (List.length (filter p [x]) + List.length (filter p l))%nat.
Proof. simpl. destruct (p x); simpl; lia. Qed.

Lemma infer_loop_counts (save_result print_result : bool) (samples : list Feature) :
  Forall (fun sample => known (polarity sample) /\ known (predict sample)) samples ->
  forall st,
  exists st',
    infer_loop predict save_result print_result samples st = Ok st'
    /\ n_total st' = n_total st + Z.of_nat (List.length samples)
    /\ n_labeled st' = n_labeled st + Z.of_nat (List.length (labeled samples))
    /\ n_correct st' = n_correct st + Z.of_nat (List.length (correct predict samples))
    /\ (save_result = false -> fout st' = fout st)
    /\ List.length (results st') = (List.length (results st) + List.length samples)%nat.
Proof.
  induction 1 as [|sample rest [Hreal Hsent] Hrest IH]; intro st.
  - exists st. unfold correct, labeled. simpl. repeat split; auto; lia.
  - destruct (infer_sample_step save_result print_result sample st Hreal Hsent)
      as (st1 & E1 & Htot1 & Hlab1 & Hcor1 & Hfout1 & Hres1).
    destruct (IH st1) as (st' & E' & Htot & Hlab & Hcor & Hfout & Hres).
    exists st'. split; [simpl; rewrite E1; exact E'|].
    split; [simpl List.length; lia|].
    split.
    { unfold labeled in *. rewrite filter_cons_length. lia. }
    split.
    { unfold correct, labeled in *.
      rewrite Hcor, Hcor1. simpl filter.
      destruct (negb (polarity sample =? -999)); simpl filter;
        [destruct (predict sample =? polarity sample)|]; simpl List.length; lia. }
    split; [intro Hs; rewrite (Hfout Hs); now apply Hfout1|].
    simpl List.length. lia.
Qed.

(** When the stored polarity and the predicted class of every sample are
    keys of [sentiments], [_infer] counts every sample, the labeled ones
    and the labeled ones classified as their label says; it prints the
    three counts last, the accuracy being ['N.A.'] without a labeled
    sample; the file gets the lines only with [save_result], and no
    accuracy line without a labeled sample. *)
Theorem infer_summary (all_data : list Feature) (save_result print_result : bool) :
  Forall (fun sample => known (polarity sample) /\ known (predict sample)) all_data ->
  let total := Z.of_nat (List.length all_data) in
  let with_label := Z.of_nat (List.length (labeled all_data)) in
  let right := Z.of_nat (List.length (correct predict all_data)) in
  let accuracy :=
    if with_label =? 0 then None
    else Some (inject_Z (100 * right) / inject_Z with_label)%Q in
  exists st lines flines,
    _infer predict all_data save_result print_result = Ok st
    /\ List.length (results st) = List.length all_data
    /\ n_total st = total /\ n_labeled st = with_label /\ n_correct st = right
    /\ 0 <= right <= with_label /\ with_label <= total
    /\ stdout st
       = lines ++ [TotalSamples total; LabeledSamples with_label;
                   PredictionAccuracy accuracy]
    /\ fout st
       = (if save_result
          then flines ++ [TotalSamples total; LabeledSamples with_label]
               ++ (if with_label =? 0 then [] else [PredictionAccuracy accuracy])
          else []).
Proof.
  intros Hall total with_label right accuracy.
  destruct (infer_loop_counts save_result print_result all_data Hall
              (mkInferState [] 0 0 0 [] []))
    as (st' & E & Htot & Hlab & Hcor & Hfout & Hres).
  simpl in Htot, Hlab, Hcor, Hfout, Hres.
  unfold _infer. rewrite E. cbn [bind].
  eexists. exists (stdout st'), (fout st'). split; [reflexivity|].
  cbn [results n_total n_labeled n_correct stdout fout].
  rewrite Htot, Hlab, Hcor. fold total with_label right. fold accuracy.
  split; [exact Hres|]. split; [reflexivity|]. split; [reflexivity|].
  split; [reflexivity|].
  assert (Hle1 : (List.length (correct predict all_data)
                  <= List.length (labeled all_data))%nat)
    by apply filter_length_le.
  assert (Hle2 : (List.length (labeled all_data) <= List.length all_data)%nat)
    by apply filter_length_le.
  split; [unfold right, with_label; lia|]. split; [unfold with_label, total; lia|].
  split; [reflexivity|].
  destruct save_result; [reflexivity|]. now apply Hfout.
Qed.

(** [_infer] stops at the first sample whose stored polarity, or else whose
    predicted class, is not a key of [sentiments], with [KeyError] on that
    integer: the stored polarity is looked up first.  The records of the
    samples before it are lost with the exception. *)
Theorem infer_unknown_label (before rest : list Feature) (bad : Feature)
        (save_result print_result : bool) :
  Forall (fun sample => known (polarity sample) /\ known (predict sample)) before ->
  ~ (known (polarity bad) /\ known (predict bad)) ->
  exists k,
    _infer predict (before ++ bad :: rest) save_result print_result
    = Raise (KeyError (KInt k))
    /\ ~ known k
    /\ (k = polarity bad \/ (known (polarity bad) /\ k = predict bad)).
Proof.
  intros Hbefore Hbad.
  assert (Hk : exists k, ~ known k
                 /\ (k = polarity bad \/ (known (polarity bad) /\ k = predict bad))
                 /\ forall st, infer_sample predict save_result print_result bad st
                               = Raise (KeyError (KInt k))).
  { unfold known in *.
    destruct (in_dec Z.eq_dec (polarity bad) [0; 1; 2; -999]) as [Hreal|Hreal].
    - destruct (in_dec Z.eq_dec (predict bad) [0; 1; 2; -999]) as [Hsent|Hsent];
        [exfalso; apply Hbad; split; assumption|].
      exists (predict bad). split; [exact Hsent|]. split; [right; split; auto|].
      intro st. unfold infer_sample.
      destruct (sentiments_keys _ Hreal) as (label & Hlabel & _).
      rewrite Hlabel, (sentiments_missing _ Hsent). cbn [bind].
      now destruct (polarity bad =? -999).
    - exists (polarity bad). split; [exact Hreal|]. split; [now left|].
      intro st. unfold infer_sample. now rewrite (sentiments_missing _ Hreal). }
  destruct Hk as (k & Hk & Hwhich & Hstep).
  exists k. split; [|split; assumption].
  unfold _infer.
  assert (Hloop : forall st,
             infer_loop predict save_result print_result (before ++ bad :: rest) st
             = Raise (KeyError (KInt k))).
  { induction Hbefore as [|sample before' [Hreal Hsent] Hrest IH]; intro st.
    - cbn [app infer_loop]. now rewrite Hstep.
    - cbn [app infer_loop].
      destruct (infer_sample_step save_result print_result sample st Hreal Hsent)
        as (st1 & -> & _). cbn [bind]. apply IH. }
  now rewrite Hloop.
Qed.

End MoreInference.

Lemma infer_summary_witness :
  exists st,
    _infer (fun _ => 2)
      [mkFeature "the battery life" "battery" (5 # 2) None None None None None None
                 2 None None;
       mkFeature "the screen" "screen" (5 # 2) None None None None None None
                 (-999) None None]
      false true
    = Ok st
    /\ n_total st = 2 /\ n_labeled st = 1 /\ n_correct st = 1.
Proof.
  destruct (infer_summary (fun _ => 2)
              [mkFeature "the battery life" "battery" (5 # 2) None None None None None None
                         2 None None;
               mkFeature "the screen" "screen" (5 # 2) None None None None None None
                         (-999) None None]
              false true)
    as (st & lines & flines & Hrun & _ & Htot & Hlab & Hcor & _).
  - repeat constructor; unfold known; simpl; tauto.
  - exists st. split; [exact Hrun|]. split; [exact Htot|]. split; [exact Hlab|exact Hcor].
Defined.

Lemma infer_unknown_label_witness :
  exists k,
    _infer (fun _ => 2)
      ([mkFeature "the screen" "screen" (5 # 2) None None None None None None
                  (-999) None None]
       ++ mkFeature "the battery life" "battery" (5 # 2) None None None None None None
                    3 None None :: [])
      false true
    = Raise (KeyError (KInt k)).
Proof.
  destruct (infer_unknown_label (fun _ => 2)
              [mkFeature "the screen" "screen" (5 # 2) None None None None None None
                         (-999) None None]
              []
              (mkFeature "the battery life" "battery" (5 # 2) None None None None None None
                         3 None None)
              false true)
    as (k & Hrun & _).
  - repeat constructor; unfold known; simpl; tauto.
  - unfold known. simpl. intros [H _]. repeat (destruct H as [H|H]; [discriminate|]).
    exact H.
  - exists k. exact Hrun.
Defined.

Section MoreEvaluation.

Variable A : Type.
Variable target : A -> Z.
Variable predict : A -> Z.
Variable f1_score : list Z -> list Z -> Q.

Lemma evaluate_batches (test_dataloader : list (list A)) :
  forall st,
    (t_targets_all st = None <-> t_outputs_all st = None) ->
    let seen := concat test_dataloader in
    let st' := fold_left (evaluate_batch A target predict) test_dataloader st in
    n_test_correct st'
    = n_test_correct st
      + Z.of_nat (List.length (filter (fun x => predict x =? target x) seen))
    /\ n_test_total st' = n_test_total st + Z.of_nat (List.length seen)
    /\ (test_dataloader <> [] ->
        t_targets_all st'
        = Some (match t_targets_all st with Some all => all | None => [] end
                ++ map target seen)
        /\ t_outputs_all st'
           = Some (match t_outputs_all st with Some all => all | None => [] end
                   ++ map predict seen)).
Proof.
  induction test_dataloader as [|batch rest IH]; intros st Hboth; cbn zeta.
  - simpl. split; [lia|]. split; [lia|]. intro H. now contradiction H.
  - cbn [fold_left concat].
    set (st1 := evaluate_batch A target predict st batch).
    assert (H1 : t_targets_all st1
                 = Some (match t_targets_all st with Some all => all | None => [] end
                         ++ map target batch)
                 /\ t_outputs_all st1
                    = Some (match t_outputs_all st with Some all => all | None => [] end
                            ++ map predict batch)).
    { unfold st1, evaluate_batch. cbn [t_targets_all t_outputs_all].
      destruct (t_targets_all st) as [ts|] eqn:Ht.
      - destruct (t_outputs_all st) as [os|] eqn:Ho; [now split|].
        destruct Hboth as [_ Hboth]. now specialize (Hboth eq_refl).
      - destruct Hboth as [Hboth _]. rewrite (Hboth eq_refl). now split. }
    destruct H1 as [Ht1 Ho1].
    destruct (IH st1) as (Hc & Hn & Hall).
    { rewrite Ht1, Ho1. split; discriminate. }
    cbn zeta in Hc, Hn, Hall.
    assert (Hc1 : n_test_correct st1
                  = n_test_correct st
                    + Z.of_nat (List.length (filter (fun x => predict x =? target x) batch)))
      by reflexivity.
    assert (Hn1 : n_test_total st1 = n_test_total st + Z.of_nat (List.length batch)).
    { unfold st1, evaluate_batch. cbn [n_test_total]. now rewrite length_map. }
    split; [rewrite Hc, Hc1, filter_app, length_app; lia|].
    split; [rewrite Hn, Hn1, length_app; lia|]. intros _.
    destruct rest as [|batch' rest'].
    + cbn [fold_left concat]. rewrite !app_nil_r. now split.
    + destruct Hall as [Ht Ho]; [discriminate|].
      rewrite Ht, Ho, Ht1, Ho1, !map_app, !app_assoc. now split.
Qed.

(** The accuracy [_evaluate_acc_f1] returns is the share of the test
    examples whose predicted class is their polarity, and the F1 score is
    taken over all of them in order: neither depends on how the loader
    cuts the examples into batches.  The accuracy lies between 0 and 1. *)
Theorem evaluate_acc_f1_value (test_dataloader : list (list A)) :
  let seen := concat test_dataloader in
  let hits := filter (fun x => predict x =? target x) seen in
  seen <> [] ->
  exists test_acc,
    _evaluate_acc_f1 A target predict f1_score test_dataloader
    = Ok (test_acc, f1_score (map target seen) (map predict seen))
    /\ (test_acc == inject_Z (Z.of_nat (List.length hits))
                    / inject_Z (Z.of_nat (List.length seen)))%Q
    /\ (0 <= test_acc <= 1)%Q.
Proof.
  intros seen hits Hseen.
  assert (Hloader : test_dataloader <> []) by (intros ->; now apply Hseen).
  destruct (evaluate_batches test_dataloader (mkEvalState 0 0 None None))
    as (Hc & Hn & Hall); [now split|].
  cbn zeta in Hc, Hn, Hall. cbn [n_test_correct n_test_total] in Hc, Hn.
  destruct (Hall Hloader) as [Ht Ho]. cbn [t_targets_all t_outputs_all app] in Ht, Ho.
  fold seen in Hc, Hn, Ht, Ho. fold hits in Hc.
  unfold _evaluate_acc_f1. rewrite Hn, Hc, Ht, Ho.
  assert (Hpos : (0 < List.length seen)%nat)
    by (destruct seen; [now contradiction Hseen|simpl; lia]).
  assert (Hle : (List.length hits <= List.length seen)%nat) by apply filter_length_le.
  replace (0 + Z.of_nat (List.length seen) =? 0) with false
    by (symmetry; apply Z.eqb_neq; lia).
  eexists. split; [reflexivity|]. rewrite !Z.add_0_l. split; [reflexivity|].
  assert (Hq : (0 < inject_Z (Z.of_nat (List.length seen)))%Q)
    by (rewrite <- (Zlt_Qlt 0); lia).
  assert (Hh : (0 <= inject_Z (Z.of_nat (List.length hits)))%Q)
    by (rewrite <- (Zle_Qle 0); lia).
  assert (Hhs : (inject_Z (Z.of_nat (List.length hits))
                 <= inject_Z (Z.of_nat (List.length seen)))%Q)
    by (rewrite <- Zle_Qle; lia).
  split.
  - apply Qle_shift_div_l; [exact Hq|]. now rewrite Qmult_0_l.
  - apply Qle_shift_div_r; [exact Hq|]. now rewrite Qmult_1_l.
Qed.

(** A loader without an example makes [_evaluate_acc_f1] divide by zero. *)
Theorem evaluate_acc_f1_empty (test_dataloader : list (list A)) :
  concat test_dataloader = [] ->
  _evaluate_acc_f1 A target predict f1_score test_dataloader = Raise ZeroDivisionError.
Proof.
  intro Hseen.
  destruct (evaluate_batches test_dataloader (mkEvalState 0 0 None None))
    as (_ & Hn & _); [now split|].
  cbn zeta in Hn. rewrite Hseen in Hn. cbn [n_test_total] in Hn. simpl in Hn.
  unfold _evaluate_acc_f1. now rewrite Hn.
Qed.

End MoreEvaluation.

Lemma evaluate_acc_f1_value_witness :
  exists test_acc,
    _evaluate_acc_f1 (Z * Z) fst snd (fun _ _ => 0%Q) [[(0, 0); (1, 2)]; [(2, 2)]]
    = Ok (test_acc, 0%Q)
    /\ (test_acc == 2 # 3)%Q.
Proof.
  destruct (evaluate_acc_f1_value (Z * Z) fst snd (fun _ _ => 0%Q)
              [[(0, 0); (1, 2)]; [(2, 2)]])
    as (test_acc & Hrun & Hacc & _).
  - discriminate.
  - exists test_acc. split; [exact Hrun|]. rewrite Hacc. reflexivity.
Defined.

Lemma evaluate_acc_f1_empty_witness :
  _evaluate_acc_f1 (Z * Z) fst snd (fun _ _ => 0%Q) [] = Raise ZeroDivisionError.
Proof.
  apply (evaluate_acc_f1_empty (Z * Z) fst snd (fun _ _ => 0%Q) []). reflexivity.
Defined.

Section Entry.

Variable tokenizer : Tokenizer.
Variable opt : Opt.
Variable calculate_dep_dist : string -> string -> list string * list Z.
Variable is_similar : option (list Z) -> option (list Z) -> bool.
Variable predict : Feature -> Z.

Lemma process_data_raises (samples : list string) (ignore_error : bool)
      (out : list printed) (e : exn) :
  process_data tokenizer opt calculate_dep_dist is_similar samples ignore_error
  = (out, Raise e) ->
  ignore_error = false
  /\ exists text', e = RuntimeError ["Error while processing:"; text'].
Proof.
  unfold process_data.
  pose proof (process_samples_spec tokenizer opt calculate_dep_dist
                ignore_error samples [] []) as H.
  destruct (process_samples tokenizer opt calculate_dep_dist ignore_error samples [] [])
    as [out' [built|e']].
  - cbn [bind].
    destruct (link_neighbours_keeps opt is_similar built) as (linked_data & -> & _).
    discriminate.
  - destruct H as (Hstrict & _ & _ & _ & _ & text' & _ & _ & _ & _ & _ & ->).
    cbn [bind]. intros [= _ <-]. split; [exact Hstrict|]. now exists text'.
Qed.

Lemma prepare_infer_sample_raises (text : string) (out : list printed) (e : exn) :
  prepare_infer_sample tokenizer opt calculate_dep_dist is_similar text
  <> (out, Raise e).
Proof.
  unfold prepare_infer_sample.
  destruct (parse_sample text) as [samples out0].
  destruct (process_data tokenizer opt calculate_dep_dist is_similar samples true)
    as [out' [all_data|e']] eqn:E; [discriminate|].
  apply process_data_raises in E. now destruct E.
Qed.

Lemma prepare_infer_dataset_raises (readlines : string -> result (list string))
      (infer_data_path : string) (ignore_error : bool) (out : list printed) (e : exn) :
  prepare_infer_dataset tokenizer opt calculate_dep_dist is_similar readlines
    infer_data_path ignore_error
  = (out, Raise e) ->
  (readlines infer_data_path = Raise e /\ out = [Print ["buliding word indices..."]])
  \/ (ignore_error = false
      /\ exists text', e = RuntimeError ["Error while processing:"; text']).
Proof.
  unfold prepare_infer_dataset.
  destruct (readlines infer_data_path) as [lines|cause].
  - destruct (fold_left _ lines ([], [])) as [samples out0].
    destruct (process_data tokenizer opt calculate_dep_dist is_similar samples ignore_error)
      as [out' [all_data|e']] eqn:E; [discriminate|].
    intros [= _ <-]. right. now apply process_data_raises in E.
  - intros [= <- <-]. left. now split.
Qed.

Lemma infer_sample_cases (save_result print_result : bool) (sample : Feature)
      (st : InferState) :
  (exists st',
      infer_sample predict save_result print_result sample st = Ok st'
      /\ (save_result = false -> fout st' = fout st))
  \/ exists k,
      infer_sample predict save_result print_result sample st = Raise (KeyError (KInt k))
      /\ ~ known k.
Proof.
  unfold infer_sample, known.
  destruct (in_dec Z.eq_dec (polarity sample) [0; 1; 2; -999]) as [Hreal|Hreal].
  - destruct (sentiments_keys _ Hreal) as (label & Hlabel & _).
    rewrite Hlabel. cbn [bind].
    destruct (in_dec Z.eq_dec (predict sample) [0; 1; 2; -999]) as [Hsent|Hsent].
    + destruct (sentiments_keys _ Hsent) as (name & Hname & _). rewrite Hname.
      left. destruct (polarity sample =? -999); cbn [bind];
        (eexists; split; [reflexivity|]; now intros ->).
    + rewrite (sentiments_missing _ Hsent). right. exists (predict sample).
      destruct (polarity sample =? -999); cbn [bind]; now split.
  - rewrite (sentiments_missing _ Hreal). right. exists (polarity sample). now split.
Qed.

Lemma infer_cases (all_data : list Feature) (save_result print_result : bool) :
  (exists st,
      _infer predict all_data save_result print_result = Ok st
      /\ (save_result = false -> fout st = []))
  \/ exists k,
      _infer predict all_data save_result print_result = Raise (KeyError (KInt k))
      /\ ~ known k.
Proof.
  unfold _infer.
  assert (Hloop : forall st,
             (exists st',
                 infer_loop predict save_result print_result all_data st = Ok st'
                 /\ (save_result = false -> fout st' = fout st))
             \/ exists k,
                 infer_loop predict save_result print_result all_data st
                 = Raise (KeyError (KInt k))
                 /\ ~ known k).
  { induction all_data as [|sample rest IH]; intro st; cbn [infer_loop].
    - left. exists st. now split.
    - destruct (infer_sample_cases save_result print_result sample st)
        as [(st1 & -> & Hfout1)|(k & -> & Hk)]; cbn [bind].
      + destruct (IH st1) as [(st' & -> & Hfout)|(k & -> & Hk)].
        * left. exists st'. split; [reflexivity|].
          intro Hs. now rewrite Hfout, Hfout1.
        * right. now exists k.
      + right. now exists k. }
  destruct (Hloop (mkInferState [] 0 0 0 [] [])) as [(st & -> & Hfout)|(k & -> & Hk)];
    cbn [bind].
  - left. eexists. split; [reflexivity|]. cbn [fout]. intros ->. now apply Hfout.
  - right. now exists k.
Qed.

(** [infer] on one line of text.  An empty text raises [RuntimeError]
    before anything is printed.  On any other text no exception of the
    preparation reaches the caller: the call either returns, having
    written no result line, or raises [KeyError] on an integer that is
    not a key of [sentiments].  The tokenizer, [is_similar] and the model
    are taken to return, and [copy_side_aspect] is modelled from the
    spec. *)
Theorem infer_outcomes (text : string) (clear_input_samples : bool) :
  match infer predict tokenizer opt calculate_dep_dist is_similar
          text clear_input_samples with
  | (out, Ok st) => text <> "" /\ fout st = []
  | (out, Raise e) =>
      (text = "" /\ out = [] /\ e = RuntimeError ["Please specify your dataset path!"])
      \/ (text <> "" /\ exists k, e = KeyError (KInt k) /\ ~ known k)
  end.
Proof.
  unfold infer. destruct text as [|c text']; [left; now split|].
  pose proof (prepare_infer_sample_raises (String c text')) as Hprep.
  destruct (prepare_infer_sample tokenizer opt calculate_dep_dist is_similar
              (String c text')) as [out [all_data|e]].
  - cbn [bind].
    destruct (infer_cases all_data false true) as [(st & -> & Hfout)|(k & -> & Hk)].
    + split; [discriminate|now apply Hfout].
    + right. split; [discriminate|]. now exists k.
  - now contradiction (Hprep out e).
Qed.

(** Every way [batch_infer] can end.  It raises [TypeError] on the default
    path [None]; [FileNotFoundError] with its own message, nothing being
    printed, when the path is a directory in which [find_target_file]
    fails; the exception of [open], right after the first print, when the
    file cannot be read; [RuntimeError] naming the text of the first sample
    that fails, and only when [ignore_error] is off; the exception of
    opening the result file, and only with [save_result]; and else only
    [KeyError] on an integer that is not a key of [sentiments].  When it
    returns without [save_result], no result line was written.  The
    tokenizer, [is_similar] and the model are taken to return, printing
    and writing to an opened file to succeed, and [copy_side_aspect] is
    modelled from the spec. *)
Theorem batch_infer_outcomes (isdir : string -> bool)
        (find_target_file : string -> result string)
        (readlines : string -> result (list string))
        (open_results : string -> result unit)
        (test_dataset_path : option string) (save_result ignore_error : bool) :
  match batch_infer predict tokenizer opt calculate_dep_dist is_similar
          isdir find_target_file readlines open_results
          test_dataset_path save_result ignore_error with
  | (out, Ok st) =>
      test_dataset_path <> None /\ (save_result = false -> fout st = [])
  | (out, Raise e) =>
      (test_dataset_path = None /\ out = [] /\ e = TypeError)
      \/ (exists path cause,
             test_dataset_path = Some path /\ isdir path = true
             /\ find_target_file path = Raise cause /\ out = []
             /\ e = FileNotFoundError "Can not find inference dataset!")
      \/ (exists file,
             readlines file = Raise e /\ out = [Print ["buliding word indices..."]])
      \/ (ignore_error = false
          /\ exists text', e = RuntimeError ["Error while processing:"; text'])
      \/ (save_result = true
          /\ exists file, open_results (file ++ ".results")%string = Raise e)
      \/ (exists k, e = KeyError (KInt k) /\ ~ known k)
  end.
Proof.
  unfold batch_infer.
  destruct test_dataset_path as [path|]; [|left; now repeat split].
  assert (Hlast : forall file all_data,
             match
               (_ <- (if save_result && negb (String.eqb file "")
                      then open_results (file ++ ".results")%string else Ok tt) ;;
                _infer predict all_data (save_result && negb (String.eqb file "")) true)
             with
             | Ok st => save_result = false -> fout st = []
             | Raise e =>
                 (save_result = true
                  /\ exists file, open_results (file ++ ".results")%string = Raise e)
                 \/ (exists k, e = KeyError (KInt k) /\ ~ known k)
             end).
  { intros file all_data.
    assert (Hrun : match _infer predict all_data
                           (save_result && negb (String.eqb file "")) true with
                   | Ok st => save_result = false -> fout st = []
                   | Raise e => exists k, e = KeyError (KInt k) /\ ~ known k
                   end).
    { destruct (infer_cases all_data (save_result && negb (String.eqb file "")) true)
        as [(st & -> & Hfout)|(k & -> & Hk)].
      - intros ->. now apply Hfout.
      - now exists k. }
    destruct (save_result && negb (String.eqb file "")) eqn:Hsave.
    - destruct (open_results (file ++ ".results")%string) as [[]|e] eqn:Hopen; cbn [bind].
      + destruct (_infer predict all_data true true); [exact Hrun|now right].
      + left. apply andb_true_iff in Hsave. destruct Hsave as [-> _].
        split; [reflexivity|]. now exists file.
    - cbn [bind]. destruct (_infer predict all_data false true); [exact Hrun|now right]. }
  assert (Hinfer : forall file all_data out,
             match
               (out,
                _ <- (if save_result && negb (String.eqb file "")
                      then open_results (file ++ ".results")%string else Ok tt) ;;
                _infer predict all_data (save_result && negb (String.eqb file "")) true)
             with
             | (_, Ok st) => Some path <> None /\ (save_result = false -> fout st = [])
             | (out0, Raise e) =>
                 (Some path = None /\ out0 = [] /\ e = TypeError)
                 \/ (exists path0 cause,
                        Some path = Some path0 /\ isdir path0 = true
                        /\ find_target_file path0 = Raise cause /\ out0 = []
                        /\ e = FileNotFoundError "Can not find inference dataset!")
                 \/ (exists file0,
                        readlines file0 = Raise e
                        /\ out0 = [Print ["buliding word indices..."]])
                 \/ (ignore_error = false
                     /\ exists text', e = RuntimeError ["Error while processing:"; text'])
                 \/ (save_result = true
                     /\ exists file0, open_results (file0 ++ ".results")%string = Raise e)
                 \/ (exists k, e = KeyError (KInt k) /\ ~ known k)
             end).
  { intros file all_data out. specialize (Hlast file all_data).
    match type of Hlast with
    | match ?c with _ => _ end => destruct c as [st|e]
    end.
    - split; [discriminate|exact Hlast].
    - right. right. right. right. exact Hlast. }
  assert (Hfail : forall file out e,
             prepare_infer_dataset tokenizer opt calculate_dep_dist is_similar
               readlines file ignore_error = (out, Raise e) ->
             (exists file0,
                 readlines file0 = Raise e /\ out = [Print ["buliding word indices..."]])
             \/ (ignore_error = false
                 /\ exists text', e = RuntimeError ["Error while processing:"; text'])
             \/ (save_result = true
                 /\ exists file0, open_results (file0 ++ ".results")%string = Raise e)
             \/ (exists k, e = KeyError (KInt k) /\ ~ known k)).
  { intros file out e E. apply prepare_infer_dataset_raises in E.
    destruct E as [[Hread ->]|H]; [left; exists file; now split|right; left; exact H]. }
  destruct (isdir path) eqn:Hdir.
  - destruct (find_target_file path) as [file|cause] eqn:Hfind.
    2:{ right. left. exists path, cause. now repeat split. }
    destruct (prepare_infer_dataset tokenizer opt calculate_dep_dist is_similar
                readlines file ignore_error) as [out [all_data|e]] eqn:E; cbn [bind].
    + rewrite E. cbn [bind]. apply (Hinfer file all_data (out ++ out)).
    + right. right. exact (Hfail file out e E).
  - destruct (prepare_infer_dataset tokenizer opt calculate_dep_dist is_similar
                readlines path ignore_error) as [out [all_data|e]] eqn:E;
      cbn [bind app].
    + apply (Hinfer path all_data out).
    + right. right. exact (Hfail path out e E).
Qed.

End Entry.

(** The default call [batch_infer()] and a path that is no directory and no
    file. *)
Lemma batch_infer_default_path :
  batch_infer (fun _ => 1) (Toy.tokenizer 16) (Toy.opt "bert_base" "cdw" 3 16 4)
    Toy.calculate_dep_dist Toy.is_similar
    (fun _ => false) (fun _ => Raise IndexError) (fun _ => Ok []) (fun _ => Ok tt)
    None false true
  = ([], Raise TypeError).
Proof. reflexivity. Qed.

Lemma batch_infer_missing_file :
  batch_infer (fun _ => 1) (Toy.tokenizer 16) (Toy.opt "bert_base" "cdw" 3 16 4)
    Toy.calculate_dep_dist Toy.is_similar
    (fun _ => false) (fun _ => Raise IndexError)
    (fun _ => Raise (FileNotFoundError "[Errno 2] No such file or directory"))
    (fun _ => Ok tt)
    (Some "missing.txt") false true
  = ([Print ["buliding word indices..."]],
     Raise (FileNotFoundError "[Errno 2] No such file or directory")).
Proof. reflexivity. Qed.

Lemma split_absent (sep s : string) :
  PyStr.contains sep s = false -> PyStr.split sep s = [s].
Proof.
  unfold PyStr.split. induction s as [|c s IH]; intro H; [reflexivity|].
  cbn [PyStr.contains] in H. apply orb_false_iff in H. destruct H as [Hstart Hrest].
  cbn [PyStr.split_from]. rewrite Hstart, (IH Hrest). reflexivity.
Qed.

Section Rejected.

Variable tokenizer : Tokenizer.
Variable opt : Opt.
Variable calculate_dep_dist : string -> string -> list string * list Z.
Variable is_similar : option (list Z) -> option (list Z) -> bool.
Variable predict : Feature -> Z.

(** A sample without reference polarity that does not hold exactly one
    aspect between two [[ASP]] markers is rejected with [ValueError] by the
    unpacking of its three parts; so is a sample in which [parse_sample]
    has marked two occurrences of the aspect. *)
Theorem process_sample_needs_one_aspect (text : string) :
  PyStr.strip text <> "" ->
  PyStr.contains "!sent!" text = false ->
  List.length (PyStr.split "[ASP]" text) <> 3%nat ->
  process_sample tokenizer opt calculate_dep_dist text = (text, Raise ValueError).
Proof.
  intros Hblank Hsent Hparts. unfold process_sample, check_polarity.
  destruct (String.eqb_spec "" (PyStr.strip text)) as [E|_]; [now contradiction Hblank|].
  rewrite Hsent. cbn [bind]. unfold build_feature.
  destruct (PyStr.split "[ASP]" text) as [|a [|b [|c [|d rest]]]]; try reflexivity.
  now contradiction Hparts.
Qed.

(** [infer] on a text without an [[ASP]] marker and without reference
    polarity: no sample is built, nothing is printed by the preparation,
    and the result is the empty list with the summary of zero samples and
    no accuracy. *)
Theorem infer_without_aspect (text : string) (clear_input_samples : bool) :
  text <> "" ->
  PyStr.contains "!sent!" text = false ->
  PyStr.contains "[ASP]" text = false ->
  infer predict tokenizer opt calculate_dep_dist is_similar text clear_input_samples
  = ([], Ok (mkInferState [] 0 0 0 []
               [TotalSamples 0; LabeledSamples 0; PredictionAccuracy None])).
Proof.
  intros Htext Hsent Hasp. unfold infer.
  destruct text as [|c text']; [now contradiction Htext|].
  unfold prepare_infer_sample, parse_sample, parse_sample_try.
  rewrite Hsent. cbn [negb]. rewrite (split_absent _ _ Hasp). reflexivity.
Qed.

End Rejected.

Lemma process_sample_needs_one_aspect_witness :
  process_sample (Toy.tokenizer 16) (Toy.opt "bert_base" "cdw" 3 16 4) Toy.calculate_dep_dist
    "good [ASP]food[ASP] but the [ASP]food[ASP] was cold"
  = ("good [ASP]food[ASP] but the [ASP]food[ASP] was cold", Raise ValueError).
Proof.
  apply process_sample_needs_one_aspect.
  - vm_compute. discriminate.
  - reflexivity.
  - vm_compute. lia.
Defined.

Lemma infer_without_aspect_witness :
  infer (fun _ => 2) (Toy.tokenizer 16) (Toy.opt "bert_base" "cdw" 3 16 4)
    Toy.calculate_dep_dist Toy.is_similar "the food was cold" true
  = ([], Ok (mkInferState [] 0 0 0 []
               [TotalSamples 0; LabeledSamples 0; PredictionAccuracy None])).
Proof.
  apply infer_without_aspect.
  - discriminate.
  - reflexivity.
  - reflexivity.
Defined.
